(** * RavenCare: triage pipeline and doctor matching

    A shallow embedding of the scoring and orchestration code of RavenCare
    ([src/services/advanced_matcher.py], [src/services/doctor_matcher.py],
    [src/triage_orchestrator.py] and [app.py]).

    Conventions of the embedding.
    - A Python [str] is a [string]; the case mappings and the character
      tests ([isalnum], [isdigit], white space) are those of the ASCII
      characters.  Statements that depend on a character test are made
      for ASCII strings ([PyStr.isascii]).
    - A Python [dict] whose keys are fixed by the code is a record with one
      optional field per key the code reads: [None] is a missing key, and
      the code's [d.get(k, default)] is [default] on the option.  A dict
      whose iteration order matters is an association list in insertion
      order.
    - JSON numbers are exact: ratings and scores live in [Q], counts and
      integer scores in [Z].  The code adds binary floating-point numbers
      where the model adds rationals; for ratings between 0 and 5 the two
      differ by the rounding of a few additions of numbers below 256, less
      than a billionth.  Bounds and whole or half-valued scores carry
      over; statements that order two scores concern differences far
      above that rounding or carry an explicit margin, and none is made
      about the last digits of a score.
    - Python objects that are copied or written to have an identity: they
      live in a store, and the catalog refers to them by location.
    - Console output and time stamps are left out. *)

From Stdlib Require Import String Ascii List ZArith QArith Bool Lia Lqa.
From stdpp Require Import base option list.
Import ListNotations.

Local Open Scope string_scope.
Local Open Scope list_scope.
Local Open Scope Z_scope.

(** ** Python string primitives *)

Module PyStr.

Definition is_upper (c : ascii) : bool :=
  let n := nat_of_ascii c in (Nat.leb 65 n && Nat.leb n 90)%bool.

Definition is_lower (c : ascii) : bool :=
  let n := nat_of_ascii c in (Nat.leb 97 n && Nat.leb n 122)%bool.

Definition to_lower (c : ascii) : ascii :=
  if is_upper c then ascii_of_nat (nat_of_ascii c + 32) else c.

Definition to_upper (c : ascii) : ascii :=
  if is_lower c then ascii_of_nat (nat_of_ascii c - 32) else c.

(** [str.isspace] on one character: tab .. carriage return, the four
    separators 28 .. 31, and the blank. *)
Definition is_space (c : ascii) : bool :=
  let n := nat_of_ascii c in
  ((Nat.leb 9 n && Nat.leb n 13) || (Nat.leb 28 n && Nat.leb n 32))%bool.

(** [s.lower()] *)
Fixpoint lower (s : string) : string :=
  match s with
  | EmptyString => EmptyString
  | String c t => String (to_lower c) (lower t)
  end.

(** [s.title()]: CPython walks the string with a flag telling whether the
    previous character was cased; a cased character is upper-cased when
    the flag is down and lower-cased when it is up. *)
Fixpoint title_from (previous_is_cased : bool) (s : string) : string :=
  match s with
  | EmptyString => EmptyString
  | String c t =>
      if is_lower c then
        String (if previous_is_cased then c else to_upper c) (title_from true t)
      else if is_upper c then
        String (if previous_is_cased then to_lower c else c) (title_from true t)
      else String c (title_from false t)
  end.

Definition title (s : string) : string := title_from false s.

(** [needle in hay] on strings *)
Fixpoint contains (needle hay : string) : bool :=
  (String.prefix needle hay ||
   match hay with
   | EmptyString => false
   | String _ t => contains needle t
   end)%bool.

(** [s.replace(a, b)] for one-character [a] and [b] *)
Fixpoint replace_char (a b : ascii) (s : string) : string :=
  match s with
  | EmptyString => EmptyString
  | String c t =>
      String (if Ascii.eqb c a then b else c) (replace_char a b t)
  end.

(** [sep.join(parts)] *)
Fixpoint join (sep : string) (parts : list string) : string :=
  match parts with
  | [] => EmptyString
  | [p] => p
  | p :: rest => (p ++ sep ++ join sep rest)%string
  end.

(** [s.split()]: split on runs of white space, no empty words.  [cur] is
    the word being read, reversed. *)
Fixpoint rev_string (acc s : string) : string :=
  match s with
  | EmptyString => acc
  | String c t => rev_string (String c acc) t
  end.

Definition flush (cur : string) (k : list string) : list string :=
  match cur with
  | EmptyString => k
  | _ => rev_string EmptyString cur :: k
  end.

Fixpoint split_from (cur : string) (s : string) : list string :=
  match s with
  | EmptyString => flush cur []
  | String c t =>
      if is_space c then flush cur (split_from EmptyString t)
      else split_from (String c cur) t
  end.

Definition split (s : string) : list string := split_from EmptyString s.

(** Truth value of a string: empty is false. *)
Definition truthy (s : string) : bool :=
  match s with EmptyString => false | _ => true end.

(** [s.isascii()]: every character has a code below 128.  On such strings
    the functions of this module and the character tests of the services
    are those of Python; other characters are outside the model. *)
Fixpoint isascii (s : string) : bool :=
  match s with
  | EmptyString => true
  | String c t => (Nat.ltb (nat_of_ascii c) 128 && isascii t)%bool
  end.

End PyStr.

(** ** Ordered dictionaries *)

(** [d[k]] / [k in d] on a dict kept as an association list. *)
Fixpoint assoc {V} (d : list (string * V)) (k : string) : option V :=
  match d with
  | [] => None
  | (k', v) :: rest => if String.eqb k' k then Some v else assoc rest k
  end.

(** [x in l] on a list of strings. *)
Definition py_in (x : string) (l : list string) : bool :=
  existsb (String.eqb x) l.

(** [max(items, key=f)]: the first item whose key is the greatest; [None]
    stands for the [ValueError] on an empty sequence. *)
Fixpoint py_max_from {A} (f : A -> Z) (best : A) (l : list A) : A :=
  match l with
  | [] => best
  | x :: rest => py_max_from f (if f best <? f x then x else best) rest
  end.

Definition py_max {A} (f : A -> Z) (l : list A) : option A :=
  match l with
  | [] => None
  | x :: rest => Some (py_max_from f x rest)
  end.

(** ** Subspecialty hints and severity ([advanced_matcher.py]) *)

Module AdvancedMatchingFeatures.

(** The class constant [SUBSPECIALTY_KEYWORDS], in source order. *)
Definition SUBSPECIALTY_KEYWORDS
  : list (string * list (string * list string)) :=
  [ ("Cardiology",
      [ ("interventional",
          ["angioplasty"; "stent"; "catheterization"; "coronary";
           "heart attack"; "myocardial infarction"; "acute coronary"]);
        ("electrophysiology",
          ["arrhythmia"; "palpitations"; "irregular heartbeat";
           "atrial fibrillation"; "afib"; "flutter"; "tachycardia";
           "bradycardia"; "heart rhythm"]);
        ("heart_failure",
          ["shortness of breath"; "swelling"; "edema"; "fatigue";
           "weak heart"; "heart failure"; "cardiomyopathy"]);
        ("congenital",
          ["birth defect"; "congenital"; "hole in heart"; "murmur"]) ]);
    ("Gastroenterology",
      [ ("liver",
          ["jaundice"; "hepatitis"; "cirrhosis"; "liver";
           "yellow skin"; "ascites"; "liver disease"]);
        ("inflammatory_bowel",
          ["crohn"; "colitis"; "inflammatory bowel"; "ibd";
           "bloody stool"; "chronic diarrhea"]);
        ("pancreas", ["pancreatitis"; "pancreas"; "diabetes"]);
        ("acid_reflux", ["gerd"; "acid reflux"; "heartburn"; "esophagus"]) ]);
    ("Neurology",
      [ ("stroke",
          ["stroke"; "paralysis"; "facial drooping"; "slurred speech";
           "sudden weakness"; "tia"; "transient ischemic"]);
        ("epilepsy", ["seizure"; "epilepsy"; "convulsion"; "fits"]);
        ("migraine", ["migraine"; "severe headache"; "visual aura"]);
        ("movement_disorders",
          ["parkinson"; "tremor"; "movement disorder"; "dystonia"]);
        ("dementia",
          ["alzheimer"; "dementia"; "memory loss"; "cognitive decline"]) ]);
    ("Orthopedics",
      [ ("sports",
          ["sports injury"; "ligament tear"; "acl"; "mcl";
           "meniscus"; "athletic injury"]);
        ("spine",
          ["back pain"; "spine"; "disc"; "herniated"; "sciatica";
           "spinal"; "vertebra"]);
        ("joint_replacement",
          ["knee replacement"; "hip replacement"; "arthritis";
           "joint pain"; "osteoarthritis"]);
        ("trauma", ["fracture"; "broken bone"; "trauma"; "injury"]) ]);
    ("Pulmonology",
      [ ("asthma", ["asthma"; "wheezing"; "breathing difficulty"; "inhaler"]);
        ("copd", ["copd"; "emphysema"; "chronic bronchitis"; "smoker"]);
        ("sleep", ["sleep apnea"; "snoring"; "cpap"]);
        ("interstitial",
          ["fibrosis"; "interstitial lung"; "pulmonary fibrosis"]) ]);
    ("Psychiatry",
      [ ("depression",
          ["depression"; "low mood"; "sadness"; "hopelessness";
           "loss of interest"; "suicidal"]);
        ("anxiety", ["anxiety"; "panic"; "worry"; "nervousness"; "ocd"]);
        ("bipolar", ["bipolar"; "manic"; "mood swings"]);
        ("psychosis",
          ["schizophrenia"; "psychosis"; "hallucination"; "delusion"]) ]);
    ("Dermatology",
      [ ("acne", ["acne"; "pimples"; "blackheads"; "breakout"]);
        ("psoriasis", ["psoriasis"; "scaly skin"; "plaque"]);
        ("skin_cancer", ["mole"; "melanoma"; "skin cancer"; "changing spot"]);
        ("eczema", ["eczema"; "atopic dermatitis"; "itchy rash"]) ]);
    ("ENT",
      [ ("hearing", ["hearing loss"; "deaf"; "tinnitus"; "ringing in ear"]);
        ("sinus", ["sinusitis"; "sinus"; "nasal congestion"]);
        ("throat",
          ["sore throat"; "tonsillitis"; "hoarseness"; "voice problem"]) ]) ].

(** The class constant [EMERGENCY_KEYWORDS]. *)
Definition EMERGENCY_KEYWORDS : list string :=
  ["chest pain"; "heart attack"; "stroke"; "seizure";
   "severe bleeding"; "difficulty breathing"; "unconscious";
   "severe pain"; "suicide"; "overdose"; "trauma"].

(** [f"{symptoms} {' '.join(conditions)}".lower()] *)
Definition text_to_analyze (symptoms : string) (conditions : list string)
  : string :=
  PyStr.lower (symptoms ++ " " ++ PyStr.join " " conditions)%string.

(** [sum(1 for keyword in keywords if keyword.lower() in text)] *)
Definition match_count (text : string) (keywords : list string) : Z :=
  Z.of_nat
    (List.length (List.filter (fun kw => PyStr.contains (PyStr.lower kw) text) keywords)).

(** The dict [subspecialty_matches]: one entry, in table order, for every
    subspecialty with a positive count. *)
Fixpoint subspecialty_matches (text : string)
    (subtable : list (string * list string)) : list (string * Z) :=
  match subtable with
  | [] => []
  | (subspec, keywords) :: rest =>
      let n := match_count text keywords in
      if 0 <? n then (subspec, n) :: subspecialty_matches text rest
      else subspecialty_matches text rest
  end.

(** [key.replace('_', ' ').title()] *)
Definition hint_label (key : string) : string :=
  PyStr.title (PyStr.replace_char "_" " " key).

Definition extract_subspecialty_hints
    (symptoms specialty : string) (conditions : list string)
  : option string :=
  let specialty_normalized := PyStr.title specialty in
  match assoc SUBSPECIALTY_KEYWORDS specialty_normalized with
  | None => None
  | Some subtable =>
      let text := text_to_analyze symptoms conditions in
      match py_max snd (subspecialty_matches text subtable) with
      | Some best_match => Some (hint_label (fst best_match))
      | None => None
      end
  end.

Inductive severity := critical | high | moderate | low.

(** [any(keyword in symptoms_lower for keyword in EMERGENCY_KEYWORDS)] *)
Definition has_emergency (symptoms : string) : bool :=
  existsb (fun kw => PyStr.contains kw (PyStr.lower symptoms))
          EMERGENCY_KEYWORDS.

Definition calculate_condition_severity
    (symptoms : string) (urgency_score : Z) : severity :=
  if (has_emergency symptoms || (90 <=? urgency_score))%bool then critical
  else if 70 <=? urgency_score then high
  else if 40 <=? urgency_score then moderate
  else low.

(** *** [detect_multi_specialty_need] (lines 238-275) *)

(** The dicts under [analyses], with the keys this function reads. *)
Record mapping_view := { secondary_specialties : option (list string) }.
Record evaluation_view := { warnings : option (list string) }.
Record analyses_view := {
  view_gemini : option mapping_view;
  view_o4mini : option evaluation_view }.

Definition multi_system_keywords : list string :=
  ["multiple"; "systemic"; "comprehensive"; "coordinated"].

(** [any(kw in warning.lower() for kw in multi_system_keywords)] *)
Definition is_multi_system (warning : string) : bool :=
  existsb (fun kw => PyStr.contains kw (PyStr.lower warning))
          multi_system_keywords.

(** [list(set(l))]: the distinct items of [l].  Python does not fix their
    order; the model keeps one, and only facts that hold in any order are
    stated of it. *)
Definition list_of_set (l : list string) : list string :=
  List.nodup string_dec l.

Definition detect_multi_specialty_need (a : analyses_view) : list string :=
  let gemini := default {| secondary_specialties := None |} (view_gemini a) in
  let secondary := default [] (secondary_specialties gemini) in
  let o4mini := default {| warnings := None |} (view_o4mini a) in
  let warnings := default [] (warnings o4mini) in
  let additional_specialties :=
    match secondary with
    | _ :: _ => List.firstn 2 secondary
    | [] => []
    end in
  let additional_specialties :=
    if existsb is_multi_system warnings
    then additional_specialties ++ ["Internal Medicine"]
    else additional_specialties in
  list_of_set additional_specialties.

(** *** [suggest_appointment_preparation] (lines 347-408) *)

Definition specialty_prep : list (string * list string) :=
  [ ("Cardiology",
      ["Bring previous ECG/echo reports if available";
       "Note any chest pain episodes with timing"]);
    ("Gastroenterology",
      ["Keep a food diary for 3 days before visit";
       "Note bowel movement patterns"]);
    ("Neurology",
      ["Document seizure episodes if applicable";
       "Bring previous brain imaging (MRI/CT) reports"]);
    ("Orthopedics",
      ["Bring previous X-rays or MRI scans";
       "Note which movements cause pain"]);
    ("Dermatology",
      ["Document when skin changes started";
       "Avoid makeup on affected areas"]);
    ("Psychiatry",
      ["Keep a mood diary";
       "List previous treatments tried"]) ].

Definition high_urgency_notice : string :=
  "⚠️ HIGH URGENCY: Go to emergency room if symptoms worsen".

Definition suggest_appointment_preparation
    (specialty : string) (urgency_score : Z) (conditions : list string)
  : list string :=
  let suggestions :=
    ["Bring valid ID and insurance card";
     "List all current medications with dosages"] in
  let suggestions :=
    match assoc specialty_prep specialty with
    | Some specific => suggestions ++ specific
    | None => suggestions
    end in
  if 80 <=? urgency_score then high_urgency_notice :: suggestions
  else suggestions.

End AdvancedMatchingFeatures.

(** ** Exact numbers *)

Definition Qlt_bool (x y : Q) : bool := negb (Qle_bool y x).

(** [round(x, 2)] on the exact value: the nearest multiple of 1/100, a tie
    going to the even one; the result is kept in lowest terms.  (The code
    rounds the binary number, which can differ in the last place when the
    exact value is at a tie.) *)
Definition round_half_even (q : Q) : Z :=
  let n := Qnum q in
  let d := Z.pos (Qden q) in
  let fl := n / d in
  let r := n mod d in
  if 2 * r <? d then fl
  else if d <? 2 * r then fl + 1
  else if Z.even fl then fl else fl + 1.

Definition round2 (q : Q) : Q :=
  Qred (Qmake (round_half_even (q * 100)) 100).

(** ** The object store *)

(** A value that is [True] or a string, as under the key
    [urgency_experience_match]. *)
Inductive flag := FlagTrue | FlagStr (s : string).

(** Result of one scoring pass, the dict [details] of the source.  Where a
    variable holds either such a dict or the empty dict [{}], it is an
    [option details] and [None] is [{}]. *)
Record details := {
  slot_match : string;
  language_match : bool;
  rating_score : Q;
  details_experience_years : Z;
  sub_spec_match : option string;
  has_awards : option bool;
  age_appropriate : option string;
  urgency_experience_match : option flag }.

(** A doctor entry of a specialty file, with the three keys the matcher
    adds to its result. *)
Record doctor := {
  name : option string;
  slots : option (list string);
  languages_spoken : option (list string);
  patient_rating : option Q;
  experience_years : option Z;
  sub_specialization : option string;
  awards : option (list string);
  match_score : option Q;
  match_details : option (option details);
  match_quality : option string }.

(** [k in d] on a record standing for a dict. *)
Definition present {A} (o : option A) : bool :=
  match o with Some _ => true | None => false end.

(** Truth value of a doctor dict: only the empty dict is false. *)
Definition doctor_truthy (d : doctor) : bool :=
  (present (name d) || present (slots d)
   || present (languages_spoken d) || present (patient_rating d)
   || present (experience_years d) || present (sub_specialization d)
   || present (awards d) || present (match_score d)
   || present (match_details d) || present (match_quality d))%bool.

(** Doctor objects live in a store indexed by allocation order; a location
    is an index.  [doctor.copy()] allocates at the end; the lists nested in
    a doctor are shared by the copy and only ever read by the matcher, so
    they are kept as values. *)
Abbreviation loc := nat (only parsing).
Abbreviation store := (list doctor) (only parsing).

Definition copy (d : doctor) (h : store) : loc * store :=
  (List.length h, h ++ [d]).

(** A department of the catalog: the matcher reads its key [doctors]. *)
Record department := { dept_doctors : option (list loc) }.

(** [self.doctors_database], in insertion order. *)
Definition database := list (string * department).

(** ** The matching engine ([doctor_matcher.py]) *)

Module DoctorMatcher.

(** *** Specialty resolution (lines 101-120) *)

(** The test of the fuzzy loop, on one catalog key. *)
Definition fuzzy_match (specialty key : string) : bool :=
  let specialty_lower := PyStr.lower specialty in
  let key_lower := PyStr.lower key in
  (PyStr.contains specialty_lower key_lower
   || PyStr.contains key_lower specialty_lower)%bool.

Definition resolve_department (db : database) (specialty : string)
  : option department :=
  let specialty_normalized := PyStr.title specialty in
  match assoc db specialty_normalized with
  | Some department => Some department
  | None =>
      match List.find (fun kv => fuzzy_match specialty (fst kv)) db with
      | Some (_, department) => Some department
      | None => None
      end
  end.

(** *** Scoring of one doctor (lines 133-224) *)

Section Scoring.

Variable specialty_normalized : string.
Variable preferred_slot : string.
Variable patient_language : string.
Variable urgency_score : Z.
Variable patient_age : option Z.
Variable sub_specialization_hint : option string.
Variable patient_conditions : option (list string).

(** 1. Slot availability, before the urgency boost. *)
Definition slot_base (d : doctor) : Z * string :=
  let doctor_slots := default [] (slots d) in
  if py_in preferred_slot doctor_slots then (40, "exact")
  else match doctor_slots with
       | _ :: _ => (20, "alternative")
       | [] => (0, "none")
       end.

(** The slot contribution: [slot_score *= 1.5] when urgency is high. *)
Definition slot_score (d : doctor) : Q :=
  let base := inject_Z (fst (slot_base d)) in
  if 70 <=? urgency_score then (base * (3 # 2))%Q else base.

(** 2. Language match. *)
Definition language_matches (d : doctor) : bool :=
  py_in patient_language (default [] (languages_spoken d)).

Definition language_score (d : doctor) : Z :=
  if language_matches d then 25 else 0.

(** 3. Rating. *)
Definition rating_points (d : doctor) : Q :=
  (default 0 (patient_rating d) * 4)%Q.

(** 4. Experience. *)
Definition experience_score (d : doctor) : Z :=
  Z.min (default 0 (experience_years d)) 15.

(** 5. Sub-specialization. *)
Definition sub_spec_score (d : doctor) : Z * option string :=
  let sub_spec := PyStr.lower (default "" (sub_specialization d)) in
  if PyStr.truthy (default "" sub_specialization_hint) then
    let hint_lower := PyStr.lower (default "" sub_specialization_hint) in
    if (PyStr.contains hint_lower sub_spec
        || existsb (fun word => PyStr.contains word sub_spec)
                   (PyStr.split hint_lower))%bool
    then (30, Some "strong")
    else if PyStr.truthy sub_spec then (10, Some "partial")
    else (0, None)
  else match default [] patient_conditions with
       | _ :: _ =>
           let condition_keywords :=
             PyStr.lower (PyStr.join " " (default [] patient_conditions)) in
           if existsb (fun keyword => PyStr.contains keyword sub_spec)
                      (PyStr.split condition_keywords)
           then (20, Some "condition_based")
           else (0, None)
       | [] => (0, None)
       end.

(** 6. Awards. *)
Definition awards_score (d : doctor) : Z * option bool :=
  match default [] (awards d) with
  | _ :: _ =>
      (Z.min (Z.of_nat (List.length (default [] (awards d))) * 5) 10,
       Some true)
  | [] => (0, None)
  end.

(** 7. Age-appropriate care. *)
Definition age_score (d : doctor) : Z * option string :=
  match patient_age with
  | Some age =>
      if ((age <? 18) && String.eqb specialty_normalized "Pediatrics")%bool
      then (10, Some "pediatric")
      else if ((65 <=? age)
               && (10 <=? default 0 (experience_years d)))%bool
      then (5, Some "geriatric_experienced")
      else (0, None)
  | None => (0, None)
  end.

(** 8. Urgency-experience alignment. *)
Definition urgency_experience_score (d : doctor) : Z * option flag :=
  if ((80 <=? urgency_score)
      && (15 <=? default 0 (experience_years d)))%bool
  then (10, Some FlagTrue)
  else if ((urgency_score <? 50)
           && (default 0 (experience_years d) <? 10))%bool
  then (5, Some (FlagStr "routine"))
  else (0, None).

(** The local [score] after the eight steps, added in source order. *)
Definition score_of (d : doctor) : Q :=
  (0 + slot_score d
   + inject_Z (language_score d)
   + rating_points d
   + inject_Z (experience_score d)
   + inject_Z (fst (sub_spec_score d))
   + inject_Z (fst (awards_score d))
   + inject_Z (fst (age_score d))
   + inject_Z (fst (urgency_experience_score d)))%Q.

(** The local dict [details] after the eight steps. *)
Definition details_of (d : doctor) : details :=
  {| slot_match := snd (slot_base d);
     language_match := language_matches d;
     rating_score := default 0%Q (patient_rating d);
     details_experience_years := default 0 (experience_years d);
     sub_spec_match := snd (sub_spec_score d);
     has_awards := snd (awards_score d);
     age_appropriate := snd (age_score d);
     urgency_experience_match := snd (urgency_experience_score d) |}.

(** *** The loop over the department's doctors (lines 128-230) *)

Record scan_state := {
  best_score : Q;
  best_doctor : option loc;
  best_details : option details;   (* the local [match_details] *)
  heap : store }.

Definition scan_init (h : store) : scan_state :=
  {| best_score := (-1)%Q; best_doctor := None;
     best_details := None; heap := h |}.

(** One iteration on the doctor at [l].  A location outside the store
    cannot occur: a reference always points to an object. *)
Definition scan_step (st : scan_state) (l : loc) : scan_state :=
  match heap st !! l with
  | None => st
  | Some d =>
      let score := score_of d in
      if Qlt_bool (best_score st) score then
        let (b, h') := copy d (heap st) in
        {| best_score := score; best_doctor := Some b;
           best_details := Some (details_of d); heap := h' |}
      else st
  end.

Definition scan (doctors : list loc) (st : scan_state) : scan_state :=
  fold_left scan_step doctors st.

(** *** Annotation of the winner (lines 232-243) *)

Definition match_quality_of (score : Q) : string :=
  if Qle_bool 100 score then "excellent"
  else if Qle_bool 70 score then "good"
  else if Qle_bool 50 score then "fair"
  else "low".

Definition annotate (score : Q) (md : option details) (d : doctor)
  : doctor :=
  {| name := name d; slots := slots d;
     languages_spoken := languages_spoken d;
     patient_rating := patient_rating d;
     experience_years := experience_years d;
     sub_specialization := sub_specialization d;
     awards := awards d;
     match_score := Some (round2 score);
     match_details := Some md;
     match_quality := Some (match_quality_of score) |}.

Definition finish (st : scan_state) : option loc * store :=
  match best_doctor st with
  | Some b =>
      match heap st !! b with
      | Some d =>
          if doctor_truthy d
          then (Some b, <[b := annotate (best_score st) (best_details st) d]>
                          (heap st))
          else (Some b, heap st)
      | None => (Some b, heap st)
      end
  | None => (None, heap st)
  end.

End Scoring.

(** *** [find_best_doctor] *)

Definition find_best_doctor (db : database)
    (specialty preferred_slot patient_language : string)
    (urgency_score : Z) (patient_age : option Z)
    (sub_specialization_hint : option string)
    (patient_conditions : option (list string))
    (h : store) : option loc * store :=
  let specialty_normalized := PyStr.title specialty in
  match resolve_department db specialty with
  | None => (None, h)
  | Some department =>
      match default [] (dept_doctors department) with
      | [] => (None, h)
      | doctors =>
          finish
            (scan specialty_normalized preferred_slot patient_language
               urgency_score patient_age sub_specialization_hint
               patient_conditions doctors (scan_init h))
      end
  end.

(** *** [get_available_specialties] and [get_doctors_by_specialty] *)

Definition get_available_specialties (db : database) : list string :=
  map fst db.

Definition get_doctors_by_specialty (db : database) (specialty : string)
  : list loc :=
  let specialty_normalized := PyStr.title specialty in
  match assoc db specialty_normalized with
  | Some department => default [] (dept_doctors department)
  | None => []
  end.

(** *** [load_doctor_database] (lines 39-65) *)

(** [config.SUPPORTED_SPECIALTIES] ([config/settings.py], lines 82-94), as
    spelled there. *)
Definition SUPPORTED_SPECIALTIES : list string :=
  ["cardiology"; "dermatology"; "ent"; "gastroenterology"; "hepatology";
   "neurology"; "ophthalmology"; "orthpedics"; "pediatrics"; "psychiatry";
   "pulmonology"].

(** What the directory holds under a file name: no such file, a file that
    cannot be read as the loader expects (any exception of the [try]), or a
    JSON object with its key [departments], if it has one. *)
Inductive source :=
  | NoFile
  | Unreadable
  | Parsed (departments : option (list department)).

(** [d[k] = v] on a dict kept in insertion order: a new key goes last, a
    known key keeps its place. *)
Fixpoint dict_set {V} (d : list (string * V)) (k : string) (v : V)
  : list (string * V) :=
  match d with
  | [] => [(k, v)]
  | (k', v') :: rest =>
      if String.eqb k' k then (k', v) :: rest
      else (k', v') :: dict_set rest k v
  end.

(** One iteration of the loader's loop, for the file [specialty.json]. *)
Definition load_one (files : string -> source) (db : database)
    (specialty : string) : database :=
  match files (specialty ++ ".json")%string with
  | Parsed (Some (department :: _)) =>
      dict_set db (PyStr.title specialty) department
  | _ => db
  end.

Definition load_doctor_database (files : string -> source) : database :=
  fold_left (load_one files) SUPPORTED_SPECIALTIES [].

End DoctorMatcher.

(** ** Exceptions *)

(** A call either returns or raises; [Raised msg] carries [str(e)]. *)
Inductive outcome (A : Type) : Type :=
  | Returned (a : A)
  | Raised (msg : string).
Arguments Returned {A} a.
Arguments Raised {A} msg.

(** ** Patients and stage results *)

Module Patient.
Record t := {
  name : option string;
  age : option Z;
  symptoms : option string;
  preferred_slot : option string;
  preferred_language : option string;
  pre_existing_conditions : option (list string) }.
End Patient.

(** The dict a stage returns, with the keys the orchestration reads. *)
Record analysis := {
  primary_specialty : option string;
  potential_conditions : option (list string);
  urgency_score : option Z;
  final_specialty : option string;
  error : option string }.

(** [{'error': str(e)}] *)
Definition error_placeholder (msg : string) : analysis :=
  {| primary_specialty := None; potential_conditions := None;
     urgency_score := None; final_specialty := None; error := Some msg |}.

Record analyses := {
  gemini : analysis;
  grok : analysis;
  o4mini : analysis }.

(** One entry of [results]. *)
Record triage_result := {
  patient : Patient.t;
  result_analyses : analyses;
  matched_doctor : option loc }.

(** The keyword arguments of a call to [find_best_doctor].  The specialty
    is what the dict lookups yield, possibly Python's [None]. *)
Record match_request := {
  req_specialty : option string;
  req_preferred_slot : string;
  req_patient_language : string;
  req_urgency_score : Z;
  req_patient_age : option Z;
  req_sub_specialization_hint : option string;
  req_patient_conditions : option (list string) }.

(** ** The pipeline ([triage_orchestrator.py], and its copy in [app.py]) *)

Section Pipeline.

(** The three assessment stages are collaborators: any function that
    returns a dict or raises. *)
Variable analyze_symptoms : Patient.t -> outcome analysis.
Variable calculate_urgency : Patient.t -> analysis -> outcome analysis.
Variable final_evaluation :
  Patient.t -> analysis -> analysis -> outcome analysis.

(** The catalog held by [self.doctor_matcher]. *)
Variable db : database.

(** The arguments of the matching call, shared word for word by
    [process_patient] (lines 150-177) and [run_triage_background]
    (lines 158-170). *)
Definition matching_request (p : Patient.t) (gemini_result grok_result
    o4_result : analysis) : match_request :=
  let specialty :=
    match final_specialty o4_result with
    | Some s => Some s
    | None => primary_specialty gemini_result
    end in
  let potential_conditions :=
    default [] (potential_conditions gemini_result) in
  let sub_spec_hint :=
    match potential_conditions with
    | first :: _ => Some first
    | [] => None
    end in
  let urgency_score := default 50 (urgency_score grok_result) in
  {| req_specialty := specialty;
     req_preferred_slot := default "09:00" (Patient.preferred_slot p);
     req_patient_language := default "English" (Patient.preferred_language p);
     req_urgency_score := urgency_score;
     req_patient_age := Patient.age p;
     req_sub_specialization_hint := sub_spec_hint;
     req_patient_conditions :=
       Some (default [] (Patient.pre_existing_conditions p)) |}.

(** The call itself: [specialty.title()] raises on [None]. *)
Definition call_matcher (r : match_request) (h : store)
  : outcome (option loc) * store :=
  match req_specialty r with
  | None => (Raised "'NoneType' object has no attribute 'title'", h)
  | Some specialty =>
      let (doctor, h') :=
        DoctorMatcher.find_best_doctor db specialty
          (req_preferred_slot r) (req_patient_language r)
          (req_urgency_score r) (req_patient_age r)
          (req_sub_specialization_hint r) (req_patient_conditions r) h in
      (Returned doctor, h')
  end.

(** *** [TriageOrchestrator.process_patient] *)

Definition process_patient (patient_data : Patient.t) (h : store)
  : triage_result * store :=
  (* Stage 1 *)
  let gemini_result :=
    match analyze_symptoms patient_data with
    | Returned r => r
    | Raised e => error_placeholder e
    end in
  (* Stage 2 *)
  let grok_result :=
    match calculate_urgency patient_data gemini_result with
    | Returned r => r
    | Raised e => error_placeholder e
    end in
  (* Stage 3 *)
  let o4_result :=
    match final_evaluation patient_data gemini_result grok_result with
    | Returned r => r
    | Raised e => error_placeholder e
    end in
  (* Stage 4 *)
  let (matched, h') :=
    match call_matcher
            (matching_request patient_data gemini_result grok_result
               o4_result) h with
    | (Returned doctor, h') => (doctor, h')
    | (Raised _, h') => (None, h')
    end in
  ({| patient := patient_data;
      result_analyses := {| gemini := gemini_result; grok := grok_result;
                            o4mini := o4_result |};
      matched_doctor := matched |}, h').

(** The loop of [TriageOrchestrator.run] (lines 253-256):
    [self.results.append(self.process_patient(patient))]. *)
Fixpoint process_all (patients : list Patient.t)
    (results : list triage_result) (h : store)
  : list triage_result * store :=
  match patients with
  | [] => (results, h)
  | patient :: rest =>
      let (result, h') := process_patient patient h in
      process_all rest (results ++ [result]) h'
  end.

End Pipeline.

(** ** The web application ([app.py]) *)

Module App.

Inductive update_type := UInfo | USuccess | UWarning | UError | UProgress.

(** The global dict [processing_status].  Its key [progress], a rounded
    floating-point percentage shown by the dashboard, is left out. *)
Record processing_status := {
  is_running : bool;
  current_patient : nat;
  total_patients : nat;
  current_step : string;
  results : list triage_result }.

(** The globals of the module, the doctor objects, and the background
    threads started so far (each with its patient file).  An entry of
    [update_queue] keeps the type of the update, not its text. *)
Record state := {
  status : processing_status;
  update_queue : list update_type;
  instance_results : list triage_result;
  threads : list string;
  heap : store }.

Definition with_status (f : processing_status -> processing_status)
    (st : state) : state :=
  {| status := f (status st); update_queue := update_queue st;
     instance_results := instance_results st; threads := threads st;
     heap := heap st |}.

Definition set_is_running (b : bool) : state -> state :=
  with_status (fun s =>
    {| is_running := b; current_patient := current_patient s;
       total_patients := total_patients s; current_step := current_step s;
       results := results s |}).

Definition set_current_step (step : string) : state -> state :=
  with_status (fun s =>
    {| is_running := is_running s; current_patient := current_patient s;
       total_patients := total_patients s; current_step := step;
       results := results s |}).

Definition set_current_patient (i : nat) : state -> state :=
  with_status (fun s =>
    {| is_running := is_running s; current_patient := i;
       total_patients := total_patients s; current_step := current_step s;
       results := results s |}).

Definition set_total_patients (n : nat) : state -> state :=
  with_status (fun s =>
    {| is_running := is_running s; current_patient := current_patient s;
       total_patients := n; current_step := current_step s;
       results := results s |}).

Definition append_status_result (r : triage_result) : state -> state :=
  with_status (fun s =>
    {| is_running := is_running s; current_patient := current_patient s;
       total_patients := total_patients s; current_step := current_step s;
       results := results s ++ [r] |}).

Definition set_instance_results (rs : list triage_result) (st : state)
  : state :=
  {| status := status st; update_queue := update_queue st;
     instance_results := rs; threads := threads st; heap := heap st |}.

Definition set_heap (h : store) (st : state) : state :=
  {| status := status st; update_queue := update_queue st;
     instance_results := instance_results st; threads := threads st;
     heap := h |}.

Definition put_update (u : update_type) (st : state) : state :=
  {| status := status st; update_queue := update_queue st ++ [u];
     instance_results := instance_results st; threads := threads st;
     heap := heap st |}.

(** *** Statements that may raise, over the globals *)

Definition M (A : Type) : Type := state -> outcome A * state.

#[export] Instance M_ret : MRet M := fun A a st => (Returned a, st).

#[export] Instance M_bind : MBind M := fun A B k c st =>
  match c st with
  | (Returned a, st') => k a st'
  | (Raised e, st') => (Raised e, st')
  end.

Definition modify (f : state -> state) : M unit :=
  fun st => (Returned tt, f st).

Definition call {A} (o : outcome A) : M A := fun st => (o, st).

(** [try: body  except Exception as e: handler(e)  finally: final] *)
Definition try_except_finally {A} (body : M A) (handler : string -> M A)
    (final : state -> state) : M A :=
  fun st =>
    match body st with
    | (Returned a, st') => (Returned a, final st')
    | (Raised e, st') =>
        let (o, st'') := handler e st' in (o, final st'')
    end.

Definition stream_update (u : update_type) : M unit :=
  modify (put_update u).

Section Run.

Variable analyze_symptoms : Patient.t -> outcome analysis.
Variable calculate_urgency : Patient.t -> analysis -> outcome analysis.
Variable final_evaluation :
  Patient.t -> analysis -> analysis -> outcome analysis.
Variable db : database.

(** [TriageOrchestrator()], [load_patients] and the reporting services
    are collaborators as well. *)
Variable new_orchestrator : outcome unit.
Variable load_patients : string -> outcome (list Patient.t).
Variable generate_summary_report : list triage_result -> outcome unit.
Variable create_triage_sheet :
  list triage_result -> outcome (option string).
Variable schedule_appointments : list triage_result -> outcome unit.
Variable generate_all_pdfs : list triage_result -> outcome unit.
Variable send_all_emails : list triage_result -> outcome unit.
Variable DEFAULT_PATIENT_FILE : string.

(** The body of the loop of [run_triage_background] (lines 104-207) for
    the [i]-th patient: the stage calls stand bare in the enclosing
    [try]. *)
Definition triage_one (i : nat) (patient : Patient.t) : M unit :=
  modify (set_current_patient i) ;;
  modify (set_current_step "processing_patient") ;;
  stream_update UInfo ;;
  stream_update UInfo ;;
  gemini_result ← call (analyze_symptoms patient);
  stream_update USuccess ;;
  stream_update UInfo ;;
  grok_result ← call (calculate_urgency patient gemini_result);
  stream_update USuccess ;;
  stream_update UInfo ;;
  o4_result ←
    call (final_evaluation patient gemini_result grok_result);
  stream_update USuccess ;;
  stream_update UInfo ;;
  doctor ← (fun st =>
    let (o, h') :=
      call_matcher db
        (matching_request patient gemini_result grok_result o4_result)
        (heap st) in
    (o, set_heap h' st));
  stream_update USuccess ;;
  let result :=
    {| patient := patient;
       result_analyses := {| gemini := gemini_result;
                             grok := grok_result;
                             o4mini := o4_result |};
       matched_doctor := doctor |} in
  modify (fun st =>
    set_instance_results (instance_results st ++ [result]) st) ;;
  modify (append_status_result result) ;;
  stream_update USuccess.

(** [for i, patient in enumerate(patients, 1)] *)
Fixpoint triage_loop (i : nat) (patients : list Patient.t) : M unit :=
  match patients with
  | [] => mret tt
  | patient :: rest =>
      triage_one i patient ;; triage_loop (S i) rest
  end.

(** The [try] block of [run_triage_background] (lines 73-274). *)
Definition run_body (patient_file : string) : M unit :=
  modify (set_is_running true) ;;
  modify (set_current_step "initializing") ;;
  stream_update UInfo ;;
  call new_orchestrator ;;
  modify (set_instance_results []) ;;
  stream_update USuccess ;;
  modify (set_current_step "loading_patients") ;;
  stream_update UInfo ;;
  patients ← call (load_patients patient_file);
  modify (set_total_patients (List.length patients)) ;;
  stream_update USuccess ;;
  triage_loop 1 patients ;;
  modify (set_current_step "generating_reports") ;;
  stream_update UInfo ;;
  stream_update UInfo ;;
  (fun st => call (generate_summary_report (instance_results st)) st) ;;
  stream_update USuccess ;;
  stream_update UInfo ;;
  sheet_url ←
    (fun st => call (create_triage_sheet (instance_results st)) st);
  stream_update (if present sheet_url then USuccess else UWarning) ;;
  modify (set_current_step "scheduling_appointments") ;;
  stream_update UInfo ;;
  (fun st => call (schedule_appointments (instance_results st)) st) ;;
  stream_update USuccess ;;
  modify (set_current_step "generating_pdfs") ;;
  stream_update UInfo ;;
  (fun st => call (generate_all_pdfs (instance_results st)) st) ;;
  stream_update USuccess ;;
  modify (set_current_step "sending_emails") ;;
  stream_update UInfo ;;
  (fun st => call (send_all_emails (instance_results st)) st) ;;
  stream_update USuccess ;;
  modify (set_current_step "complete") ;;
  stream_update USuccess.

(** The [except Exception] clause (lines 276-280). *)
Definition run_handler (e : string) : M unit :=
  modify (set_current_step "error") ;;
  stream_update UError ;;
  stream_update UError.

Definition run_triage_background (patient_file : string) : M unit :=
  try_except_finally (run_body patient_file) run_handler
    (set_is_running false).

(** *** The route [/start_triage] (lines 292-326) *)

(** What [request.get_json()] returned: a value that counts as false
    ([None], an empty object, ...), which [or {}] replaces by the empty
    dict; a JSON object, with its key [patient_file]; or another value,
    which has no method [get]. *)
Inductive json_body :=
| JFalsy
| JObject (patient_file : option string)
| JOther.

(** [data.get('patient_file', config.DEFAULT_PATIENT_FILE)] *)
Definition patient_file_of (data : json_body) : outcome string :=
  match data with
  | JFalsy => Returned DEFAULT_PATIENT_FILE
  | JObject patient_file =>
      Returned (default DEFAULT_PATIENT_FILE patient_file)
  | JOther => Raised "object has no attribute 'get'"
  end.

(** The reset of [processing_status] and the emptying of the queue (lines
    300-315). *)
Definition reset_status (st : state) : state :=
  {| status := {| is_running := true; current_patient := 0;
                  total_patients := 0; current_step := "starting";
                  results := [] |};
     update_queue := [];
     instance_results := instance_results st;
     threads := threads st;
     heap := heap st |}.

(** [thread.start()]: the new thread is recorded with its patient file. *)
Definition record_thread (patient_file : string) (st : state) : state :=
  {| status := status st; update_queue := update_queue st;
     instance_results := instance_results st;
     threads := threads st ++ [patient_file];
     heap := heap st |}.

(** The view function.  [get_json] is what [request.get_json()] does for
    the request at hand and [thread_start] what [thread.start()] does;
    either may raise.  The answer is the key [success] of the JSON
    reply.  The flag is set before the request is read and before the
    thread is started, and no handler resets it. *)
Definition start_triage (get_json : outcome json_body)
    (thread_start : outcome unit) : M bool :=
  fun st =>
    if is_running (status st) then (Returned false, st)
    else
      (modify reset_status ;;
       data ← call get_json;
       patient_file ← call (patient_file_of data);
       call thread_start ;;
       modify (record_thread patient_file) ;;
       mret true) st.

End Run.

End App.

(** ** Report files ([triage_orchestrator.py] and [email_service.py]) *)

Module Reports.

(** [c.isalnum()] on an ASCII character. *)
Definition is_alnum (c : ascii) : bool :=
  let n := nat_of_ascii c in
  (PyStr.is_upper c || PyStr.is_lower c
   || (Nat.leb 48 n && Nat.leb n 57))%bool.

(** [c.isalnum() or c in (' ', '_')] *)
Definition kept (c : ascii) : bool :=
  (is_alnum c || Ascii.eqb c " " || Ascii.eqb c "_")%bool.

(** ["".join(c for c in s if keep(c))] *)
Fixpoint join_if (keep : ascii -> bool) (s : string) : string :=
  match s with
  | EmptyString => EmptyString
  | String c t => if keep c then String c (join_if keep t) else join_if keep t
  end.

(** [s.rstrip()]: drop the white space at the end. *)
Fixpoint rstrip (s : string) : string :=
  match s with
  | EmptyString => EmptyString
  | String c t =>
      match rstrip t with
      | EmptyString => if PyStr.is_space c then EmptyString
                       else String c EmptyString
      | t' => String c t'
      end
  end.

(** The file-name form of a name, written out alike in [_generate_all_pdfs]
    (lines 319-322 and 333-336), [send_patient_emails] (lines 243-246) and
    [send_doctor_emails] (lines 347-354). *)
Definition safe_name (name : string) : string :=
  PyStr.replace_char " " "_" (rstrip (join_if kept name)).

(** The paths [_generate_all_pdfs] writes to (lines 318-345). *)
Definition written_patient_pdf (output_dir : string) (p : Patient.t)
  : string :=
  let patient_name := default "Patient" (Patient.name p) in
  (output_dir ++ "/patients/" ++ safe_name patient_name ++ ".pdf")%string.

Definition written_doctor_pdf (output_dir : string) (p : Patient.t)
    (d : doctor) : string :=
  let patient_name := default "Patient" (Patient.name p) in
  let doctor_name := default "NoDoctor" (name d) in
  (output_dir ++ "/doctors/" ++ safe_name doctor_name ++ "/"
   ++ safe_name doctor_name ++ "_" ++ safe_name patient_name ++ ".pdf")%string.

(** The paths the e-mail service reads from ([send_patient_emails], lines
    237-248; [send_doctor_emails], lines 327 and 344-359). *)
Definition mailed_patient_pdf (pdf_dir : string) (p : Patient.t) : string :=
  let patient_name := default "Patient" (Patient.name p) in
  (pdf_dir ++ "/patients/" ++ safe_name patient_name ++ ".pdf")%string.

Definition mailed_doctor_pdf (pdf_dir : string) (p : Patient.t) (d : doctor)
  : string :=
  let doctor_name := default "Doctor" (name d) in
  let patient_name := default "Patient" (Patient.name p) in
  (pdf_dir ++ "/doctors/" ++ safe_name doctor_name ++ "/"
   ++ safe_name doctor_name ++ "_" ++ safe_name patient_name ++ ".pdf")%string.

(** *** [_generate_all_pdfs] (lines 311-357) *)

Section Pdfs.

(** The three generators of [self.pdf_generator] tell whether they wrote
    their file; [output_dir] is [config.PDF_REPORTS_DIR]; [h] holds the
    doctor objects the records refer to. *)
Variable generate_patient_pdf : triage_result -> string -> bool.
Variable generate_doctor_pdf : triage_result -> string -> bool.
Variable generate_consolidated_report :
  list triage_result -> string -> bool.
Variable output_dir : string.
Variable h : store.

(** The matched doctor of a record when it is a non-empty dict. *)
Definition doctor_of (r : triage_result) : option doctor :=
  match matched_doctor r with
  | Some b =>
      match h !! b with
      | Some d => if doctor_truthy d then Some d else None
      | None => None
      end
  | None => None
  end.

(** What one turn of the loop adds to [pdf_count]. *)
Definition pdfs_for (r : triage_result) : Z :=
  let patient_count :=
    if generate_patient_pdf r (written_patient_pdf output_dir (patient r))
    then 1 else 0 in
  match doctor_of r with
  | Some d =>
      if generate_doctor_pdf r (written_doctor_pdf output_dir (patient r) d)
      then patient_count + 1 else patient_count
  | None => patient_count
  end.

Definition generate_all_pdfs (results : list triage_result) : Z :=
  let pdf_count := fold_left (fun count r => count + pdfs_for r) results 0 in
  if generate_consolidated_report results
       (output_dir ++ "/doctor_consolidated_report.pdf")%string
  then pdf_count + 1 else pdf_count.

End Pdfs.

End Reports.

(** ** The length of an appointment ([calendar_service.py], lines 106-113
    and 137-138) *)

Module Calendar.

(** [c.isdigit()] on an ASCII character, and the digit's value. *)
Definition is_digit (c : ascii) : bool :=
  let n := nat_of_ascii c in (Nat.leb 48 n && Nat.leb n 57)%bool.

Definition digit_value (c : ascii) : Z := Z.of_nat (nat_of_ascii c - 48).

(** [int(s)] for a string of ASCII digits; [None] is the [ValueError] on
    the empty string.  (The [ValueError] of recent Python versions on more
    than 4300 digits is left out: statements are made for shorter
    texts.) *)
Fixpoint int_from (acc : Z) (s : string) : Z :=
  match s with
  | EmptyString => acc
  | String c t => int_from (10 * acc + digit_value c) t
  end.

Definition int_of_digits (s : string) : option Z :=
  match s with
  | EmptyString => None
  | _ => Some (int_from 0 s)
  end.

(** [int(''.join(filter(str.isdigit, duration_str)))], or 30 when that
    raises. *)
Definition duration_minutes (duration_str : string) : Z :=
  match int_of_digits (Reports.join_if is_digit duration_str) with
  | Some n => n
  | None => 30
  end.

(** The keys [event_duration_hour] and [event_duration_minutes] of the
    event, from the evaluation's [estimated_consultation_duration]. *)
Definition event_duration (estimated_consultation_duration : option string)
  : Z * Z :=
  let duration_str := default "30 minutes" estimated_consultation_duration in
  let minutes := duration_minutes duration_str in
  (minutes / 60, minutes mod 60).

End Calendar.

(** ** Sample data *)

Module Samples.

(** A cardiologist whose only slot is 09:00. *)
Definition dr_rao : doctor :=
  {| name := Some "Dr. Rao"; slots := Some ["09:00"];
     languages_spoken := Some ["Hindi"; "Marathi"];
     patient_rating := Some (9 # 2); experience_years := Some 10;
     sub_specialization := None; awards := None;
     match_score := None; match_details := None; match_quality := None |}.

(** A catalog of one department with that one doctor, at location 0. *)
Definition cardiology_only : database :=
  [("Cardiology", {| dept_doctors := Some [0%nat] |})].

End Samples.

Module PipelineSamples.

Definition alice : Patient.t :=
  {| Patient.name := Some "Alice"; Patient.age := Some 54;
     Patient.symptoms := Some "chest tightness when climbing stairs";
     Patient.preferred_slot := Some "09:00";
     Patient.preferred_language := Some "English";
     Patient.pre_existing_conditions := Some ["hypertension"] |}.

Definition bob : Patient.t :=
  {| Patient.name := Some "Bob"; Patient.age := Some 31;
     Patient.symptoms := Some "itchy rash";
     Patient.preferred_slot := None;
     Patient.preferred_language := None;
     Patient.pre_existing_conditions := None |}.

(** A mapping result and an evaluation result that name different
    conditions. *)
Definition mapping_result : analysis :=
  {| primary_specialty := Some "Cardiology";
     potential_conditions := Some ["Angina"; "Arrhythmia"];
     urgency_score := None; final_specialty := None; error := None |}.

Definition urgency_result : analysis :=
  {| primary_specialty := None; potential_conditions := None;
     urgency_score := Some 75; final_specialty := None; error := None |}.

Definition evaluation_result : analysis :=
  {| primary_specialty := None;
     potential_conditions := Some ["Heart failure"];
     urgency_score := None; final_specialty := Some "Cardiology";
     error := None |}.

(** Stages that answer with these results, and an urgency stage whose
    service is down. *)
Definition mapping_ok (_ : Patient.t) : outcome analysis :=
  Returned mapping_result.

Definition urgency_ok (_ : Patient.t) (_ : analysis) : outcome analysis :=
  Returned urgency_result.

Definition urgency_down (_ : Patient.t) (_ : analysis) : outcome analysis :=
  Raised "Connection error.".

Definition evaluation_ok (_ : Patient.t) (_ _ : analysis)
  : outcome analysis :=
  Returned evaluation_result.

Definition load_two (_ : string) : outcome (list Patient.t) :=
  Returned [alice; bob].

Definition report_ok (_ : list triage_result) : outcome unit := Returned tt.

Definition sheet_ok (_ : list triage_result) : outcome (option string) :=
  Returned None.

(** The application before any run, with the sample catalog loaded. *)
Definition idle : App.state :=
  {| App.status := {| App.is_running := false; App.current_patient := 0;
                      App.total_patients := 0; App.current_step := "idle";
                      App.results := [] |};
     App.update_queue := [];
     App.instance_results := [];
     App.threads := [];
     App.heap := [Samples.dr_rao] |}.

End PipelineSamples.

(** * Properties *)

(** ** The string primitives and the extractor at work *)

Example title_heart_failure :
  PyStr.title (PyStr.replace_char "_" " " "heart_failure") = "Heart Failure".
Proof. reflexivity. Qed.

Example title_ent : PyStr.title "ENT" = "Ent".
Proof. reflexivity. Qed.

Example split_words :
  PyStr.split "  heart   failure clinic " = ["heart"; "failure"; "clinic"].
Proof. reflexivity. Qed.

Example contains_stent :
  PyStr.contains "stent" "chest pain and stent needed " = true.
Proof. reflexivity. Qed.

Example hint_stent :
  AdvancedMatchingFeatures.extract_subspecialty_hints
    "severe chest pain and stent needed" "Cardiology" []
  = Some "Interventional".
Proof. vm_compute. reflexivity. Qed.

Example hint_ent_unreachable :
  AdvancedMatchingFeatures.extract_subspecialty_hints
    "hearing loss and tinnitus" "ENT" [] = None.
Proof. vm_compute. reflexivity. Qed.

Example hint_tie_first :
  AdvancedMatchingFeatures.extract_subspecialty_hints
    "murmur with edema" "cardiology" [] = Some "Heart Failure".
Proof. vm_compute. reflexivity. Qed.

(** ** Strings *)

(** [needle] occurs in [hay]: the meaning of Python's [in] on strings. *)
Definition occurs_in (needle hay : string) : Prop :=
  exists before after, hay = (before ++ needle ++ after)%string.

Lemma prefix_true_iff (p s : string) :
  String.prefix p s = true <-> exists rest, s = (p ++ rest)%string.
Proof.
  revert s. induction p as [|c p IH]; intros s.
  - split; [intros _; exists s; reflexivity | intros _; now destruct s].
  - destruct s as [|c' s]; simpl.
    + split; [discriminate | intros [rest H]; discriminate].
    + destruct (Ascii.ascii_dec c c') as [->|Hne].
      * specialize (IH s). destruct IH as [IH1 IH2]. split.
        -- intros H. destruct (IH1 H) as [rest ->]. now exists rest.
        -- intros [rest H]. apply IH2. exists rest. now inversion H.
      * split; [discriminate | intros [rest H]; congruence].
Qed.

Lemma contains_occurs (needle hay : string) :
  PyStr.contains needle hay = true <-> occurs_in needle hay.
Proof.
  unfold occurs_in. induction hay as [|c hay IH].
  - cbn [PyStr.contains]. rewrite orb_false_r, prefix_true_iff. split.
    + intros [rest H]. exists EmptyString, rest. exact H.
    + intros [[|b before] [after H]]; [exists after; exact H | discriminate].
  - cbn [PyStr.contains]. rewrite orb_true_iff, prefix_true_iff, IH. split.
    + intros [[rest H] | [before [after H]]].
      * exists EmptyString, rest. exact H.
      * exists (String c before), after. simpl. now rewrite H.
    + intros [[|b before] [after H]].
      * left. exists after. exact H.
      * right. exists before, after. simpl in H. now inversion H.
Qed.

Lemma contains_false_iff (needle hay : string) :
  PyStr.contains needle hay = false <-> ~ occurs_in needle hay.
Proof.
  rewrite <- contains_occurs. destruct (PyStr.contains needle hay); split;
    intros H; try reflexivity; try discriminate; [contradiction H; reflexivity].
Qed.

(** ** Severity *)

Module SeverityFacts.
Import AdvancedMatchingFeatures.

(** Some emergency keyword occurs in the lowercased symptom text. *)
Definition emergency_hit (symptoms : string) : Prop :=
  exists kw, In kw EMERGENCY_KEYWORDS /\ occurs_in kw (PyStr.lower symptoms).

Lemma has_emergency_iff (symptoms : string) :
  has_emergency symptoms = true <-> emergency_hit symptoms.
Proof.
  unfold has_emergency, emergency_hit. rewrite existsb_exists.
  split; intros [kw [Hin H]]; exists kw; split; try exact Hin;
    now apply contains_occurs.
Qed.

(** C7. The severity is [critical] exactly when an emergency keyword
    occurs in the lowercased symptoms or the score is at least 90;
    otherwise [high] exactly from 70, otherwise [moderate] exactly from
    40, otherwise [low]. *)
Theorem calculate_condition_severity_bands (symptoms : string) (score : Z) :
  (calculate_condition_severity symptoms score = critical
     <-> emergency_hit symptoms \/ 90 <= score) /\
  (calculate_condition_severity symptoms score = high
     <-> ~ (emergency_hit symptoms \/ 90 <= score) /\ 70 <= score) /\
  (calculate_condition_severity symptoms score = moderate
     <-> ~ (emergency_hit symptoms \/ 90 <= score)
         /\ ~ 70 <= score /\ 40 <= score) /\
  (calculate_condition_severity symptoms score = low
     <-> ~ (emergency_hit symptoms \/ 90 <= score)
         /\ ~ 70 <= score /\ ~ 40 <= score).
Proof.
  unfold calculate_condition_severity.
  pose proof (has_emergency_iff symptoms) as He.
  destruct (has_emergency symptoms) eqn:E; simpl.
  - assert (emergency_hit symptoms) as Hhit by (apply He; reflexivity).
    intuition discriminate.
  - assert (~ emergency_hit symptoms) as Hno
      by (intros H; apply He in H; discriminate).
    destruct (Z.leb_spec 90 score); [|destruct (Z.leb_spec 70 score);
      [|destruct (Z.leb_spec 40 score)]];
      intuition (try discriminate; try lia).
Qed.

End SeverityFacts.

(** ** Title case *)

Module TitleFacts.
Import PyStr.

Ltac by_cases_on_ascii c :=
  destruct c as [[] [] [] [] [] [] [] []]; vm_compute;
  try reflexivity; try discriminate; auto.

Lemma upper_of_lower (c : ascii) :
  is_lower c = true ->
  is_lower (to_upper c) = false /\ is_upper (to_upper c) = true.
Proof. by_cases_on_ascii c. Qed.

Lemma lower_of_upper (c : ascii) :
  is_upper c = true -> is_lower (to_lower c) = true.
Proof. by_cases_on_ascii c. Qed.

(** Title-casing a string that is in title case changes nothing. *)
Lemma title_from_idempotent (s : string) (b : bool) :
  title_from b (title_from b s) = title_from b s.
Proof.
  revert b. induction s as [|c s IH]; intros b; [reflexivity|].
  cbn [title_from].
  destruct (is_lower c) eqn:Hl.
  - destruct b; cbn [title_from].
    + now rewrite Hl, IH.
    + destruct (upper_of_lower c Hl) as [H1 H2]. now rewrite H1, H2, IH.
  - destruct (is_upper c) eqn:Hu.
    + destruct b; cbn [title_from].
      * now rewrite (lower_of_upper c Hu), IH.
      * now rewrite Hl, Hu, IH.
    + cbn [title_from]. now rewrite Hl, Hu, IH.
Qed.

(** The character [title_from] writes for [c]. *)
Definition title_char (b : bool) (c : ascii) : ascii :=
  if is_lower c then (if b then c else to_upper c)
  else if is_upper c then (if b then to_lower c else c)
  else c.

Lemma title_char_not_underscore (b : bool) (c : ascii) :
  Ascii.eqb (title_char b (if Ascii.eqb c "_" then " " else c)) "_" = false.
Proof. destruct b; by_cases_on_ascii c. Qed.

Lemma contains_char_cons (a c : ascii) (t : string) :
  contains (String a EmptyString) (String c t)
  = (Ascii.eqb c a || contains (String a EmptyString) t)%bool.
Proof.
  cbn [contains String.prefix]. f_equal.
  destruct (Ascii.ascii_dec a c) as [->|Hne].
  - rewrite Ascii.eqb_refl. now destruct t.
  - symmetry. apply Ascii.eqb_neq. congruence.
Qed.

Lemma title_replace_no_underscore (s : string) (b : bool) :
  contains "_" (title_from b (replace_char "_" " " s)) = false.
Proof.
  revert b. induction s as [|c s IH]; intros b; [reflexivity|].
  cbn [replace_char title_from].
  pose proof (title_char_not_underscore b c) as Hc. unfold title_char in Hc.
  destruct (is_lower _); [|destruct (is_upper _)];
    rewrite contains_char_cons, IH, orb_false_r; destruct b; exact Hc.
Qed.

End TitleFacts.

(** ** [max] with a key *)

Section MaxFacts.
Context {A : Type} (f : A -> Z).

(** [x] stands in [l] before every other item with as great a key. *)
Definition first_greatest (l : list A) (x : A) : Prop :=
  exists pre post,
    l = pre ++ x :: post
    /\ (forall y, In y pre -> f y < f x)
    /\ (forall y, In y post -> f y <= f x).

Lemma py_max_from_first_greatest (l pre mid : list A) (best : A) :
  (forall y, In y pre -> f y < f best) ->
  (forall y, In y mid -> f y <= f best) ->
  first_greatest (pre ++ best :: mid ++ l) (py_max_from f best l).
Proof.
  revert pre mid best. induction l as [|x l IH]; intros pre mid best Hpre Hmid.
  - exists pre, mid. rewrite app_nil_r. auto.
  - cbn [py_max_from]. destruct (Z.ltb_spec (f best) (f x)) as [Hlt|Hge].
    + replace (pre ++ best :: mid ++ x :: l)
        with ((pre ++ best :: mid) ++ x :: [] ++ l)
        by (rewrite <- app_assoc; reflexivity).
      apply IH.
      * intros y Hy. apply in_app_or in Hy.
        destruct Hy as [Hy|[<-|Hy]];
          [specialize (Hpre y Hy) | | specialize (Hmid y Hy)]; lia.
      * intros y [].
    + replace (pre ++ best :: mid ++ x :: l)
        with (pre ++ best :: (mid ++ [x]) ++ l)
        by (rewrite <- app_assoc; reflexivity).
      apply IH; [exact Hpre|].
      intros y Hy. apply in_app_or in Hy.
      destruct Hy as [Hy|[<-|[]]]; [apply Hmid; exact Hy | lia].
Qed.

Lemma py_max_first_greatest (l : list A) (x : A) :
  py_max f l = Some x -> first_greatest l x.
Proof.
  destruct l as [|a l]; [discriminate|]. intros [= <-].
  apply (py_max_from_first_greatest l [] [] a); intros y [].
Qed.

Lemma py_max_none (l : list A) : py_max f l = None <-> l = [].
Proof. destruct l; split; intros H; try reflexivity; discriminate. Qed.

End MaxFacts.

(** ** Subspecialty hints *)

Module HintFacts.
Import AdvancedMatchingFeatures.

(** The number of keyword hits of a table entry. *)
Definition hits (text : string) (e : string * list string) : Z :=
  match_count text (snd e).

(** No keyword of any subspecialty occurs in the text. *)
Definition no_keyword_occurs (text : string)
    (subtable : list (string * list string)) : Prop :=
  forall subspec keywords kw,
    In (subspec, keywords) subtable -> In kw keywords ->
    ~ occurs_in (PyStr.lower kw) text.

(** [key] has at least one hit, strictly more hits than every
    subspecialty defined before it and at least as many as every
    subspecialty defined after it. *)
Definition winner (text : string) (subtable : list (string * list string))
    (key : string) : Prop :=
  exists keywords,
    first_greatest (hits text) subtable (key, keywords)
    /\ 0 < match_count text keywords.

Lemma match_count_nonneg text kws : 0 <= match_count text kws.
Proof. unfold match_count. lia. Qed.

Lemma match_count_zero_iff text kws :
  match_count text kws = 0
  <-> forall kw, In kw kws -> ~ occurs_in (PyStr.lower kw) text.
Proof.
  unfold match_count. induction kws as [|k kws IH]; cbn [List.filter].
  - split; [intros _ kw [] | reflexivity].
  - destruct (PyStr.contains (PyStr.lower k) text) eqn:E.
    + cbn [List.length]. split; [intros H; exfalso; lia|]. intros H. exfalso.
      apply (H k); [now left | now apply contains_occurs].
    + rewrite IH. apply contains_false_iff in E. split.
      * intros H kw [<-|Hin]; [exact E | now apply H].
      * intros H kw Hin. apply H. now right.
Qed.

Lemma matches_nil_iff text subtable :
  subspecialty_matches text subtable = []
  <-> no_keyword_occurs text subtable.
Proof.
  unfold no_keyword_occurs.
  induction subtable as [|[k kws] rest IH]; simpl.
  - split; [intros _ ? ? ? [] | reflexivity].
  - destruct (Z.ltb_spec 0 (match_count text kws)) as [Hpos|Hz].
    + split; [discriminate|]. intros H. exfalso.
      assert (match_count text kws = 0) as H0; [|lia].
      apply match_count_zero_iff. intros kw Hkw.
      apply (H k kws kw); [now left | exact Hkw].
    + rewrite IH. split.
      * intros H s ks kw [[= <- <-]|Hin] Hkw.
        -- revert kw Hkw. apply match_count_zero_iff.
           pose proof (match_count_nonneg text kws). lia.
        -- now apply (H s ks kw).
      * intros H s ks kw Hin. apply (H s ks kw). now right.
Qed.

Lemma matches_in text subtable k kws :
  In (k, kws) subtable -> 0 < match_count text kws ->
  In (k, match_count text kws) (subspecialty_matches text subtable).
Proof.
  induction subtable as [|[k0 kws0] rest IH]; simpl; [tauto|].
  intros [[= -> ->]|Hin] Hpos.
  - apply Z.ltb_lt in Hpos. rewrite Hpos. now left.
  - destruct (0 <? match_count text kws0); [right|]; now apply IH.
Qed.

Lemma matches_split text subtable pre' k n post' :
  subspecialty_matches text subtable = pre' ++ (k, n) :: post' ->
  exists pre kws post,
    subtable = pre ++ (k, kws) :: post
    /\ n = match_count text kws /\ 0 < n
    /\ subspecialty_matches text pre = pre'
    /\ subspecialty_matches text post = post'.
Proof.
  revert pre'. induction subtable as [|[k0 kws0] rest IH]; intros pre' H.
  - destruct pre'; discriminate.
  - cbn [subspecialty_matches] in H.
    destruct (Z.ltb_spec 0 (match_count text kws0)) as [Hpos|Hz].
    + destruct pre' as [|e pre'].
      * injection H as <- <- <-. exists [], kws0, rest.
        repeat split; auto.
      * injection H as <- H.
        destruct (IH _ H) as (pre & kws & post & -> & -> & Hn & <- & <-).
        exists ((k0, kws0) :: pre), kws, post. repeat split; auto.
        cbn [subspecialty_matches]. apply Z.ltb_lt in Hpos.
        now rewrite Hpos.
    + destruct (IH _ H) as (pre & kws & post & -> & -> & Hn & <- & <-).
      exists ((k0, kws0) :: pre), kws, post. repeat split; auto.
      cbn [subspecialty_matches].
      assert ((0 <? match_count text kws0) = false) as ->
        by (apply Z.ltb_ge; exact Hz).
      reflexivity.
Qed.

(** What the dict of matches and [max] compute together. *)
Lemma max_of_matches text subtable k n :
  py_max snd (subspecialty_matches text subtable) = Some (k, n) ->
  winner text subtable k.
Proof.
  intros H. apply py_max_first_greatest in H.
  destruct H as (pre' & post' & Heq & Hpre & Hpost).
  apply matches_split in Heq.
  destruct Heq as (pre & kws & post & -> & -> & Hn & <- & <-).
  exists kws. split; [|exact Hn].
  exists pre, post. split; [reflexivity|]. unfold hits. cbn [snd] in *.
  split; intros [s ks] Hin; cbn [snd].
  - destruct (Z.ltb_spec 0 (match_count text ks)) as [Hp|Hz]; [|lia].
    apply (Hpre (s, match_count text ks)). now apply matches_in.
  - destruct (Z.ltb_spec 0 (match_count text ks)) as [Hp|Hz]; [|lia].
    apply (Hpost (s, match_count text ks)). now apply matches_in.
Qed.

(** The three ways [extract_subspecialty_hints] ends. *)
Lemma extract_cases (symptoms specialty : string) (conditions : list string) :
  let text := text_to_analyze symptoms conditions in
  let result := extract_subspecialty_hints symptoms specialty conditions in
  (assoc SUBSPECIALTY_KEYWORDS (PyStr.title specialty) = None
   /\ result = None)
  \/ exists subtable,
       assoc SUBSPECIALTY_KEYWORDS (PyStr.title specialty) = Some subtable
       /\ ((no_keyword_occurs text subtable /\ result = None)
           \/ (~ no_keyword_occurs text subtable
               /\ exists key, winner text subtable key
                              /\ result = Some (hint_label key))).
Proof.
  intros text result. unfold result, extract_subspecialty_hints.
  destruct (assoc SUBSPECIALTY_KEYWORDS (PyStr.title specialty))
    as [subtable|]; [right; exists subtable; split; [reflexivity|] | now left].
  fold text.
  destruct (py_max snd (subspecialty_matches text subtable))
    as [[k n]|] eqn:E.
  - right. split.
    + intros Hno. apply matches_nil_iff in Hno. rewrite Hno in E.
      discriminate.
    + exists k. split; [now apply max_of_matches with n | reflexivity].
  - left. apply py_max_none in E. split; [|reflexivity].
    now apply matches_nil_iff.
Qed.

(** [n] of the keywords [kws], counted with repetition, occur in lower
    case in [text]. *)
Inductive keyword_hits (text : string) : list string -> Z -> Prop :=
| hits_none : keyword_hits text [] 0
| hits_more kw kws n :
    occurs_in (PyStr.lower kw) text -> keyword_hits text kws n ->
    keyword_hits text (kw :: kws) (n + 1)
| hits_same kw kws n :
    ~ occurs_in (PyStr.lower kw) text -> keyword_hits text kws n ->
    keyword_hits text (kw :: kws) n.

Lemma match_count_cons text kw kws :
  match_count text (kw :: kws)
  = (if PyStr.contains (PyStr.lower kw) text then 1 else 0)
    + match_count text kws.
Proof.
  unfold match_count. cbn [List.filter].
  destruct (PyStr.contains (PyStr.lower kw) text); cbn [List.length]; lia.
Qed.

Lemma keyword_hits_match_count text kws :
  keyword_hits text kws (match_count text kws).
Proof.
  induction kws as [|kw kws IH]; [constructor|].
  rewrite match_count_cons.
  destruct (PyStr.contains (PyStr.lower kw) text) eqn:E.
  - replace (1 + match_count text kws) with (match_count text kws + 1)
      by lia.
    apply hits_more; [now apply contains_occurs | exact IH].
  - apply hits_same; [now apply contains_false_iff | exact IH].
Qed.

Lemma keyword_hits_unique text kws n :
  keyword_hits text kws n -> n = match_count text kws.
Proof.
  induction 1 as [|kw kws n Hin _ IH|kw kws n Hout _ IH].
  - reflexivity.
  - rewrite match_count_cons.
    apply contains_occurs in Hin. rewrite Hin. lia.
  - rewrite match_count_cons.
    apply contains_false_iff in Hout. rewrite Hout. lia.
Qed.

End HintFacts.

Lemma assoc_some_in {V} (d : list (string * V)) (k : string) (v : V) :
  assoc d k = Some v -> In (k, v) d.
Proof.
  induction d as [|[k' v'] d IH]; simpl; [discriminate|].
  destruct (String.eqb_spec k' k) as [->|Hne].
  - intros [= ->]. now left.
  - intros H. right. now apply IH.
Qed.

Module HintTheorems.
Import AdvancedMatchingFeatures HintFacts.

(** C6. The extractor returns no hint exactly when the normalized
    specialty is not a key of the keyword table or no keyword of its
    subspecialties occurs in the text, which is the narrative, a blank and
    the conditions joined by blanks, all in lower case.  Otherwise it
    returns the label of a subspecialty with at least one hit, strictly
    more hits than every subspecialty defined before it and at least as
    many as every subspecialty defined after it.  The narrative "severe
    chest pain and stent needed" under "Cardiology" yields the
    interventional label. *)
Theorem extract_subspecialty_hints_spec
    (symptoms specialty : string) (conditions : list string) :
  let text :=
    PyStr.lower (symptoms ++ " " ++ PyStr.join " " conditions)%string in
  let table_entry :=
    assoc SUBSPECIALTY_KEYWORDS (PyStr.title specialty) in
  let result := extract_subspecialty_hints symptoms specialty conditions in
  (result = None
     <-> table_entry = None
         \/ exists subtable,
              table_entry = Some subtable
              /\ forall subspec keywords kw,
                   In (subspec, keywords) subtable -> In kw keywords ->
                   ~ occurs_in (PyStr.lower kw) text)
  /\ (forall subtable subspec keywords kw,
        table_entry = Some subtable ->
        In (subspec, keywords) subtable -> In kw keywords ->
        occurs_in (PyStr.lower kw) text ->
        exists pre key kws post n,
          subtable = pre ++ (key, kws) :: post
          /\ keyword_hits text kws n /\ 0 < n
          /\ (forall key' kws' m,
                In (key', kws') pre -> keyword_hits text kws' m -> m < n)
          /\ (forall key' kws' m,
                In (key', kws') post -> keyword_hits text kws' m -> m <= n)
          /\ result
             = Some (PyStr.title (PyStr.replace_char "_" " " key)))
  /\ extract_subspecialty_hints
       "severe chest pain and stent needed" "Cardiology" []
     = Some "Interventional".
Proof.
  intros text table_entry result.
  pose proof (extract_cases symptoms specialty conditions) as H.
  cbv zeta in H.
  change (text_to_analyze symptoms conditions) with text in H.
  fold table_entry result in H. unfold no_keyword_occurs in H.
  split; [|split; [|vm_compute; reflexivity]].
  - destruct H as [[Ha Hr] | (sub & Ha & [[Hno Hr] | [Hyes (k & Hw & Hr)]])].
    + split; [now left | intros _; exact Hr].
    + split; [|intros _; exact Hr].
      intros _. right. exists sub. now split.
    + split; [rewrite Hr; discriminate|].
      intros [Habs | (sub' & Ha' & Hno)].
      * rewrite Habs in Ha. discriminate.
      * rewrite Ha' in Ha. injection Ha as ->. contradiction.
  - intros subtable subspec keywords kw Hsub Hentry Hkw Hocc.
    destruct H as [[Ha Hr] | (sub & Ha & [[Hno Hr] | [_ (k & Hw & Hr)]])].
    + rewrite Ha in Hsub. discriminate.
    + rewrite Ha in Hsub. injection Hsub as ->. exfalso.
      exact (Hno subspec keywords kw Hentry Hkw Hocc).
    + rewrite Ha in Hsub. injection Hsub as ->.
      destruct Hw as (kws & (pre & post & -> & Hpre & Hpost) & Hpos).
      unfold hits in Hpre, Hpost. cbn [snd] in Hpre, Hpost.
      exists pre, k, kws, post, (match_count text kws).
      split; [reflexivity|].
      split; [apply keyword_hits_match_count|]. split; [exact Hpos|].
      split; [|split; [|exact Hr]].
      * intros key' kws' m Hin Hm. apply keyword_hits_unique in Hm.
        subst m. exact (Hpre (key', kws') Hin).
      * intros key' kws' m Hin Hm. apply keyword_hits_unique in Hm.
        subst m. exact (Hpost (key', kws') Hin).
Qed.

(** The narrative names no keyword, the condition list does, in capitals:
    the hint comes from the conditions. *)
Lemma extract_subspecialty_hints_spec_witness :
  let text :=
    PyStr.lower ("Chest discomfort at night" ++ " "
                 ++ PyStr.join " " ["Atrial Fibrillation"])%string in
  exists pre key kws post n,
    [ ("interventional",
        ["angioplasty"; "stent"; "catheterization"; "coronary";
         "heart attack"; "myocardial infarction"; "acute coronary"]);
      ("electrophysiology",
        ["arrhythmia"; "palpitations"; "irregular heartbeat";
         "atrial fibrillation"; "afib"; "flutter"; "tachycardia";
         "bradycardia"; "heart rhythm"]);
      ("heart_failure",
        ["shortness of breath"; "swelling"; "edema"; "fatigue";
         "weak heart"; "heart failure"; "cardiomyopathy"]);
      ("congenital",
        ["birth defect"; "congenital"; "hole in heart"; "murmur"]) ]
    = pre ++ (key, kws) :: post
    /\ keyword_hits text kws n /\ 0 < n
    /\ (forall key' kws' m,
          In (key', kws') pre -> keyword_hits text kws' m -> m < n)
    /\ (forall key' kws' m,
          In (key', kws') post -> keyword_hits text kws' m -> m <= n)
    /\ extract_subspecialty_hints "Chest discomfort at night" "cardiology"
         ["Atrial Fibrillation"]
       = Some (PyStr.title (PyStr.replace_char "_" " " key)).
Proof.
  apply (proj1 (proj2 (extract_subspecialty_hints_spec
                         "Chest discomfort at night" "cardiology"
                         ["Atrial Fibrillation"]))
           _ "electrophysiology"
           ["arrhythmia"; "palpitations"; "irregular heartbeat";
            "atrial fibrillation"; "afib"; "flutter"; "tachycardia";
            "bradycardia"; "heart rhythm"]
           "atrial fibrillation").
  - reflexivity.
  - right. left. reflexivity.
  - do 3 right. left. reflexivity.
  - apply contains_occurs. vm_compute. reflexivity.
Defined.

(** What the condition list adds: the same narrative without it gives no
    hint. *)
Example hint_needs_conditions :
  extract_subspecialty_hints "Chest discomfort at night" "cardiology" []
  = None
  /\ extract_subspecialty_hints "Chest discomfort at night" "cardiology"
       ["Atrial Fibrillation"]
     = Some "Electrophysiology".
Proof. split; vm_compute; reflexivity. Qed.

(** No key of the keyword table is its own label. *)
Lemma table_keys_are_relabelled :
  forallb (fun entry =>
    forallb (fun e => negb (String.eqb (hint_label (fst e)) (fst e)))
            (snd entry))
    SUBSPECIALTY_KEYWORDS = true.
Proof. vm_compute. reflexivity. Qed.

(** C10. A returned hint is the winning table key with every underscore
    replaced by a blank and every word in title case: it contains no
    underscore, title-casing leaves it unchanged, and it is never the raw
    key. *)
Theorem hint_is_relabelled_key
    (symptoms specialty : string) (conditions : list string) (s : string) :
  extract_subspecialty_hints symptoms specialty conditions = Some s ->
  exists subtable key,
    assoc SUBSPECIALTY_KEYWORDS (PyStr.title specialty) = Some subtable
    /\ winner (text_to_analyze symptoms conditions) subtable key
    /\ s = PyStr.title (PyStr.replace_char "_" " " key)
    /\ PyStr.contains "_" s = false
    /\ PyStr.title s = s
    /\ s <> key.
Proof.
  intros Hs.
  destruct (extract_cases symptoms specialty conditions)
    as [[_ Hr] | (sub & Ha & [[_ Hr] | [_ (k & Hw & Hr)]])];
    cbv zeta in *; rewrite Hs in Hr; try discriminate.
  injection Hr as ->. exists sub, k.
  split; [exact Ha|]. split; [exact Hw|]. split; [reflexivity|].
  split; [apply TitleFacts.title_replace_no_underscore|].
  split; [apply TitleFacts.title_from_idempotent|].
  destruct Hw as (kws & (pre & post & -> & _) & _).
  apply assoc_some_in in Ha.
  pose proof table_keys_are_relabelled as Hall.
  rewrite forallb_forall in Hall. specialize (Hall _ Ha). cbn [snd] in Hall.
  rewrite forallb_forall in Hall.
  specialize (Hall (k, kws) (in_elt _ _ _)). cbn [fst] in Hall.
  apply negb_true_iff in Hall. now apply String.eqb_neq in Hall.
Qed.

(** Swelling and fatigue point to heart failure, whose key has an
    underscore. *)
Lemma hint_is_relabelled_key_witness :
  exists subtable key,
    assoc SUBSPECIALTY_KEYWORDS (PyStr.title "cardiology") = Some subtable
    /\ winner (text_to_analyze "swelling and fatigue" ["diabetes"])
              subtable key
    /\ "Heart Failure" = PyStr.title (PyStr.replace_char "_" " " key)
    /\ PyStr.contains "_" "Heart Failure" = false
    /\ PyStr.title "Heart Failure" = "Heart Failure"
    /\ "Heart Failure" <> key.
Proof.
  apply (hint_is_relabelled_key "swelling and fatigue" "cardiology"
           ["diabetes"] "Heart Failure").
  vm_compute. reflexivity.
Defined.

End HintTheorems.

(** ** Matching: the slot contribution *)

Module SlotFacts.
Import DoctorMatcher.

Lemma slot_base_values (preferred_slot : string) (d : doctor) :
  fst (slot_base preferred_slot d) = 0
  \/ fst (slot_base preferred_slot d) = 20
  \/ fst (slot_base preferred_slot d) = 40.
Proof.
  unfold slot_base. destruct (py_in _ _); [tauto|].
  destruct (default [] (slots d)); simpl; tauto.
Qed.

(** C3. For a doctor with slot credit 20 or 40, the slot contribution is
    the credit itself at urgency 69 and the credit times 1.5 at urgency
    70, so it strictly grows from 69 to 70; nothing else in the score
    moves between the two. *)
Theorem slot_boost_boundary (preferred_slot : string) (d : doctor) :
  fst (slot_base preferred_slot d) = 20
  \/ fst (slot_base preferred_slot d) = 40 ->
  slot_score preferred_slot 69 d
    = inject_Z (fst (slot_base preferred_slot d))
  /\ slot_score preferred_slot 70 d
     = (inject_Z (fst (slot_base preferred_slot d)) * (3 # 2))%Q
  /\ (slot_score preferred_slot 69 d < slot_score preferred_slot 70 d)%Q
  /\ forall specialty_normalized patient_language patient_age hint
            conditions,
       (score_of specialty_normalized preferred_slot patient_language 70
                 patient_age hint conditions d
        == score_of specialty_normalized preferred_slot patient_language 69
                    patient_age hint conditions d
           + (slot_score preferred_slot 70 d
              - slot_score preferred_slot 69 d))%Q.
Proof.
  intros Hbase.
  split; [reflexivity|]. split; [reflexivity|]. split.
  - unfold slot_score. cbn [Z.leb Z.compare Pos.compare Pos.compare_cont].
    destruct Hbase as [-> | ->]; reflexivity.
  - intros. unfold score_of, urgency_experience_score.
    cbn [Z.leb Z.ltb Z.compare Pos.compare Pos.compare_cont andb fst].
    ring.
Qed.

(** The sample cardiologist, whose only slot is the requested one. *)
Lemma slot_boost_boundary_witness :
  slot_score "09:00" 69 Samples.dr_rao = 40%Q
  /\ slot_score "09:00" 70 Samples.dr_rao = (40 * (3 # 2))%Q
  /\ (slot_score "09:00" 69 Samples.dr_rao
      < slot_score "09:00" 70 Samples.dr_rao)%Q.
Proof.
  destruct (slot_boost_boundary "09:00" Samples.dr_rao) as (H1 & H2 & H3 & _).
  - right. reflexivity.
  - split; [exact H1|]. split; [exact H2 | exact H3].
Defined.

End SlotFacts.

(** ** Matching: the loop and the store *)

Module ScanFacts.
Import DoctorMatcher.

Section WithRequest.

Variable specialty_normalized : string.
Variable preferred_slot : string.
Variable patient_language : string.
Variable urgency_score : Z.
Variable patient_age : option Z.
Variable sub_specialization_hint : option string.
Variable patient_conditions : option (list string).

Let score := score_of specialty_normalized preferred_slot patient_language
               urgency_score patient_age sub_specialization_hint
               patient_conditions.
Let details_for := details_of specialty_normalized preferred_slot
                     patient_language urgency_score patient_age
                     sub_specialization_hint patient_conditions.
Let step := scan_step specialty_normalized preferred_slot patient_language
              urgency_score patient_age sub_specialization_hint
              patient_conditions.
Let run := scan specialty_normalized preferred_slot patient_language
             urgency_score patient_age sub_specialization_hint
             patient_conditions.

(** One iteration either leaves the state alone or appends a copy of the
    doctor it read and makes that copy the best one. *)
Lemma scan_step_cases (st : scan_state) (l : loc) :
  step st l = st
  \/ exists d,
       heap st !! l = Some d
       /\ Qlt_bool (best_score st) (score d) = true
       /\ step st l
          = {| best_score := score d;
               best_doctor := Some (List.length (heap st));
               best_details := Some (details_for d);
               heap := heap st ++ [d] |}.
Proof.
  unfold step, scan_step. destruct (heap st !! l) as [d|]; [|now left].
  fold (score d). destruct (Qlt_bool (best_score st) (score d)) eqn:E;
    [|now left].
  right. exists d. split; [reflexivity | split; [exact E | reflexivity]].
Qed.

(** The best doctor, when there is one, is an object allocated by the loop
    that copies a doctor of [doctors] as it stood in the store [h0]. *)
Definition best_is_copy (h0 : store) (doctors : list loc) (st : scan_state)
  : Prop :=
  match best_doctor st with
  | None => True
  | Some b =>
      (List.length h0 <= b)%nat
      /\ exists l d,
           In l doctors /\ h0 !! l = Some d /\ heap st !! b = Some d
           /\ best_score st = score d
           /\ best_details st = Some (details_for d)
  end.

Lemma scan_step_invariant (h0 : store) (doctors : list loc)
    (st : scan_state) (l : loc) :
  In l doctors -> (l < List.length h0)%nat ->
  (exists extra, heap st = h0 ++ extra) ->
  best_is_copy h0 doctors st ->
  (exists extra, heap (step st l) = h0 ++ extra)
  /\ best_is_copy h0 doctors (step st l).
Proof.
  intros Hin Hl [extra Hh] Hinv.
  destruct (scan_step_cases st l) as [-> | (d & Hd & _ & ->)].
  - split; [now exists extra | exact Hinv].
  - cbn [heap]. split.
    + exists (extra ++ [d]). rewrite Hh. now rewrite app_assoc.
    + unfold best_is_copy. cbn [best_doctor best_score best_details heap].
      split.
      * rewrite Hh, length_app. lia.
      * exists l, d. repeat split; auto.
        -- rewrite Hh, lookup_app_l in Hd by exact Hl. exact Hd.
        -- now apply list_lookup_middle.
Qed.

Lemma scan_invariant (h0 : store) (all doctors : list loc)
    (st : scan_state) :
  (forall l, In l doctors -> In l all /\ (l < List.length h0)%nat) ->
  (exists extra, heap st = h0 ++ extra) ->
  best_is_copy h0 all st ->
  (exists extra, heap (run doctors st) = h0 ++ extra)
  /\ best_is_copy h0 all (run doctors st).
Proof.
  revert st. induction doctors as [|l doctors IH]; intros st Hall Hh Hinv.
  - now split.
  - change (run (l :: doctors) st) with (run doctors (step st l)).
    destruct (Hall l (or_introl eq_refl)) as [Hin Hl].
    destruct (scan_step_invariant h0 all st l Hin Hl Hh Hinv) as [Hh' Hinv'].
    apply IH; auto. intros l' Hl'. apply Hall. now right.
Qed.

(** The store only grows, and a best doctor set by the loop is new. *)
Lemma scan_step_frame (st : scan_state) (l : loc) :
  (exists extra, heap (step st l) = heap st ++ extra)
  /\ (best_doctor (step st l) = best_doctor st
      \/ exists b, best_doctor (step st l) = Some b
                   /\ (List.length (heap st) <= b)%nat).
Proof.
  destruct (scan_step_cases st l) as [-> | (d & _ & _ & ->)].
  - split; [exists []; now rewrite app_nil_r | now left].
  - cbn [heap best_doctor]. split; [now exists [d]|].
    right. exists (List.length (heap st)). split; [reflexivity | lia].
Qed.

Lemma scan_frame (doctors : list loc) (st : scan_state) :
  (exists extra, heap (run doctors st) = heap st ++ extra)
  /\ (best_doctor (run doctors st) = best_doctor st
      \/ exists b, best_doctor (run doctors st) = Some b
                   /\ (List.length (heap st) <= b)%nat).
Proof.
  revert st. induction doctors as [|l doctors IH]; intros st.
  - split; [exists []; now rewrite app_nil_r | now left].
  - change (run (l :: doctors) st) with (run doctors (step st l)).
    destruct (scan_step_frame st l) as [[e1 He1] Hb1].
    destruct (IH (step st l)) as [[e2 He2] Hb2]. split.
    + exists (e1 ++ e2). rewrite He2, He1. now rewrite app_assoc.
    + destruct Hb2 as [-> | (b & -> & Hb)]; [exact Hb1|].
      right. exists b. split; [reflexivity|].
      rewrite He1, length_app in Hb. lia.
Qed.

(** Once a best doctor is set, one stays set. *)
Lemma scan_keeps_best (doctors : list loc) (st : scan_state) :
  best_doctor st <> None -> best_doctor (run doctors st) <> None.
Proof.
  revert st. induction doctors as [|l doctors IH]; intros st Hb; [exact Hb|].
  change (run (l :: doctors) st) with (run doctors (step st l)). apply IH.
  destruct (scan_step_cases st l) as [-> | (d & _ & _ & ->)];
    [exact Hb | discriminate].
Qed.

End WithRequest.

End ScanFacts.

(** ** Matching: scores *)

Module ScoreFacts.
Import DoctorMatcher.

Lemma Qlt_bool_iff (x y : Q) : Qlt_bool x y = true <-> (x < y)%Q.
Proof.
  unfold Qlt_bool. rewrite negb_true_iff. split.
  - intros H. apply Qnot_le_lt. intros Hle.
    apply Qle_bool_iff in Hle. congruence.
  - intros H. destruct (Qle_bool y x) eqn:E; [|reflexivity].
    apply Qle_bool_iff in E. exfalso. now apply (Qlt_not_le x y).
Qed.

Lemma inject_Z_nonneg (z : Z) : 0 <= z -> (0 <= inject_Z z)%Q.
Proof. intros H. change 0%Q with (inject_Z 0). now rewrite <- Zle_Qle. Qed.

Section WithRequest.

Variable specialty_normalized : string.
Variable preferred_slot : string.
Variable patient_language : string.
Variable urgency_score : Z.
Variable patient_age : option Z.
Variable sub_specialization_hint : option string.
Variable patient_conditions : option (list string).

Lemma slot_score_nonneg (d : doctor) :
  (0 <= slot_score preferred_slot urgency_score d)%Q.
Proof.
  unfold slot_score.
  assert (0 <= inject_Z (fst (slot_base preferred_slot d)))%Q as H.
  { apply inject_Z_nonneg.
    destruct (SlotFacts.slot_base_values preferred_slot d) as [-> | [-> | ->]];
      lia. }
  destruct (70 <=? urgency_score); [|exact H]. lra.
Qed.

Lemma sub_spec_score_nonneg (d : doctor) :
  0 <= fst (sub_spec_score sub_specialization_hint patient_conditions d).
Proof.
  unfold sub_spec_score.
  repeat match goal with
         | |- context [if ?b then _ else _] => destruct b
         | |- context [match ?l with [] => _ | _ :: _ => _ end] => destruct l
         end; cbn [fst]; lia.
Qed.

Lemma awards_score_nonneg (d : doctor) : 0 <= fst (awards_score d).
Proof.
  unfold awards_score. destruct (default [] (awards d)); cbn [fst]; [lia|].
  cbn [List.length]. lia.
Qed.

Lemma age_score_nonneg (d : doctor) :
  0 <= fst (age_score specialty_normalized patient_age d).
Proof.
  unfold age_score. destruct patient_age; [|cbn; lia].
  repeat match goal with
         | |- context [if ?b then _ else _] => destruct b
         end; cbn [fst]; lia.
Qed.

Lemma urgency_experience_score_nonneg (d : doctor) :
  0 <= fst (urgency_experience_score urgency_score d).
Proof.
  unfold urgency_experience_score.
  repeat match goal with
         | |- context [if ?b then _ else _] => destruct b
         end; cbn [fst]; lia.
Qed.

(** With a rating and an experience that are not negative, as the data
    model has them, no factor is negative and neither is the score. *)
Lemma score_of_nonneg (d : doctor) :
  (0 <= default 0 (patient_rating d))%Q ->
  0 <= default 0 (experience_years d) ->
  (0 <= score_of specialty_normalized preferred_slot patient_language
          urgency_score patient_age sub_specialization_hint
          patient_conditions d)%Q.
Proof.
  intros Hr He. unfold score_of.
  pose proof (slot_score_nonneg d).
  assert (0 <= inject_Z (language_score patient_language d))%Q
    by (apply inject_Z_nonneg; unfold language_score;
        destruct (language_matches _ _); lia).
  assert (0 <= rating_points d)%Q by (unfold rating_points; nra).
  assert (0 <= inject_Z (experience_score d))%Q
    by (apply inject_Z_nonneg; unfold experience_score; lia).
  pose proof (inject_Z_nonneg _ (sub_spec_score_nonneg d)).
  pose proof (inject_Z_nonneg _ (awards_score_nonneg d)).
  pose proof (inject_Z_nonneg _ (age_score_nonneg d)).
  pose proof (inject_Z_nonneg _ (urgency_experience_score_nonneg d)).
  lra.
Qed.

End WithRequest.

End ScoreFacts.

(** ** Matching: what [find_best_doctor] returns *)

Module MatcherFacts.
Import DoctorMatcher ScanFacts.

Lemma finish_fst (st : scan_state) : fst (finish st) = best_doctor st.
Proof.
  unfold finish. destruct (best_doctor st) as [b|]; [|reflexivity].
  destruct (heap st !! b) as [d|]; [|reflexivity].
  now destruct (doctor_truthy d).
Qed.

Lemma finish_grows (st : scan_state) (h0 : store) :
  (exists extra, heap st = h0 ++ extra) ->
  (forall b, best_doctor st = Some b -> (List.length h0 <= b)%nat) ->
  exists extra, snd (finish st) = h0 ++ extra.
Proof.
  intros [extra Hh] Hb. unfold finish.
  destruct (best_doctor st) as [b|]; [|now exists extra].
  destruct (heap st !! b) as [d|]; [|now exists extra].
  destruct (doctor_truthy d); [|now exists extra].
  cbn [snd]. rewrite Hh.
  rewrite insert_app_r_alt by (apply Hb; reflexivity).
  eexists. reflexivity.
Qed.

Lemma finish_best (st : scan_state) (b : loc) (d : doctor) :
  best_doctor st = Some b -> heap st !! b = Some d ->
  snd (finish st) !! b
  = Some (if doctor_truthy d
          then annotate (best_score st) (best_details st) d else d).
Proof.
  intros Hb Hd. unfold finish. rewrite Hb, Hd.
  destruct (doctor_truthy d); cbn [snd]; [|exact Hd].
  apply list_lookup_insert_eq. now apply lookup_lt_Some with d.
Qed.

Lemma grows_frame (h0 h1 : store) :
  (exists extra, h1 = h0 ++ extra) ->
  forall l d, h0 !! l = Some d -> h1 !! l = Some d.
Proof. intros [extra ->] l d H. now apply lookup_app_l_Some. Qed.

Section WithRequest.

Variable db : database.
Variable specialty : string.
Variable preferred_slot : string.
Variable patient_language : string.
Variable urgency_score : Z.
Variable patient_age : option Z.
Variable sub_specialization_hint : option string.
Variable patient_conditions : option (list string).

Let score := score_of (PyStr.title specialty) preferred_slot patient_language
               urgency_score patient_age sub_specialization_hint
               patient_conditions.
Let details_for := details_of (PyStr.title specialty) preferred_slot
                     patient_language urgency_score patient_age
                     sub_specialization_hint patient_conditions.
Let find (h : store) :=
  find_best_doctor db specialty preferred_slot patient_language
    urgency_score patient_age sub_specialization_hint patient_conditions h.

(** The doctors the call scores: those of the resolved department. *)
Definition candidates : list loc :=
  match resolve_department db specialty with
  | Some department => default [] (dept_doctors department)
  | None => []
  end.

Lemma find_no_candidates (h : store) :
  candidates = [] -> find h = (None, h).
Proof.
  unfold candidates, find, find_best_doctor.
  destruct (resolve_department db specialty) as [dept|]; [|reflexivity].
  now intros ->.
Qed.

Lemma find_some_candidates (h : store) :
  candidates <> [] ->
  find h
  = finish (scan (PyStr.title specialty) preferred_slot patient_language
              urgency_score patient_age sub_specialization_hint
              patient_conditions candidates (scan_init h)).
Proof.
  unfold candidates, find, find_best_doctor.
  destruct (resolve_department db specialty) as [dept|]; [|congruence].
  destruct (default [] (dept_doctors dept)); [congruence | reflexivity].
Qed.

(** The store after the call extends the store before it, and a returned
    location is not one of the store before. *)
Lemma find_grows (h : store) :
  (exists extra, snd (find h) = h ++ extra)
  /\ forall b, fst (find h) = Some b -> (List.length h <= b)%nat.
Proof.
  destruct (list_eq_nil_dec candidates) as [Hnil|Hne].
  - rewrite (find_no_candidates h Hnil). split; [|discriminate].
    exists []. now rewrite app_nil_r.
  - rewrite (find_some_candidates h Hne).
    destruct (scan_frame (PyStr.title specialty) preferred_slot
                patient_language urgency_score patient_age
                sub_specialization_hint patient_conditions candidates
                (scan_init h)) as [Hh Hb].
    cbn [heap best_doctor scan_init] in Hh, Hb.
    assert (forall b, best_doctor (scan (PyStr.title specialty) preferred_slot
                patient_language urgency_score patient_age
                sub_specialization_hint patient_conditions candidates
                (scan_init h)) = Some b -> (List.length h <= b)%nat) as Hfresh.
    { intros b Hbest. destruct Hb as [Hb | (b' & Hb & Hle)].
      - rewrite Hb in Hbest. discriminate.
      - rewrite Hb in Hbest. now injection Hbest as <-. }
    split.
    + now apply finish_grows.
    + intros b. rewrite finish_fst. apply Hfresh.
Qed.

(** When every candidate is an object of the store, a returned location
    holds the copy of a candidate, annotated with that candidate's score
    (or bare, for the empty dict, which is false). *)
Lemma find_returns_copy (h : store) (b : loc) :
  (forall l, In l candidates -> (l < List.length h)%nat) ->
  fst (find h) = Some b ->
  exists l d,
    In l candidates /\ h !! l = Some d
    /\ snd (find h) !! b
       = Some (if doctor_truthy d
               then annotate (score d) (Some (details_for d)) d else d).
Proof.
  intros Hvalid.
  destruct (list_eq_nil_dec candidates) as [Hnil|Hne].
  - rewrite (find_no_candidates h Hnil). discriminate.
  - rewrite (find_some_candidates h Hne), finish_fst. intros Hbest.
    destruct (scan_invariant (PyStr.title specialty) preferred_slot
                patient_language urgency_score patient_age
                sub_specialization_hint patient_conditions h candidates
                candidates (scan_init h)) as [_ Hinv].
    + intros l Hl. split; [exact Hl | now apply Hvalid].
    + exists []. cbn. now rewrite app_nil_r.
    + exact I.
    + unfold best_is_copy in Hinv. rewrite Hbest in Hinv.
      destruct Hinv as (_ & l & d & Hin & Hl & Hd & Hs & Hdet).
      exists l, d. split; [exact Hin|]. split; [exact Hl|].
      rewrite (finish_best _ b d Hbest Hd). now rewrite Hs, Hdet.
Qed.

End WithRequest.

End MatcherFacts.

(** ** Matching: the theorems *)

Module MatcherTheorems.
Import DoctorMatcher MatcherFacts.

(** C9. A call never changes the catalog: every doctor object a department
    of the catalog refers to, and indeed every object of the store, is
    after the call what it was before; the store only grows; a returned
    doctor is a new object, the copy of a candidate, and the score, the
    breakdown and the tier are written to that copy. *)
Theorem find_best_doctor_preserves_catalog
    (db : database) (specialty preferred_slot patient_language : string)
    (urgency_score : Z) (patient_age : option Z)
    (sub_specialization_hint : option string)
    (patient_conditions : option (list string)) (h : list doctor) :
  let result :=
    find_best_doctor db specialty preferred_slot patient_language
      urgency_score patient_age sub_specialization_hint patient_conditions h in
  (forall key department l d,
     In (key, department) db ->
     In l (default [] (dept_doctors department)) ->
     h !! l = Some d -> snd result !! l = Some d)
  /\ (forall l d, h !! l = Some d -> snd result !! l = Some d)
  /\ (exists extra, snd result = h ++ extra)
  /\ (forall b, fst result = Some b -> h !! b = None)
  /\ (forall b,
        fst result = Some b ->
        (forall l, In l (candidates db specialty) ->
                   (l < List.length h)%nat) ->
        exists l d,
          In l (candidates db specialty) /\ h !! l = Some d
          /\ snd result !! b
             = Some (if doctor_truthy d
                     then annotate
                            (score_of (PyStr.title specialty) preferred_slot
                               patient_language urgency_score patient_age
                               sub_specialization_hint patient_conditions d)
                            (Some (details_of (PyStr.title specialty)
                               preferred_slot patient_language urgency_score
                               patient_age sub_specialization_hint
                               patient_conditions d))
                            d
                     else d)).
Proof.
  intros result.
  destruct (find_grows db specialty preferred_slot patient_language
              urgency_score patient_age sub_specialization_hint
              patient_conditions h) as [Hgrow Hfresh].
  fold result in Hgrow, Hfresh.
  assert (forall l d, h !! l = Some d -> snd result !! l = Some d) as Hframe
    by (now apply grows_frame).
  split; [intros key department l d _ _; apply Hframe|].
  split; [exact Hframe|]. split; [exact Hgrow|]. split.
  - intros b Hb. apply lookup_ge_None. now apply Hfresh.
  - intros b Hb Hvalid.
    now apply (find_returns_copy db specialty preferred_slot patient_language
                 urgency_score patient_age sub_specialization_hint
                 patient_conditions h b).
Qed.

(** The catalog doctor stays as loaded after a match that returns a copy of
    it. *)
Lemma find_best_doctor_preserves_catalog_witness :
  snd (find_best_doctor Samples.cardiology_only "cardiology" "09:00"
         "English" 50 None None (Some []) [Samples.dr_rao]) !! 0%nat
  = Some Samples.dr_rao.
Proof.
  apply (proj1 (find_best_doctor_preserves_catalog Samples.cardiology_only
                  "cardiology" "09:00" "English" 50 None None (Some [])
                  [Samples.dr_rao])
           "Cardiology" {| dept_doctors := Some [0%nat] |} 0%nat
           Samples.dr_rao).
  - left. reflexivity.
  - left. reflexivity.
  - reflexivity.
Defined.

End MatcherTheorems.

Module ResolutionTheorems.
Import DoctorMatcher MatcherFacts.

(** One of the two lowercased names is a substring of the other. *)
Definition fuzzy (specialty key : string) : Prop :=
  occurs_in (PyStr.lower specialty) (PyStr.lower key)
  \/ occurs_in (PyStr.lower key) (PyStr.lower specialty).

(** Every candidate is a doctor object of the store whose rating and
    experience are not negative, as the data model has them. *)
Definition well_formed_candidates (h : list doctor) (ls : list nat) : Prop :=
  forall l, In l ls ->
    exists d, h !! l = Some d
              /\ (0 <= default 0 (patient_rating d))%Q
              /\ 0 <= default 0 (experience_years d).

Lemma fuzzy_match_iff (specialty key : string) :
  fuzzy_match specialty key = true <-> fuzzy specialty key.
Proof.
  unfold fuzzy_match, fuzzy. cbv zeta.
  now rewrite orb_true_iff, !contains_occurs.
Qed.

Lemma find_first {A} (f : A -> bool) (pre : list A) (x : A) (post : list A) :
  (forall e, In e pre -> f e = false) -> f x = true ->
  List.find f (pre ++ x :: post) = Some x.
Proof.
  induction pre as [|e pre IH]; intros Hpre Hx; cbn [app List.find].
  - now rewrite Hx.
  - rewrite (Hpre e (or_introl eq_refl)). apply IH; [|exact Hx].
    intros e' He'. apply Hpre. now right.
Qed.

Lemma resolve_exact (db : database) (specialty : string)
    (dept : department) :
  assoc db (PyStr.title specialty) = Some dept ->
  resolve_department db specialty = Some dept.
Proof. unfold resolve_department. cbv zeta. now intros ->. Qed.

Lemma resolve_fuzzy_first (db : database) (specialty : string)
    (pre : list (string * department)) (key : string)
    (dept : department) (post : list (string * department)) :
  assoc db (PyStr.title specialty) = None ->
  db = pre ++ (key, dept) :: post ->
  (forall e, In e pre -> ~ fuzzy specialty (fst e)) ->
  fuzzy specialty key ->
  resolve_department db specialty = Some dept.
Proof.
  intros Hex -> Hpre Hkey. unfold resolve_department. cbv zeta. rewrite Hex.
  rewrite (find_first _ pre (key, dept) post); [reflexivity | |].
  - intros e He. specialize (Hpre e He). rewrite <- fuzzy_match_iff in Hpre.
    now destruct (fuzzy_match specialty (fst e)).
  - now apply fuzzy_match_iff.
Qed.

Lemma resolve_none (db : database) (specialty : string) :
  assoc db (PyStr.title specialty) = None ->
  (forall e, In e db -> ~ fuzzy specialty (fst e)) ->
  resolve_department db specialty = None.
Proof.
  intros Hex Hall. unfold resolve_department. cbv zeta. rewrite Hex.
  destruct (List.find _ db) as [[k dept]|] eqn:E; [|reflexivity].
  apply find_some in E. destruct E as [Hin Hf]. exfalso.
  apply (Hall _ Hin). now apply fuzzy_match_iff.
Qed.

Section WithRequest.

Variable db : database.
Variable specialty : string.
Variable preferred_slot : string.
Variable patient_language : string.
Variable urgency_score : Z.
Variable patient_age : option Z.
Variable sub_specialization_hint : option string.
Variable patient_conditions : option (list string).

(** With well-formed candidates the first one already beats the initial
    best score of -1, so a non-empty department yields a doctor. *)
Lemma find_some_of_candidates (h : list doctor) :
  well_formed_candidates h (candidates db specialty) ->
  candidates db specialty <> [] ->
  fst (find_best_doctor db specialty preferred_slot patient_language
         urgency_score patient_age sub_specialization_hint
         patient_conditions h) <> None.
Proof.
  intros Hwf Hne.
  rewrite (find_some_candidates db specialty preferred_slot patient_language
             urgency_score patient_age sub_specialization_hint
             patient_conditions h Hne), finish_fst.
  destruct (candidates db specialty) as [|l0 rest]; [congruence|].
  destruct (Hwf l0 (or_introl eq_refl)) as (d0 & Hd0 & Hr & He).
  unfold scan. cbn [fold_left]. apply ScanFacts.scan_keeps_best.
  unfold scan_step. cbn [heap scan_init best_score]. rewrite Hd0.
  assert (Qlt_bool (-1)
            (score_of (PyStr.title specialty) preferred_slot
               patient_language urgency_score patient_age
               sub_specialization_hint patient_conditions d0) = true) as ->.
  { apply ScoreFacts.Qlt_bool_iff.
    pose proof (ScoreFacts.score_of_nonneg (PyStr.title specialty)
                  preferred_slot patient_language urgency_score patient_age
                  sub_specialization_hint patient_conditions d0 Hr He).
    lra. }
  discriminate.
Qed.

End WithRequest.

(** C5. The specialty is title-normalized and looked up; failing that, the
    first catalog key, in catalog order, such that one of the two lowercased
    names is a substring of the other is used.  The call returns no match
    exactly when no key resolves or the resolved department has no
    candidates; from a resolved department with candidates a candidate is
    returned (as an annotated copy). *)
Theorem find_best_doctor_resolution
    (db : database) (specialty preferred_slot patient_language : string)
    (urgency_score : Z) (patient_age : option Z)
    (sub_specialization_hint : option string)
    (patient_conditions : option (list string)) (h : list doctor) :
  well_formed_candidates h (candidates db specialty) ->
  let result :=
    find_best_doctor db specialty preferred_slot patient_language
      urgency_score patient_age sub_specialization_hint patient_conditions h in
  (forall dept,
     assoc db (PyStr.title specialty) = Some dept ->
     resolve_department db specialty = Some dept)
  /\ (assoc db (PyStr.title specialty) = None ->
      forall pre key dept post,
        db = pre ++ (key, dept) :: post ->
        (forall e, In e pre -> ~ fuzzy specialty (fst e)) ->
        fuzzy specialty key ->
        resolve_department db specialty = Some dept)
  /\ (assoc db (PyStr.title specialty) = None ->
      (forall e, In e db -> ~ fuzzy specialty (fst e)) ->
      resolve_department db specialty = None)
  /\ (fst result = None
      <-> resolve_department db specialty = None
          \/ exists dept,
               resolve_department db specialty = Some dept
               /\ default [] (dept_doctors dept) = [])
  /\ (forall dept,
        resolve_department db specialty = Some dept ->
        default [] (dept_doctors dept) <> [] ->
        exists b l d d',
          fst result = Some b
          /\ In l (default [] (dept_doctors dept))
          /\ h !! l = Some d
          /\ snd result !! b = Some d'
          /\ (name d', slots d', languages_spoken d', patient_rating d',
              experience_years d', sub_specialization d', awards d')
             = (name d, slots d, languages_spoken d, patient_rating d,
                experience_years d, sub_specialization d, awards d)).
Proof.
  intros Hwf result. subst result.
  split; [intros dept; apply resolve_exact|].
  split; [intros Hex pre key dept post;
          now apply resolve_fuzzy_first|].
  split; [apply resolve_none|].
  pose proof (find_some_of_candidates db specialty preferred_slot
                patient_language urgency_score patient_age
                sub_specialization_hint patient_conditions h Hwf) as Hsome.
  pose proof (find_no_candidates db specialty preferred_slot
                patient_language urgency_score patient_age
                sub_specialization_hint patient_conditions h) as Hnone.
  pose proof (find_returns_copy db specialty preferred_slot
                patient_language urgency_score patient_age
                sub_specialization_hint patient_conditions h) as Hcopy.
  cbv zeta in Hnone, Hcopy.
  unfold candidates in Hsome, Hnone, Hcopy, Hwf.
  split.
  - split.
    + intros Hres.
      destruct (resolve_department db specialty) as [dept|]; [|now left].
      right. exists dept. split; [reflexivity|].
      destruct (default [] (dept_doctors dept)) as [|l0 rest] eqn:E;
        [reflexivity|]. exfalso. now apply Hsome.
    + intros [Hres | (dept & Hres & Hempty)]; rewrite Hres in Hnone.
      * now rewrite Hnone.
      * now rewrite (Hnone Hempty).
  - intros dept Hres Hne. rewrite Hres in Hsome, Hcopy, Hwf.
    specialize (Hsome Hne).
    destruct (fst (find_best_doctor db specialty preferred_slot
                     patient_language urgency_score patient_age
                     sub_specialization_hint patient_conditions h))
      as [b|] eqn:Hb; [|congruence].
    destruct (Hcopy b) as (l & d & Hin & Hl & Hd); [|reflexivity|].
    + intros l Hl. destruct (Hwf l Hl) as (d & Hd & _).
      now apply lookup_lt_Some with d.
    + exists b, l, d. eexists. split; [reflexivity|]. split; [exact Hin|].
      split; [exact Hl|]. split; [exact Hd|].
      now destruct (doctor_truthy d).
Qed.

Lemma sample_well_formed :
  well_formed_candidates [Samples.dr_rao]
    (candidates Samples.cardiology_only "cardio").
Proof.
  intros l [<-|[]]. exists Samples.dr_rao.
  split; [reflexivity|]. split; cbn; [unfold Qle; cbn; lia | lia].
Qed.

(** "cardio" is no catalog key but a substring of "cardiology": the one
    cardiologist is returned. *)
Lemma find_best_doctor_resolution_witness :
  exists b l d d',
    fst (find_best_doctor Samples.cardiology_only "cardio" "09:00" "English"
           50 None None (Some []) [Samples.dr_rao]) = Some b
    /\ In l [0%nat]
    /\ [Samples.dr_rao] !! l = Some d
    /\ snd (find_best_doctor Samples.cardiology_only "cardio" "09:00"
              "English" 50 None None (Some []) [Samples.dr_rao]) !! b
       = Some d'
    /\ (name d', slots d', languages_spoken d', patient_rating d',
        experience_years d', sub_specialization d', awards d')
       = (name d, slots d, languages_spoken d, patient_rating d,
          experience_years d, sub_specialization d, awards d).
Proof.
  apply (proj2 (proj2 (proj2 (proj2
           (find_best_doctor_resolution Samples.cardiology_only "cardio"
              "09:00" "English" 50 None None (Some []) [Samples.dr_rao]
              sample_well_formed))))
           {| dept_doctors := Some [0%nat] |}).
  - reflexivity.
  - discriminate.
Defined.

End ResolutionTheorems.

Module ScenarioTheorems.
Import DoctorMatcher.

(** C2. One candidate in the resolved department, with the single slot
    09:00, rating 4.5, ten years of experience, no subspecialty label and
    no awards; the request asks for 09:00 in a language the candidate does
    not speak, with urgency 50, no hint, no conditions and no age.  The
    call returns a copy of that candidate with score 40 + 0 + 18 + 10 = 68
    and tier "fair". *)
Theorem single_candidate_scenario
    (db : database) (specialty patient_language : string)
    (sub_specialization_hint : option string)
    (patient_conditions : option (list string))
    (h : list doctor) (dept : department) (l : nat) (d : doctor) :
  resolve_department db specialty = Some dept ->
  dept_doctors dept = Some [l] ->
  h !! l = Some d ->
  slots d = Some ["09:00"] ->
  patient_rating d = Some (9 # 2) ->
  experience_years d = Some 10 ->
  default "" (sub_specialization d) = "" ->
  default [] (awards d) = [] ->
  py_in patient_language (default [] (languages_spoken d)) = false ->
  PyStr.truthy (default "" sub_specialization_hint) = false ->
  default [] patient_conditions = [] ->
  score_of (PyStr.title specialty) "09:00" patient_language 50 None
           sub_specialization_hint patient_conditions d
    == 40 + 0 + 18 + 10
  /\ find_best_doctor db specialty "09:00" patient_language 50 None
       sub_specialization_hint patient_conditions h
     = (Some (List.length h),
        h ++ [ {| name := name d; slots := slots d;
                  languages_spoken := languages_spoken d;
                  patient_rating := patient_rating d;
                  experience_years := experience_years d;
                  sub_specialization := sub_specialization d;
                  awards := awards d;
                  match_score := Some 68%Q;
                  match_details :=
                    Some (Some {| slot_match := "exact";
                                  language_match := false;
                                  rating_score := 9 # 2;
                                  details_experience_years := 10;
                                  sub_spec_match := None;
                                  has_awards := None;
                                  age_appropriate := None;
                                  urgency_experience_match := None |});
                  match_quality := Some "fair" |} ]).
Proof.
  intros Hres Hdocs Hd Hslots Hrating Hexp Hsub Hawards Hlang Hhint Hconds.
  assert (score_of (PyStr.title specialty) "09:00" patient_language 50 None
            sub_specialization_hint patient_conditions d
          = (0 + 40 + inject_Z 0 + (9 # 2) * 4 + inject_Z 10 + inject_Z 0
             + inject_Z 0 + inject_Z 0 + inject_Z 0)%Q) as Hscore.
  { unfold score_of, slot_score, slot_base, language_score, language_matches,
      rating_points, experience_score, sub_spec_score, awards_score,
      age_score, urgency_experience_score.
    rewrite Hslots, Hrating, Hexp, Hsub, Hawards, Hlang, Hhint, Hconds.
    reflexivity. }
  assert (details_of (PyStr.title specialty) "09:00" patient_language 50 None
            sub_specialization_hint patient_conditions d
          = {| slot_match := "exact"; language_match := false;
               rating_score := 9 # 2; details_experience_years := 10;
               sub_spec_match := None; has_awards := None;
               age_appropriate := None;
               urgency_experience_match := None |}) as Hdetails.
  { unfold details_of, slot_base, language_matches, sub_spec_score,
      awards_score, age_score, urgency_experience_score.
    rewrite Hslots, Hrating, Hexp, Hsub, Hawards, Hlang, Hhint, Hconds.
    reflexivity. }
  split; [rewrite Hscore; reflexivity|].
  unfold find_best_doctor. rewrite Hres, Hdocs.
  change (default [] (Some [l])) with [l]. cbv iota.
  unfold scan. cbn [fold_left]. unfold scan_step.
  cbn [scan_init heap best_score]. rewrite Hd, Hscore, Hdetails.
  change (Qlt_bool (-1)
            (0 + 40 + inject_Z 0 + (9 # 2) * 4 + inject_Z 10 + inject_Z 0
             + inject_Z 0 + inject_Z 0 + inject_Z 0)) with true.
  cbn [copy]. unfold finish. cbn [best_doctor heap best_score best_details].
  rewrite (list_lookup_middle h [] d (List.length h) eq_refl).
  assert (doctor_truthy d = true) as ->.
  { unfold doctor_truthy. rewrite Hslots. cbn [present].
    now destruct (present (name d)). }
  f_equal. rewrite insert_app_r_alt by lia. rewrite Nat.sub_diag.
  reflexivity.
Qed.

(** The sample cardiologist, asked for in English. *)
Lemma single_candidate_scenario_witness :
  (score_of (PyStr.title "Cardiology") "09:00" "English" 50 None None
            (Some []) Samples.dr_rao
     == 40 + 0 + 18 + 10)%Q
  /\ find_best_doctor Samples.cardiology_only "Cardiology" "09:00" "English"
       50 None None (Some []) [Samples.dr_rao]
     = (Some 1%nat,
        [ Samples.dr_rao;
          {| name := Some "Dr. Rao"; slots := Some ["09:00"];
             languages_spoken := Some ["Hindi"; "Marathi"];
             patient_rating := Some (9 # 2); experience_years := Some 10;
             sub_specialization := None; awards := None;
             match_score := Some 68%Q;
             match_details :=
               Some (Some {| slot_match := "exact";
                             language_match := false;
                             rating_score := 9 # 2;
                             details_experience_years := 10;
                             sub_spec_match := None;
                             has_awards := None;
                             age_appropriate := None;
                             urgency_experience_match := None |});
             match_quality := Some "fair" |} ]).
Proof.
  apply (single_candidate_scenario Samples.cardiology_only "Cardiology"
           "English" None (Some []) [Samples.dr_rao]
           {| dept_doctors := Some [0%nat] |} 0%nat Samples.dr_rao);
    reflexivity.
Defined.

End ScenarioTheorems.

(** ** The pipeline: the matching call *)

Module RequestTheorems.

(** The claimed source of the hint: the first entry of the evaluation
    stage's list of potential conditions. *)
Definition hint_as_claimed (o4_result : analysis) : option string :=
  match default [] (potential_conditions o4_result) with
  | first :: _ => Some first
  | [] => None
  end.

(** The hint the code passes is the mapping stage's first condition, here
    "Angina", not the evaluation stage's "Heart failure". *)
Lemma hint_is_not_from_evaluation :
  req_sub_specialization_hint
    (matching_request PipelineSamples.alice PipelineSamples.mapping_result
       PipelineSamples.urgency_result PipelineSamples.evaluation_result)
  <> hint_as_claimed PipelineSamples.evaluation_result.
Proof. cbn. discriminate. Qed.

(** [process_patient] with the matching call named: the pair destructured
    by the source's [try] is read through [fst] and [snd]. *)
Lemma process_patient_unfold
    (analyze_symptoms : Patient.t -> outcome analysis)
    (calculate_urgency : Patient.t -> analysis -> outcome analysis)
    (final_evaluation : Patient.t -> analysis -> analysis -> outcome analysis)
    (db : database) (p : Patient.t) (h : list doctor) :
  process_patient analyze_symptoms calculate_urgency final_evaluation db p h
  = let g := match analyze_symptoms p with
             | Returned r => r | Raised e => error_placeholder e end in
    let k := match calculate_urgency p g with
             | Returned r => r | Raised e => error_placeholder e end in
    let o := match final_evaluation p g k with
             | Returned r => r | Raised e => error_placeholder e end in
    let m := call_matcher db (matching_request p g k o) h in
    ({| patient := p;
        result_analyses := {| gemini := g; grok := k; o4mini := o |};
        matched_doctor := match fst m with
                          | Returned doctor => doctor
                          | Raised _ => None
                          end |}, snd m).
Proof.
  unfold process_patient. cbv zeta.
  now destruct (call_matcher db _ h) as [[doctor|e] h'].
Qed.

(** C4, amended.  The matching engine is invoked with the evaluation
    stage's [final_specialty], or the mapping stage's [primary_specialty]
    when that key is absent; with the first entry of the mapping stage's
    [potential_conditions] as hint when that list is present and not
    empty, and no hint otherwise; and with the urgency stage's
    [urgency_score], or 50 when that key is absent.  A call without any
    specialty raises inside the orchestrator's [try] and leaves no match. *)
Theorem process_patient_matching_call
    (analyze_symptoms : Patient.t -> outcome analysis)
    (calculate_urgency : Patient.t -> analysis -> outcome analysis)
    (final_evaluation : Patient.t -> analysis -> analysis -> outcome analysis)
    (db : database) (p : Patient.t) (h : list doctor) :
  let run := process_patient analyze_symptoms calculate_urgency
               final_evaluation db p h in
  let a := result_analyses (fst run) in
  let specialty :=
    match final_specialty (o4mini a) with
    | Some s => Some s
    | None => primary_specialty (gemini a)
    end in
  let hint :=
    match potential_conditions (gemini a) with
    | Some (first :: _) => Some first
    | _ => None
    end in
  let urgency := default 50 (urgency_score (grok a)) in
  matching_request p (gemini a) (grok a) (o4mini a)
  = {| req_specialty := specialty;
       req_preferred_slot := default "09:00" (Patient.preferred_slot p);
       req_patient_language := default "English" (Patient.preferred_language p);
       req_urgency_score := urgency;
       req_patient_age := Patient.age p;
       req_sub_specialization_hint := hint;
       req_patient_conditions :=
         Some (default [] (Patient.pre_existing_conditions p)) |}
  /\ (matched_doctor (fst run), snd run)
     = match specialty with
       | Some s =>
           DoctorMatcher.find_best_doctor db s
             (default "09:00" (Patient.preferred_slot p))
             (default "English" (Patient.preferred_language p))
             urgency (Patient.age p) hint
             (Some (default [] (Patient.pre_existing_conditions p))) h
       | None => (None, h)
       end.
Proof.
  intros run a specialty hint urgency. split.
  - unfold matching_request. cbv zeta. f_equal. subst hint.
    now destruct (potential_conditions (gemini a)) as [[|]|].
  - subst specialty hint urgency a run. rewrite process_patient_unfold.
    cbv zeta. cbn [fst snd result_analyses gemini grok o4mini matched_doctor].
    set (g := match analyze_symptoms p with
              | Returned r => r | Raised e => error_placeholder e end).
    set (k := match calculate_urgency p g with
              | Returned r => r | Raised e => error_placeholder e end).
    set (o := match final_evaluation p g k with
              | Returned r => r | Raised e => error_placeholder e end).
    unfold call_matcher, matching_request. cbv zeta.
    cbn [req_specialty req_preferred_slot req_patient_language
         req_urgency_score req_patient_age req_sub_specialization_hint
         req_patient_conditions].
    replace (match default [] (potential_conditions g) with
             | [] => None | first :: _ => Some first end)
      with (match potential_conditions g with
            | Some (first :: _) => Some first | _ => None end)
      by (now destruct (potential_conditions g) as [[|]|]).
    destruct (match final_specialty o with
              | Some s => Some s | None => primary_specialty g end);
      [|reflexivity].
    now destruct (DoctorMatcher.find_best_doctor _ _ _ _ _ _ _ _ _).
Qed.

End RequestTheorems.

(** ** The pipeline: stage failures *)

Module PipelineFacts.

Section WithStages.

Variable analyze_symptoms : Patient.t -> outcome analysis.
Variable calculate_urgency : Patient.t -> analysis -> outcome analysis.
Variable final_evaluation :
  Patient.t -> analysis -> analysis -> outcome analysis.
Variable db : database.

(** What a [try] around a stage leaves in the record. *)
Definition contained (o : outcome analysis) : analysis :=
  match o with
  | Returned r => r
  | Raised e => error_placeholder e
  end.




End WithStages.

End PipelineFacts.

(** ** The web run *)

Module WebFacts.
Import App.

(** Some assessment stage raises [e] for [p]. *)
Definition stage_raises
    (analyze_symptoms : Patient.t -> outcome analysis)
    (calculate_urgency : Patient.t -> analysis -> outcome analysis)
    (final_evaluation : Patient.t -> analysis -> analysis -> outcome analysis)
    (p : Patient.t) (e : string) : Prop :=
  analyze_symptoms p = Raised e
  \/ exists g,
       analyze_symptoms p = Returned g
       /\ (calculate_urgency p g = Raised e
           \/ exists k,
                calculate_urgency p g = Returned k
                /\ final_evaluation p g k = Raised e).

Section WithStages.

Variable analyze_symptoms : Patient.t -> outcome analysis.
Variable calculate_urgency : Patient.t -> analysis -> outcome analysis.
Variable final_evaluation :
  Patient.t -> analysis -> analysis -> outcome analysis.
Variable db : database.

(** In the loop of [run_triage_background] a stage that raises ends the
    loop: the exception leaves it, and neither the patient at hand nor any
    later one gets a record. *)
Theorem web_loop_aborts_on_stage_failure
    (i : nat) (p : Patient.t) (rest : list Patient.t) (st : state)
    (e : string) :
  stage_raises analyze_symptoms calculate_urgency final_evaluation p e ->
  let r := triage_loop analyze_symptoms calculate_urgency final_evaluation
             db i (p :: rest) st in
  fst r = Raised e
  /\ instance_results (snd r) = instance_results st
  /\ results (status (snd r)) = results (status st).
Proof.
  intros Hraise. cbn [triage_loop]. unfold triage_one.
  unfold mbind, M_bind, modify, stream_update, call. cbn.
  destruct Hraise as [H1 | (g & H1 & [H2 | (k & H2 & H3)])].
  - rewrite H1. cbn. auto.
  - rewrite H1. cbn. rewrite H2. cbn. auto.
  - rewrite H1. cbn. rewrite H2. cbn. rewrite H3. cbn. auto.
Qed.

End WithStages.

(** The urgency service is down: the loop over Alice and Bob stops at
    Alice with no record at all. *)
Lemma web_loop_aborts_on_stage_failure_witness :
  fst (triage_loop PipelineSamples.mapping_ok PipelineSamples.urgency_down
         PipelineSamples.evaluation_ok Samples.cardiology_only 1
         [PipelineSamples.alice; PipelineSamples.bob] PipelineSamples.idle)
  = Raised "Connection error."
  /\ instance_results
       (snd (triage_loop PipelineSamples.mapping_ok
               PipelineSamples.urgency_down PipelineSamples.evaluation_ok
               Samples.cardiology_only 1
               [PipelineSamples.alice; PipelineSamples.bob]
               PipelineSamples.idle))
     = instance_results PipelineSamples.idle
  /\ results
       (status
          (snd (triage_loop PipelineSamples.mapping_ok
                  PipelineSamples.urgency_down PipelineSamples.evaluation_ok
                  Samples.cardiology_only 1
                  [PipelineSamples.alice; PipelineSamples.bob]
                  PipelineSamples.idle)))
     = results (status PipelineSamples.idle).
Proof.
  apply (web_loop_aborts_on_stage_failure PipelineSamples.mapping_ok
           PipelineSamples.urgency_down PipelineSamples.evaluation_ok
           Samples.cardiology_only 1 PipelineSamples.alice
           [PipelineSamples.bob] PipelineSamples.idle "Connection error.").
  right. exists PipelineSamples.mapping_result. split; [reflexivity|].
  left. reflexivity.
Defined.

(** The same two patients and the same failing stage, through the web run
    and through the orchestrator's own loop: the web run ends in its error
    step with no record; the orchestrator yields two records, each with
    the placeholder for the failed stage and a matched doctor. *)
Example stage_failure_on_both_paths :
  let web :=
    snd (run_triage_background PipelineSamples.mapping_ok
           PipelineSamples.urgency_down PipelineSamples.evaluation_ok
           Samples.cardiology_only (Returned tt) PipelineSamples.load_two
           PipelineSamples.report_ok PipelineSamples.sheet_ok
           PipelineSamples.report_ok PipelineSamples.report_ok
           PipelineSamples.report_ok "patients.json" PipelineSamples.idle) in
  let cli :=
    fst (process_all PipelineSamples.mapping_ok PipelineSamples.urgency_down
           PipelineSamples.evaluation_ok Samples.cardiology_only
           [PipelineSamples.alice; PipelineSamples.bob] []
           [Samples.dr_rao]) in
  results (status web) = []
  /\ instance_results web = []
  /\ total_patients (status web) = 2%nat
  /\ current_step (status web) = "error"
  /\ map (fun r => (grok (result_analyses r), matched_doctor r)) cli
     = [ (error_placeholder "Connection error.", Some 1%nat);
         (error_placeholder "Connection error.", Some 2%nat) ].
Proof. vm_compute. repeat split. Qed.

End WebFacts.

(** ** The run-status flag *)

Module RunStatusFacts.
Import App.

(** [c] keeps [P] true of the globals, however it ends. *)
Definition preserves {A} (P : state -> Prop) (c : M A) : Prop :=
  forall st, P st -> P (snd (c st)).

Lemma preserves_bind {A B} (P : state -> Prop) (c : M A) (k : A -> M B) :
  preserves P c -> (forall a, preserves P (k a)) -> preserves P (c ≫= k).
Proof.
  intros Hc Hk st HP. unfold mbind, M_bind.
  specialize (Hc st HP). destruct (c st) as [[a|e] st']; cbn [snd] in *.
  - now apply Hk.
  - exact Hc.
Qed.

Lemma preserves_call {A} (P : state -> Prop) (o : outcome A) :
  preserves P (call o).
Proof. intros st HP. exact HP. Qed.

Lemma preserves_ret {A} (P : state -> Prop) (a : A) :
  preserves P (mret a : M A).
Proof. intros st HP. exact HP. Qed.

Definition running (st : state) : Prop := is_running (status st) = true.

Lemma preserves_running_modify (f : state -> state) :
  (forall st, is_running (status (f st)) = is_running (status st)) ->
  preserves running (modify f).
Proof. intros Hf st HP. unfold running, modify. cbn [snd]. now rewrite Hf. Qed.

Lemma after_setting_flag {A} (c : M A) (st : state) :
  preserves running c ->
  running (snd ((modify (set_is_running true) ≫= fun _ => c) st)).
Proof.
  intros Hc. unfold mbind, M_bind, modify. cbv beta iota. now apply Hc.
Qed.

Ltac keep_running :=
  repeat first
    [ apply preserves_bind; [|intros ?]
    | apply preserves_call
    | apply preserves_ret
    | apply preserves_running_modify; intros ?; reflexivity
    | intros ? ?; apply preserves_call; assumption ].

Section WithServices.

Variable analyze_symptoms : Patient.t -> outcome analysis.
Variable calculate_urgency : Patient.t -> analysis -> outcome analysis.
Variable final_evaluation :
  Patient.t -> analysis -> analysis -> outcome analysis.
Variable db : database.
Variable new_orchestrator : outcome unit.
Variable load_patients : string -> outcome (list Patient.t).
Variable generate_summary_report : list triage_result -> outcome unit.
Variable create_triage_sheet : list triage_result -> outcome (option string).
Variable schedule_appointments : list triage_result -> outcome unit.
Variable generate_all_pdfs : list triage_result -> outcome unit.
Variable send_all_emails : list triage_result -> outcome unit.
Variable DEFAULT_PATIENT_FILE : string.

Lemma triage_one_keeps_running (i : nat) (p : Patient.t) :
  preserves running
    (triage_one analyze_symptoms calculate_urgency final_evaluation db i p).
Proof.
  unfold triage_one, stream_update. keep_running.
  intros st HP. unfold running in *.
  destruct (call_matcher db _ (heap st)) as [o h']. exact HP.
Qed.

Lemma triage_loop_keeps_running (i : nat) (patients : list Patient.t) :
  preserves running
    (triage_loop analyze_symptoms calculate_urgency final_evaluation db i
       patients).
Proof.
  revert i. induction patients as [|p rest IH]; intros i; cbn [triage_loop].
  - apply preserves_ret.
  - apply preserves_bind; [apply triage_one_keeps_running | intros _; apply IH].
Qed.

(** From its first statement to the end of its [try] block, whether that
    block returns or raises, the run keeps the flag set. *)
Lemma run_body_sets_flag (patient_file : string) (st : state) :
  running
    (snd (run_body analyze_symptoms calculate_urgency final_evaluation db
            new_orchestrator load_patients generate_summary_report
            create_triage_sheet schedule_appointments generate_all_pdfs
            send_all_emails patient_file st)).
Proof.
  unfold run_body. apply after_setting_flag.
  unfold stream_update. keep_running.
  apply triage_loop_keeps_running.
Qed.

End WithServices.

End RunStatusFacts.

Module RunStatusTheorems.
Import App.

(** C8. While the flag is set a start request is refused, whatever it
    carries, and changes nothing: no thread is started, nothing is queued.
    The background run keeps the flag set until the end of its [try]
    block and clears it however that block ends, by returning or by
    raising.  So in the state a run leaves behind, a start request whose
    body can be read and whose thread can be started is accepted: it sets
    the flag and starts one new run, on the file it names or the default
    one. *)
Theorem single_run_and_clean_exit
    (analyze_symptoms : Patient.t -> outcome analysis)
    (calculate_urgency : Patient.t -> analysis -> outcome analysis)
    (final_evaluation : Patient.t -> analysis -> analysis -> outcome analysis)
    (db : database) (new_orchestrator : outcome unit)
    (load_patients : string -> outcome (list Patient.t))
    (generate_summary_report : list triage_result -> outcome unit)
    (create_triage_sheet : list triage_result -> outcome (option string))
    (schedule_appointments generate_all_pdfs send_all_emails :
       list triage_result -> outcome unit)
    (DEFAULT_PATIENT_FILE patient_file : string)
    (get_json : outcome json_body) (thread_start : outcome unit)
    (st : state) :
  let run :=
    run_triage_background analyze_symptoms calculate_urgency final_evaluation
      db new_orchestrator load_patients generate_summary_report
      create_triage_sheet schedule_appointments generate_all_pdfs
      send_all_emails patient_file in
  let body :=
    run_body analyze_symptoms calculate_urgency final_evaluation
      db new_orchestrator load_patients generate_summary_report
      create_triage_sheet schedule_appointments generate_all_pdfs
      send_all_emails patient_file in
  let start := start_triage DEFAULT_PATIENT_FILE get_json thread_start in
  (is_running (status st) = true -> start st = (Returned false, st))
  /\ is_running (status (snd (body st))) = true
  /\ is_running (status (snd (run st))) = false
  /\ (fst (body st) = Returned tt ->
      snd (run st) = set_is_running false (snd (body st)))
  /\ (forall e, fst (body st) = Raised e ->
        snd (run st)
        = set_is_running false (snd (run_handler e (snd (body st)))))
  /\ (forall data file,
        get_json = Returned data ->
        patient_file_of DEFAULT_PATIENT_FILE data = Returned file ->
        thread_start = Returned tt ->
        fst (start (snd (run st))) = Returned true
        /\ threads (snd (start (snd (run st))))
           = threads (snd (run st)) ++ [file]
        /\ is_running (status (snd (start (snd (run st))))) = true).
Proof.
  intros run body start.
  assert (is_running (status (snd (run st))) = false) as Hclear.
  { subst run. unfold run_triage_background, try_except_finally.
    destruct (run_body _ _ _ _ _ _ _ _ _ _ _ _ st) as [[[]|e] st'].
    - reflexivity.
    - now destruct (run_handler e st'). }
  split; [|split; [|split; [exact Hclear|split; [|split]]]].
  - intros Hrun. subst start. unfold start_triage. now rewrite Hrun.
  - apply RunStatusFacts.run_body_sets_flag.
  - subst run body. unfold run_triage_background, try_except_finally.
    destruct (run_body _ _ _ _ _ _ _ _ _ _ _ _ st) as [[[]|e] st'];
      cbn [fst snd]; [reflexivity | discriminate].
  - intros e. subst run body.
    unfold run_triage_background, try_except_finally.
    destruct (run_body _ _ _ _ _ _ _ _ _ _ _ _ st) as [[[]|e'] st'];
      cbn [fst snd]; [discriminate|]. intros [= ->].
    now destruct (run_handler e st').
  - intros data file Hjson Hfile Hthread. subst start.
    unfold start_triage. rewrite Hclear, Hjson, Hthread.
    unfold mbind, M_bind, modify, call, mret, M_ret. cbn [fst snd].
    rewrite Hfile. cbn [fst snd threads status is_running record_thread
                          reset_status]. auto.
Qed.

(** A run on the sample batch, whose urgency stage is down, ends; a
    request that names a file then starts a new run on that file. *)
Lemma single_run_and_clean_exit_witness :
  let after_run :=
    snd (run_triage_background PipelineSamples.mapping_ok
           PipelineSamples.urgency_down PipelineSamples.evaluation_ok
           Samples.cardiology_only (Returned tt) PipelineSamples.load_two
           PipelineSamples.report_ok PipelineSamples.sheet_ok
           PipelineSamples.report_ok PipelineSamples.report_ok
           PipelineSamples.report_ok "patients.json"
           PipelineSamples.idle) in
  let start :=
    start_triage "patients.json" (Returned (JObject (Some "ward_b.json")))
      (Returned tt) in
  fst (start after_run) = Returned true
  /\ threads (snd (start after_run)) = threads after_run ++ ["ward_b.json"]
  /\ is_running (status (snd (start after_run))) = true.
Proof.
  apply (proj2 (proj2 (proj2 (proj2 (proj2
           (single_run_and_clean_exit PipelineSamples.mapping_ok
              PipelineSamples.urgency_down PipelineSamples.evaluation_ok
              Samples.cardiology_only (Returned tt)
              PipelineSamples.load_two PipelineSamples.report_ok
              PipelineSamples.sheet_ok PipelineSamples.report_ok
              PipelineSamples.report_ok PipelineSamples.report_ok
              "patients.json" "patients.json"
              (Returned (JObject (Some "ward_b.json"))) (Returned tt)
              PipelineSamples.idle)))))
           (JObject (Some "ward_b.json")) "ward_b.json");
    reflexivity.
Defined.

(** A request that arrives between the start of a run and its end is
    refused and leaves the globals as they are. *)
Example start_triage_while_running :
  let started :=
    snd (start_triage "patients.json" (Returned JFalsy) (Returned tt)
           PipelineSamples.idle) in
  start_triage "patients.json" (Returned JFalsy) (Returned tt) started
  = (Returned false, started).
Proof. reflexivity. Qed.

End RunStatusTheorems.

(** * Further properties *)

(** ** Matching: which candidate wins *)

Module WinnerFacts.
Import DoctorMatcher.

Section WithRequest.

Variable specialty_normalized : string.
Variable preferred_slot : string.
Variable patient_language : string.
Variable urgency_score : Z.
Variable patient_age : option Z.
Variable sub_specialization_hint : option string.
Variable patient_conditions : option (list string).

Let score := score_of specialty_normalized preferred_slot patient_language
               urgency_score patient_age sub_specialization_hint
               patient_conditions.
Let details_for := details_of specialty_normalized preferred_slot
                     patient_language urgency_score patient_age
                     sub_specialization_hint patient_conditions.
Let step := scan_step specialty_normalized preferred_slot patient_language
              urgency_score patient_age sub_specialization_hint
              patient_conditions.
Let run := scan specialty_normalized preferred_slot patient_language
             urgency_score patient_age sub_specialization_hint
             patient_conditions.




(** The loop allocates at most one object per doctor, and none as long as
    no best doctor is set. *)
Lemma scan_allocates (doctors : list nat) (st : scan_state) :
  (List.length (heap (run doctors st))
   <= List.length (heap st) + List.length doctors)%nat
  /\ (best_doctor (run doctors st) = None -> heap (run doctors st) = heap st).
Proof.
  revert st. induction doctors as [|l doctors IH]; intros st.
  - change (run [] st) with st. cbn [List.length]. split; [lia | reflexivity].
  - change (run (l :: doctors) st) with (run doctors (step st l)).
    destruct (IH (step st l)) as [Hlen Hnone].
    pose proof (ScanFacts.scan_step_cases specialty_normalized preferred_slot
                  patient_language urgency_score patient_age
                  sub_specialization_hint patient_conditions st l) as Hc.
    change (scan_step specialty_normalized preferred_slot patient_language
              urgency_score patient_age sub_specialization_hint
              patient_conditions st l) with (step st l) in Hc.
    destruct Hc as [Hsame | (d & _ & _ & Hnew)].
    + rewrite Hsame in *. split; [cbn [List.length]; lia | exact Hnone].
    + split.
      * assert (List.length (heap (step st l)) = S (List.length (heap st)))
          as Hone
          by (rewrite Hnew; cbn [heap]; rewrite length_app;
              cbn [List.length]; lia).
        cbn [List.length]. lia.
      * intros Hb. exfalso.
        apply (ScanFacts.scan_keeps_best specialty_normalized preferred_slot
                 patient_language urgency_score patient_age
                 sub_specialization_hint patient_conditions doctors
                 (step st l)); [|exact Hb].
        rewrite Hnew. discriminate.
Qed.

End WithRequest.

End WinnerFacts.

Module WinnerTheorems.
Import DoctorMatcher MatcherFacts WinnerFacts.





(** X2. A call that returns no match leaves the store exactly as it was,
    and any call allocates at most one object per candidate. *)
Theorem find_best_doctor_allocation
    (db : database) (specialty preferred_slot patient_language : string)
    (urgency_score : Z) (patient_age : option Z)
    (sub_specialization_hint : option string)
    (patient_conditions : option (list string)) (h : list doctor) :
  let result :=
    find_best_doctor db specialty preferred_slot patient_language
      urgency_score patient_age sub_specialization_hint patient_conditions h in
  (fst result = None -> snd result = h)
  /\ (List.length (snd result)
      <= List.length h + List.length (candidates db specialty))%nat.
Proof.
  intros result. subst result.
  destruct (list_eq_nil_dec (candidates db specialty)) as [Hnil|Hne].
  - rewrite (find_no_candidates db specialty preferred_slot patient_language
               urgency_score patient_age sub_specialization_hint
               patient_conditions h Hnil). cbn [fst snd].
    split; [reflexivity | lia].
  - rewrite (find_some_candidates db specialty preferred_slot
               patient_language urgency_score patient_age
               sub_specialization_hint patient_conditions h Hne), finish_fst.
    destruct (scan_allocates (PyStr.title specialty) preferred_slot
                patient_language urgency_score patient_age
                sub_specialization_hint patient_conditions
                (candidates db specialty) (scan_init h)) as [Hlen Hnone].
    cbn [heap scan_init] in Hlen, Hnone.
    set (st := scan _ _ _ _ _ _ _ _ _) in *.
    assert (List.length (snd (finish st)) = List.length (heap st)) as Hfin.
    { unfold finish. destruct (best_doctor st) as [b|]; [|reflexivity].
      destruct (heap st !! b) as [d|]; [|reflexivity].
      destruct (doctor_truthy d); [|reflexivity].
      cbn [snd]. apply length_insert. }
    split; [|lia].
    intros Hb. unfold finish. rewrite Hb. cbn [snd]. now apply Hnone.
Qed.

(** No catalog key resembles "astrology": nothing is returned and nothing
    is allocated. *)
Lemma find_best_doctor_allocation_witness :
  snd (find_best_doctor Samples.cardiology_only "astrology" "09:00"
         "English" 50 None None (Some []) [Samples.dr_rao])
  = [Samples.dr_rao].
Proof.
  apply (proj1 (find_best_doctor_allocation Samples.cardiology_only
                  "astrology" "09:00" "English" 50 None None (Some [])
                  [Samples.dr_rao])).
  reflexivity.
Defined.

End WinnerTheorems.

(** ** Matching: the size of a score *)

Module ScoreBounds.
Import DoctorMatcher.

(** The doctor [d] with another rating. *)
Definition with_rating (r : Q) (d : doctor) : doctor :=
  {| name := name d; slots := slots d;
     languages_spoken := languages_spoken d;
     patient_rating := Some r;
     experience_years := experience_years d;
     sub_specialization := sub_specialization d;
     awards := awards d;
     match_score := match_score d;
     match_details := match_details d;
     match_quality := match_quality d |}.

Lemma inject_Z_le (z c : Z) : z <= c -> (inject_Z z <= inject_Z c)%Q.
Proof. intros H. now rewrite <- Zle_Qle. Qed.

Section WithRequest.

Variable specialty_normalized : string.
Variable preferred_slot : string.
Variable patient_language : string.
Variable urgency_score : Z.
Variable patient_age : option Z.
Variable sub_specialization_hint : option string.
Variable patient_conditions : option (list string).

Lemma slot_score_le (d : doctor) :
  (slot_score preferred_slot urgency_score d <= 60)%Q.
Proof.
  unfold slot_score.
  assert (0 <= inject_Z (fst (slot_base preferred_slot d)) <= 40)%Q as H.
  { split; [apply ScoreFacts.inject_Z_nonneg | apply (inject_Z_le _ 40)];
      destruct (SlotFacts.slot_base_values preferred_slot d)
        as [-> | [-> | ->]]; lia. }
  destruct (70 <=? urgency_score); lra.
Qed.

Lemma sub_spec_score_le (d : doctor) :
  fst (sub_spec_score sub_specialization_hint patient_conditions d) <= 30.
Proof.
  unfold sub_spec_score.
  repeat match goal with
         | |- context [if ?b then _ else _] => destruct b
         | |- context [match ?l with [] => _ | _ :: _ => _ end] => destruct l
         end; cbn [fst]; lia.
Qed.

Lemma awards_score_le (d : doctor) : fst (awards_score d) <= 10.
Proof.
  unfold awards_score. destruct (default [] (awards d)); cbn [fst]; lia.
Qed.

Lemma age_score_le (d : doctor) :
  fst (age_score specialty_normalized patient_age d) <= 10.
Proof.
  unfold age_score. destruct patient_age; [|cbn; lia].
  repeat match goal with
         | |- context [if ?b then _ else _] => destruct b
         end; cbn [fst]; lia.
Qed.

Lemma urgency_experience_score_le (d : doctor) :
  fst (urgency_experience_score urgency_score d) <= 10.
Proof.
  unfold urgency_experience_score.
  repeat match goal with
         | |- context [if ?b then _ else _] => destruct b
         end; cbn [fst]; lia.
Qed.

(** X3. For a doctor with a rating between 0 and 5 and an experience that
    is not negative, the score lies between 0 and 180, the sum of the
    factor maxima 60, 25, 20, 15, 30, 10, 10 and 10. *)
Theorem score_of_bounds (d : doctor) :
  (0 <= default 0 (patient_rating d) <= 5)%Q ->
  0 <= default 0 (experience_years d) ->
  (0 <= score_of specialty_normalized preferred_slot patient_language
          urgency_score patient_age sub_specialization_hint
          patient_conditions d <= 180)%Q.
Proof.
  intros [Hr0 Hr5] He. split; [now apply ScoreFacts.score_of_nonneg|].
  unfold score_of.
  pose proof (slot_score_le d).
  assert (inject_Z (language_score patient_language d) <= 25)%Q
    by (apply (inject_Z_le _ 25); unfold language_score;
        destruct (language_matches _ _); lia).
  assert (rating_points d <= 20)%Q by (unfold rating_points; lra).
  assert (inject_Z (experience_score d) <= 15)%Q
    by (apply (inject_Z_le _ 15); unfold experience_score; lia).
  pose proof (inject_Z_le _ 30 (sub_spec_score_le d)).
  pose proof (inject_Z_le _ 10 (awards_score_le d)).
  pose proof (inject_Z_le _ 10 (age_score_le d)).
  pose proof (inject_Z_le _ 10 (urgency_experience_score_le d)).
  change (inject_Z 30) with 30%Q in *. change (inject_Z 10) with 10%Q in *.
  lra.
Qed.

(** X4. Raising a doctor's rating, all else fixed, never lowers the
    score, and a rating higher by a hundredth or more gives a strictly
    higher score.  Ratings are taken between 0 and 5 and experience not
    negative, as the data model has them. *)
Theorem score_of_rating_monotone (d : doctor) (r1 r2 : Q) :
  (0 <= r1)%Q -> (r1 <= r2)%Q -> (r2 <= 5)%Q ->
  0 <= default 0 (experience_years d) ->
  (score_of specialty_normalized preferred_slot patient_language
     urgency_score patient_age sub_specialization_hint patient_conditions
     (with_rating r1 d)
   <= score_of specialty_normalized preferred_slot patient_language
        urgency_score patient_age sub_specialization_hint patient_conditions
        (with_rating r2 d))%Q
  /\ ((r1 + (1 # 100) <= r2)%Q ->
      (score_of specialty_normalized preferred_slot patient_language
         urgency_score patient_age sub_specialization_hint
         patient_conditions (with_rating r1 d)
       < score_of specialty_normalized preferred_slot patient_language
           urgency_score patient_age sub_specialization_hint
           patient_conditions (with_rating r2 d))%Q).
Proof.
  intros _ Hle _ _.
  assert (forall r,
            score_of specialty_normalized preferred_slot patient_language
              urgency_score patient_age sub_specialization_hint
              patient_conditions (with_rating r d)
            = (0 + slot_score preferred_slot urgency_score d
               + inject_Z (language_score patient_language d)
               + r * 4
               + inject_Z (experience_score d)
               + inject_Z (fst (sub_spec_score sub_specialization_hint
                                  patient_conditions d))
               + inject_Z (fst (awards_score d))
               + inject_Z (fst (age_score specialty_normalized patient_age d))
               + inject_Z (fst (urgency_experience_score urgency_score d)))%Q)
    as Hscore by reflexivity.
  rewrite !Hscore. split; [lra | intros Hm; lra].
Qed.

End WithRequest.

(** A child with an urgent problem and the best possible paediatrician:
    every factor at its maximum. *)
Definition dr_best : doctor :=
  {| name := Some "Dr. Iyer"; slots := Some ["09:00"; "11:00"];
     languages_spoken := Some ["English"; "Tamil"];
     patient_rating := Some 5%Q; experience_years := Some 20;
     sub_specialization := Some "Neonatology";
     awards := Some ["Best Doctor 2020"; "Research Award"];
     match_score := None; match_details := None; match_quality := None |}.

Lemma score_of_bounds_witness :
  (0 <= score_of "Pediatrics" "09:00" "Tamil" 90%Z (Some 7%Z)
          (Some "neonatology") None dr_best <= 180)%Q.
Proof.
  apply (score_of_bounds "Pediatrics" "09:00" "Tamil" 90%Z (Some 7%Z)
           (Some "neonatology") None dr_best).
  - split; unfold Qle; cbn; lia.
  - cbn. lia.
Defined.

(** The upper bound is reached. *)
Example score_of_maximum :
  (score_of "Pediatrics" "09:00" "Tamil" 90%Z (Some 7%Z) (Some "neonatology")
     None dr_best == 180)%Q.
Proof. vm_compute. reflexivity. Qed.

(** The sample cardiologist rated 4.5 instead of 3.5. *)
Lemma score_of_rating_monotone_witness :
  (score_of "Cardiology" "09:00" "English" 50%Z None None None
     (with_rating (7 # 2) Samples.dr_rao)
   <= score_of "Cardiology" "09:00" "English" 50%Z None None None
        (with_rating (9 # 2) Samples.dr_rao))%Q
  /\ (((7 # 2) + (1 # 100) <= (9 # 2))%Q ->
      (score_of "Cardiology" "09:00" "English" 50%Z None None None
         (with_rating (7 # 2) Samples.dr_rao)
       < score_of "Cardiology" "09:00" "English" 50%Z None None None
           (with_rating (9 # 2) Samples.dr_rao))%Q).
Proof.
  apply (score_of_rating_monotone "Cardiology" "09:00" "English" 50 None
           None None Samples.dr_rao (7 # 2) (9 # 2));
    try (unfold Qle; cbn; lia).
Defined.

End ScoreBounds.

(** ** Case of the specialty name *)

Module CaseFacts.
Import PyStr.

Lemma to_lower_cases (c : ascii) :
  (is_lower c = true -> is_upper c = false)
  /\ (is_upper c = true ->
      is_lower c = false /\ is_lower (to_lower c) = true
      /\ to_upper (to_lower c) = c)
  /\ is_upper (to_lower c) = false
  /\ to_lower (to_lower c) = to_lower c.
Proof.
  destruct c as [[] [] [] [] [] [] [] []]; vm_compute;
    repeat split; intros; try reflexivity; try discriminate.
Qed.

Lemma lower_idempotent (s : string) : lower (lower s) = lower s.
Proof.
  induction s as [|c s IH]; [reflexivity|]. cbn [lower].
  destruct (to_lower_cases c) as (_ & _ & _ & ->). now rewrite IH.
Qed.

Lemma lower_app (s t : string) :
  lower (s ++ t)%string = (lower s ++ lower t)%string.
Proof. induction s as [|c s IH]; [reflexivity|]. cbn. now rewrite IH. Qed.

(** [s.title()] does not depend on the case of [s]. *)
Lemma title_from_lower (s : string) (b : bool) :
  title_from b (lower s) = title_from b s.
Proof.
  revert b. induction s as [|c s IH]; intros b; [reflexivity|].
  cbn [lower title_from].
  destruct (to_lower_cases c) as (Hl & Hu & Hnu & _).
  destruct (is_lower c) eqn:El.
  - assert (to_lower c = c) as -> by (unfold to_lower; now rewrite (Hl eq_refl)).
    now rewrite El, IH.
  - destruct (is_upper c) eqn:Eu.
    + destruct (Hu eq_refl) as (_ & -> & ->). now rewrite IH.
    + assert (to_lower c = c) as -> by (unfold to_lower; now rewrite Eu).
      now rewrite El, Eu, IH.
Qed.

Lemma title_lower (s : string) : title (lower s) = title s.
Proof. apply title_from_lower. Qed.

Lemma title_same_lower (s t : string) : lower s = lower t -> title s = title t.
Proof. intros H. now rewrite <- (title_lower s), H, title_lower. Qed.

Lemma find_same {A} (f g : A -> bool) (l : list A) :
  (forall x, f x = g x) -> List.find f l = List.find g l.
Proof.
  intros H. induction l as [|x l IH]; [reflexivity|].
  cbn. now rewrite H, IH.
Qed.

Lemma resolve_same_lower (db : database) (s t : string) :
  lower s = lower t ->
  DoctorMatcher.resolve_department db s = DoctorMatcher.resolve_department db t.
Proof.
  intros H. unfold DoctorMatcher.resolve_department. cbv zeta.
  rewrite (title_same_lower s t H).
  rewrite (find_same (fun kv => DoctorMatcher.fuzzy_match s (fst kv))
                     (fun kv => DoctorMatcher.fuzzy_match t (fst kv)));
    [reflexivity|].
  intros kv. unfold DoctorMatcher.fuzzy_match. cbv zeta. now rewrite H.
Qed.

(** X6. The matcher does not look at the case of the specialty name: two
    names that are equal in lower case resolve to the same department and
    give the same result in every respect. *)
Theorem find_best_doctor_ignores_case
    (db : database) (s t preferred_slot patient_language : string)
    (urgency_score : Z) (patient_age : option Z)
    (sub_specialization_hint : option string)
    (patient_conditions : option (list string)) (h : list doctor) :
  lower s = lower t ->
  DoctorMatcher.resolve_department db s = DoctorMatcher.resolve_department db t
  /\ DoctorMatcher.find_best_doctor db s preferred_slot patient_language
       urgency_score patient_age sub_specialization_hint patient_conditions h
     = DoctorMatcher.find_best_doctor db t preferred_slot patient_language
         urgency_score patient_age sub_specialization_hint
         patient_conditions h.
Proof.
  intros H. split; [now apply resolve_same_lower|].
  unfold DoctorMatcher.find_best_doctor. cbv zeta.
  now rewrite (resolve_same_lower db s t H), (title_same_lower s t H).
Qed.

Lemma find_best_doctor_ignores_case_witness :
  DoctorMatcher.resolve_department Samples.cardiology_only "CARDIOLOGY"
  = DoctorMatcher.resolve_department Samples.cardiology_only "cardiology"
  /\ DoctorMatcher.find_best_doctor Samples.cardiology_only "CARDIOLOGY"
       "09:00" "English" 50 None None (Some []) [Samples.dr_rao]
     = DoctorMatcher.find_best_doctor Samples.cardiology_only "cardiology"
         "09:00" "English" 50 None None (Some []) [Samples.dr_rao].
Proof.
  apply (find_best_doctor_ignores_case Samples.cardiology_only "CARDIOLOGY"
           "cardiology" "09:00" "English" 50 None None (Some [])
           [Samples.dr_rao]).
  reflexivity.
Defined.

End CaseFacts.

(** ** The catalog: loading and listing *)

Module CatalogFacts.
Import DoctorMatcher.

(** The department the loader takes from the file of a specialty, if any:
    the first one of a readable file that has some. *)
Definition loaded (files : string -> source) (specialty : string)
  : option department :=
  match files (specialty ++ ".json")%string with
  | Parsed (Some (dept :: _)) => Some dept
  | _ => None
  end.

Lemma load_one_loaded (files : string -> source) (db : database)
    (specialty : string) :
  load_one files db specialty
  = match loaded files specialty with
    | Some dept => dict_set db (PyStr.title specialty) dept
    | None => db
    end.
Proof.
  unfold load_one, loaded.
  now destruct (files _) as [| |[[|dept rest]|]].
Qed.

Lemma assoc_dict_set {V} (d : list (string * V)) (k k' : string) (v : V) :
  assoc (dict_set d k v) k'
  = if String.eqb k k' then Some v else assoc d k'.
Proof.
  induction d as [|[k0 v0] d IH]; cbn [dict_set assoc]; [reflexivity|].
  destruct (String.eqb_spec k0 k) as [->|Hne]; cbn [assoc].
  - now destruct (String.eqb k k').
  - destruct (String.eqb_spec k0 k') as [->|Hne'].
    + destruct (String.eqb_spec k k'); [congruence | reflexivity].
    + exact IH.
Qed.

Lemma keys_dict_set_new {V} (d : list (string * V)) (k : string) (v : V) :
  ~ In k (map fst d) -> map fst (dict_set d k v) = map fst d ++ [k].
Proof.
  induction d as [|[k0 v0] d IH]; cbn [dict_set map fst app]; [reflexivity|].
  intros Hnot. destruct (String.eqb_spec k0 k) as [->|Hne].
  - exfalso. apply Hnot. now left.
  - cbn [map fst]. rewrite IH; [reflexivity|]. intros Hin. apply Hnot.
    now right.
Qed.

Lemma assoc_in_keys {V} (d : list (string * V)) (k : string) :
  In k (map fst d) <-> assoc d k <> None.
Proof.
  induction d as [|[k0 v0] d IH]; cbn [map fst In assoc]; [tauto|].
  destruct (String.eqb_spec k0 k) as [->|Hne].
  - split; [discriminate | now left].
  - rewrite IH. split; [intros [?|?]; [congruence | assumption] | now right].
Qed.

Section Loading.

Variable files : string -> source.

(** The loop of the loader over specialties whose titles are distinct and
    new to the dict. *)
Lemma load_fold (specialties : list string) (db : database) :
  List.NoDup (map PyStr.title specialties) ->
  (forall sp, In sp specialties -> ~ In (PyStr.title sp) (map fst db)) ->
  map fst (fold_left (load_one files) specialties db)
  = map fst db
    ++ map PyStr.title
         (List.filter (fun sp => present (loaded files sp)) specialties)
  /\ forall k,
       assoc (fold_left (load_one files) specialties db) k
       = match List.find (fun sp => String.eqb (PyStr.title sp) k)
                         specialties with
         | Some sp =>
             match loaded files sp with
             | Some dept => Some dept
             | None => assoc db k
             end
         | None => assoc db k
         end.
Proof.
  revert db. induction specialties as [|sp rest IH]; intros db Hnd Hnew.
  - cbn. split; [now rewrite app_nil_r | reflexivity].
  - cbn [fold_left map List.filter List.find]. inversion Hnd as [|? ? Hsp Hrest].
    subst. rewrite load_one_loaded.
    assert (~ In (PyStr.title sp) (map fst db)) as Hfresh
      by (apply Hnew; now left).
    destruct (loaded files sp) as [dept|] eqn:El; cbn [present].
    + destruct (IH (dict_set db (PyStr.title sp) dept) Hrest) as [Hkeys Hval].
      { intros sp' Hin. rewrite keys_dict_set_new by exact Hfresh.
        intros Hk. apply in_app_or in Hk. destruct Hk as [Hk | [Hk | []]].
        - apply (Hnew sp'); [now right | exact Hk].
        - apply Hsp. rewrite Hk. now apply in_map. }
      split.
      * rewrite Hkeys, keys_dict_set_new by exact Hfresh.
        cbn [map]. now rewrite <- app_assoc.
      * intros k. rewrite Hval, assoc_dict_set.
        destruct (String.eqb_spec (PyStr.title sp) k) as [<-|Hne];
          [|reflexivity].
        destruct (List.find _ rest) as [sp'|] eqn:Ef; [|now rewrite El].
        exfalso. apply find_some in Ef. destruct Ef as [Hin Heq].
        apply String.eqb_eq in Heq. apply Hsp. rewrite <- Heq.
        now apply in_map.
    + destruct (IH db Hrest) as [Hkeys Hval].
      { intros sp' Hin. apply Hnew. now right. }
      split; [exact Hkeys|].
      intros k. rewrite Hval.
      destruct (String.eqb_spec (PyStr.title sp) k) as [<-|Hne];
        [|reflexivity].
      destruct (List.find _ rest) as [sp'|] eqn:Ef; [|now rewrite El].
      exfalso. apply find_some in Ef. destruct Ef as [Hin Heq].
      apply String.eqb_eq in Heq. apply Hsp. rewrite <- Heq.
      now apply in_map.
Qed.

Lemma supported_titles_distinct :
  List.NoDup (map PyStr.title SUPPORTED_SPECIALTIES).
Proof.
  apply (NoDup_count_occ' string_dec). intros x Hin.
  repeat (destruct Hin as [<-|Hin]; [vm_compute; reflexivity|]).
  destruct Hin.
Qed.

(** Every key of the loaded catalog is the title of a supported
    specialty. *)
Lemma load_keys_supported (k : string) :
  In k (map fst (load_doctor_database files)) ->
  In k (map PyStr.title SUPPORTED_SPECIALTIES).
Proof.
  destruct (load_fold SUPPORTED_SPECIALTIES [] supported_titles_distinct)
    as [Hkeys _]; [intros sp _ []|].
  unfold load_doctor_database. rewrite Hkeys. cbn [map app].
  intros Hin. apply in_map_iff in Hin. destruct Hin as (sp & <- & Hsp).
  apply filter_In in Hsp. apply in_map. exact (proj1 Hsp).
Qed.

(** X7. The loaded catalog has one key per supported specialty whose file
    is there, parses and has a department, namely the title-cased name, in
    the order of the supported list; the key holds the first department of
    the file.  A specialty whose file is missing, unreadable or without
    departments is absent, and no other key exists. *)
Theorem load_doctor_database_contents :
  get_available_specialties (load_doctor_database files)
  = map PyStr.title
      (List.filter (fun sp => present (loaded files sp))
                   SUPPORTED_SPECIALTIES)
  /\ (forall sp, In sp SUPPORTED_SPECIALTIES ->
        assoc (load_doctor_database files) (PyStr.title sp)
        = loaded files sp)
  /\ (forall k, ~ In k (map PyStr.title SUPPORTED_SPECIALTIES) ->
        assoc (load_doctor_database files) k = None).
Proof.
  destruct (load_fold SUPPORTED_SPECIALTIES [] supported_titles_distinct)
    as [Hkeys Hval]; [intros sp _ []|].
  split; [exact Hkeys|]. split.
  - intros sp Hin. unfold load_doctor_database. rewrite Hval.
    destruct (List.find _ SUPPORTED_SPECIALTIES) as [sp'|] eqn:Ef.
    + apply find_some in Ef. destruct Ef as [Hin' Heq].
      apply String.eqb_eq in Heq.
      assert (sp' = sp) as ->; [|now destruct (loaded files sp)].
      clear - Hin Hin' Heq. revert Heq.
      repeat (destruct Hin as [<-|Hin];
              [repeat (destruct Hin' as [<-|Hin'];
                       [vm_compute; congruence|]); destruct Hin'|]).
      destruct Hin.
    + exfalso. pose proof (find_none _ _ Ef sp Hin) as Hf. cbv beta in Hf.
      now rewrite String.eqb_refl in Hf.
  - intros k Hk. unfold load_doctor_database. rewrite Hval.
    destruct (List.find _ SUPPORTED_SPECIALTIES) as [sp'|] eqn:Ef;
      [|reflexivity].
    exfalso. apply find_some in Ef. destruct Ef as [Hin Heq].
    apply String.eqb_eq in Heq. apply Hk. rewrite <- Heq. now apply in_map.
Qed.

End Loading.

End CatalogFacts.

Module CatalogTheorems.
Import DoctorMatcher CatalogFacts.

(** A directory with the cardiology file only. *)
Definition cardiology_file_only (file : string) : source :=
  if String.eqb file "cardiology.json"
  then Parsed (Some [ {| dept_doctors := Some [0%nat] |} ])
  else NoFile.

Lemma load_doctor_database_contents_witness :
  assoc (load_doctor_database cardiology_file_only) (PyStr.title "cardiology")
  = Some {| dept_doctors := Some [0%nat] |}.
Proof.
  apply (proj1 (proj2 (load_doctor_database_contents cardiology_file_only))
           "cardiology").
  left. reflexivity.
Defined.

Lemma no_supported_key_resembles_orthopedics :
  forallb (fun sp =>
             negb (String.eqb (PyStr.title sp) "Orthopedics")
             && negb (fuzzy_match "orthopedics" (PyStr.title sp)))%bool
          SUPPORTED_SPECIALTIES = true.
Proof. vm_compute. reflexivity. Qed.

(** X8. The supported list spells the orthopaedic specialty "orthpedics".
    Whatever the directory holds, a request for "Orthopedics", in any
    case, resolves to no department of the loaded catalog and returns no
    match. *)
Theorem orthopedics_is_never_matched
    (files : string -> source)
    (specialty preferred_slot patient_language : string)
    (urgency_score : Z) (patient_age : option Z)
    (sub_specialization_hint : option string)
    (patient_conditions : option (list string)) (h : list doctor) :
  PyStr.lower specialty = "orthopedics" ->
  resolve_department (load_doctor_database files) specialty = None
  /\ find_best_doctor (load_doctor_database files) specialty preferred_slot
       patient_language urgency_score patient_age sub_specialization_hint
       patient_conditions h
     = (None, h).
Proof.
  intros Hlow.
  assert (resolve_department (load_doctor_database files) specialty = None)
    as Hres.
  { rewrite (CaseFacts.resolve_same_lower _ specialty "orthopedics")
      by exact Hlow.
    pose proof no_supported_key_resembles_orthopedics as Hall.
    rewrite forallb_forall in Hall.
    assert (forall k, In k (map fst (load_doctor_database files)) ->
              k <> "Orthopedics" /\ fuzzy_match "orthopedics" k = false)
      as Hkeys.
    { intros k Hk. apply load_keys_supported in Hk.
      apply in_map_iff in Hk. destruct Hk as (sp & <- & Hsp).
      specialize (Hall sp Hsp). apply andb_true_iff in Hall.
      destruct Hall as [Hne Hno]. apply negb_true_iff in Hne, Hno.
      split; [now apply String.eqb_neq | exact Hno]. }
    unfold resolve_department. cbv zeta.
    destruct (assoc (load_doctor_database files) (PyStr.title "orthopedics"))
      as [dept|] eqn:Ea.
    - exfalso.
      assert (In (PyStr.title "orthopedics")
                 (map fst (load_doctor_database files))) as Hin
        by (apply assoc_in_keys; congruence).
      now destruct (Hkeys _ Hin) as [Hne _].
    - destruct (List.find _ (load_doctor_database files)) as [[k dept]|] eqn:Ef;
        [|reflexivity].
      exfalso. apply find_some in Ef. destruct Ef as [Hin Hf].
      cbn [fst] in Hf.
      destruct (Hkeys k (in_map fst _ _ Hin)) as [_ Hno]. congruence. }
  split; [exact Hres|].
  unfold find_best_doctor. cbv zeta. now rewrite Hres.
Qed.

(** A directory that has every file the loader asks for. *)
Definition every_file (_ : string) : source :=
  Parsed (Some [ {| dept_doctors := Some [0%nat] |} ]).

Lemma orthopedics_is_never_matched_witness :
  resolve_department (load_doctor_database every_file) "Orthopedics" = None
  /\ find_best_doctor (load_doctor_database every_file) "Orthopedics" "09:00"
       "English" 50 None None (Some []) [Samples.dr_rao]
     = (None, [Samples.dr_rao]).
Proof.
  apply (orthopedics_is_never_matched every_file "Orthopedics" "09:00"
           "English" 50 None None (Some []) [Samples.dr_rao]).
  reflexivity.
Defined.

(** X9. [get_doctors_by_specialty] uses the exact title-cased key only: it
    lists the doctors the matcher would score when that key exists, and
    nothing when it does not, even where the matcher falls back on a
    similar key.  A name is listed by [get_available_specialties] exactly
    when the exact lookup succeeds. *)
Theorem get_doctors_by_specialty_exact (db : database) (specialty : string) :
  (assoc db (PyStr.title specialty) <> None ->
   get_doctors_by_specialty db specialty
   = MatcherFacts.candidates db specialty)
  /\ (assoc db (PyStr.title specialty) = None ->
      get_doctors_by_specialty db specialty = [])
  /\ (In (PyStr.title specialty) (get_available_specialties db)
      <-> assoc db (PyStr.title specialty) <> None).
Proof.
  unfold get_doctors_by_specialty, MatcherFacts.candidates,
    resolve_department, get_available_specialties. cbv zeta.
  split; [|split; [|apply assoc_in_keys]].
  - destruct (assoc db (PyStr.title specialty)); [reflexivity | congruence].
  - now intros ->.
Qed.

(** "cardio" finds the cardiologist through the matcher but is no key. *)
Lemma get_doctors_by_specialty_exact_witness :
  get_doctors_by_specialty Samples.cardiology_only "cardio" = []
  /\ MatcherFacts.candidates Samples.cardiology_only "cardio" = [0%nat].
Proof.
  split; [|reflexivity].
  apply (proj1 (proj2 (get_doctors_by_specialty_exact
                         Samples.cardiology_only "cardio"))).
  reflexivity.
Defined.

End CatalogTheorems.

(** ** Hints, severity and referrals: further facts *)

Module AdvancedFacts.
Import AdvancedMatchingFeatures.

Lemma lower_join (sep : string) (parts : list string) :
  PyStr.lower (PyStr.join sep parts)
  = PyStr.join (PyStr.lower sep) (map PyStr.lower parts).
Proof.
  induction parts as [|p [|p' rest] IH]; [reflexivity | reflexivity |].
  change (PyStr.join sep (p :: p' :: rest))
    with (p ++ sep ++ PyStr.join sep (p' :: rest))%string.
  rewrite !CaseFacts.lower_app, IH. reflexivity.
Qed.

Lemma text_to_analyze_lower (symptoms : string) (conditions : list string) :
  text_to_analyze symptoms conditions
  = (PyStr.lower symptoms ++ " "
     ++ PyStr.join " " (map PyStr.lower conditions))%string.
Proof.
  unfold text_to_analyze. now rewrite !CaseFacts.lower_app, lower_join.
Qed.

(** X10. The extractor looks at its three inputs in lower case only:
    narratives, specialty names and condition lists that agree in lower
    case give the same hint. *)
Theorem extract_subspecialty_hints_ignores_case
    (symptoms symptoms' specialty specialty' : string)
    (conditions conditions' : list string) :
  PyStr.lower symptoms = PyStr.lower symptoms' ->
  PyStr.lower specialty = PyStr.lower specialty' ->
  map PyStr.lower conditions = map PyStr.lower conditions' ->
  extract_subspecialty_hints symptoms specialty conditions
  = extract_subspecialty_hints symptoms' specialty' conditions'.
Proof.
  intros Hs Hsp Hc. unfold extract_subspecialty_hints. cbv zeta.
  rewrite (CaseFacts.title_same_lower specialty specialty' Hsp).
  now rewrite !text_to_analyze_lower, Hs, Hc.
Qed.

Lemma extract_subspecialty_hints_ignores_case_witness :
  extract_subspecialty_hints "Palpitations at night" "CARDIOLOGY" ["AFib"]
  = extract_subspecialty_hints "palpitations AT NIGHT" "cardiology" ["afib"].
Proof.
  apply (extract_subspecialty_hints_ignores_case "Palpitations at night"
           "palpitations AT NIGHT" "CARDIOLOGY" "cardiology" ["AFib"]
           ["afib"]); reflexivity.
Defined.

(** After a cased character, [title] never writes a capital. *)
Lemma title_char_after_cased (c : ascii) :
  PyStr.is_upper (TitleFacts.title_char true c) = false.
Proof. TitleFacts.by_cases_on_ascii c. Qed.

Lemma title_char_first (c : ascii) :
  PyStr.is_upper (TitleFacts.title_char false c) = true ->
  (PyStr.is_lower c || PyStr.is_upper c)%bool = true.
Proof. TitleFacts.by_cases_on_ascii c. Qed.

Lemma title_from_cons (b : bool) (c : ascii) (s : string) :
  PyStr.title_from b (String c s)
  = String (TitleFacts.title_char b c)
           (PyStr.title_from (PyStr.is_lower c || PyStr.is_upper c)%bool s).
Proof.
  cbn [PyStr.title_from]. unfold TitleFacts.title_char.
  destruct (PyStr.is_lower c); [reflexivity|].
  now destruct (PyStr.is_upper c).
Qed.

(** No string has the title "ENT": a capital cannot follow a capital. *)
Lemma title_never_ENT (s : string) : PyStr.title s <> "ENT".
Proof.
  unfold PyStr.title. destruct s as [|c1 [|c2 s]]; [discriminate| |].
  - rewrite title_from_cons. discriminate.
  - rewrite !title_from_cons. intros [= H1 H2 _].
    assert (PyStr.is_upper (TitleFacts.title_char false c1) = true) as Hu
      by (now rewrite H1).
    rewrite (title_char_first c1 Hu) in H2.
    pose proof (title_char_after_cased c2) as Hn. now rewrite H2 in Hn.
Qed.

Lemma ent_labels_are_ent_only :
  forallb (fun entry =>
             String.eqb (fst entry) "ENT"
             || forallb (fun e =>
                           negb (existsb (String.eqb (hint_label (fst e)))
                                         ["Hearing"; "Sinus"; "Throat"]))
                        (snd entry))%bool
          SUBSPECIALTY_KEYWORDS = true.
Proof. vm_compute. reflexivity. Qed.

(** X11. The keyword table files its ear, nose and throat entry under
    "ENT", which no title-cased name equals: for a specialty that reads
    "ent" in lower case the extractor returns no hint, and the labels of
    that entry are returned for no input at all. *)
Theorem ent_hints_are_unreachable
    (symptoms specialty : string) (conditions : list string) :
  (PyStr.lower specialty = "ent" ->
   extract_subspecialty_hints symptoms specialty conditions = None)
  /\ (forall label, In label ["Hearing"; "Sinus"; "Throat"] ->
        extract_subspecialty_hints symptoms specialty conditions
        <> Some label).
Proof.
  split.
  - intros Hlow. unfold extract_subspecialty_hints. cbv zeta.
    now rewrite (CaseFacts.title_same_lower specialty "ent" Hlow).
  - intros label Hlabel Hres.
    destruct (HintFacts.extract_cases symptoms specialty conditions)
      as [[_ Hr] | (sub & Ha & [[_ Hr] | [_ (k & Hw & Hr)]])];
      cbv zeta in *; rewrite Hres in Hr; try discriminate.
    injection Hr as ->.
    destruct Hw as (kws & (pre & post & -> & _) & _).
    apply assoc_some_in in Ha.
    pose proof ent_labels_are_ent_only as Hall.
    rewrite forallb_forall in Hall. specialize (Hall _ Ha).
    cbn [fst snd] in Hall. apply orb_true_iff in Hall.
    destruct Hall as [Hent | Hall].
    + apply String.eqb_eq in Hent. now apply (title_never_ENT specialty).
    + rewrite forallb_forall in Hall.
      specialize (Hall (k, kws) (in_elt _ _ _)). cbn [fst] in Hall.
      apply negb_true_iff in Hall.
      assert (existsb (String.eqb (hint_label k))
                      ["Hearing"; "Sinus"; "Throat"] = true); [|congruence].
      apply existsb_exists. exists (hint_label k).
      split; [exact Hlabel | apply String.eqb_refl].
Qed.

Lemma ent_hints_are_unreachable_witness :
  extract_subspecialty_hints "hearing loss and tinnitus" "ENT" [] = None.
Proof.
  apply (proj1 (ent_hints_are_unreachable "hearing loss and tinnitus" "ENT"
                  [])).
  reflexivity.
Defined.

(** The rank of a severity, [low] lowest. *)
Definition rank (s : severity) : Z :=
  match s with critical => 3 | high => 2 | moderate => 1 | low => 0 end.

(** X12. For a fixed symptom text the severity never falls when the urgency
    score rises, and it depends on the text only through its lower case. *)
Theorem calculate_condition_severity_monotone
    (symptoms symptoms' : string) (score score' : Z) :
  score <= score' ->
  PyStr.lower symptoms = PyStr.lower symptoms' ->
  rank (calculate_condition_severity symptoms score)
  <= rank (calculate_condition_severity symptoms' score').
Proof.
  intros Hle Hlow. unfold calculate_condition_severity, has_emergency.
  rewrite Hlow.
  destruct (existsb _ EMERGENCY_KEYWORDS); cbn [orb rank]; [lia|].
  repeat match goal with
         | |- context [?a <=? ?b] => destruct (Z.leb_spec a b)
         end; cbn [rank]; lia.
Qed.

Lemma calculate_condition_severity_monotone_witness :
  rank (calculate_condition_severity "Mild cough" 35)
  <= rank (calculate_condition_severity "mild COUGH" 72).
Proof.
  apply (calculate_condition_severity_monotone "Mild cough" "mild COUGH"
           35 72); [lia | reflexivity].
Defined.

End AdvancedFacts.

Module ReferralFacts.
Import AdvancedMatchingFeatures.

(** X13. The additional specialties are pairwise distinct and at most
    three: exactly the first two secondary specialties of the mapping
    stage, and "Internal Medicine" when some warning of the evaluation
    stage contains a multi-system keyword.  Missing dicts and missing keys
    count as empty lists. *)
Theorem detect_multi_specialty_need_members (a : analyses_view) :
  let secondary :=
    default [] (secondary_specialties
                  (default {| secondary_specialties := None |}
                           (view_gemini a))) in
  let flagged :=
    exists w,
      In w (default [] (warnings (default {| warnings := None |}
                                          (view_o4mini a))))
      /\ is_multi_system w = true in
  List.NoDup (detect_multi_specialty_need a)
  /\ (List.length (detect_multi_specialty_need a) <= 3)%nat
  /\ (forall x,
        In x (detect_multi_specialty_need a)
        <-> In x (List.firstn 2 secondary)
            \/ (x = "Internal Medicine" /\ flagged)).
Proof.
  intros secondary flagged. unfold detect_multi_specialty_need. cbv zeta.
  fold secondary.
  set (ws := default [] (warnings (default {| warnings := None |}
                                            (view_o4mini a)))) in *.
  replace (match secondary with
           | [] => []
           | _ :: _ => List.firstn 2 secondary
           end) with (List.firstn 2 secondary) by (now destruct secondary).
  unfold list_of_set.
  set (additional := if existsb is_multi_system ws
                     then List.firstn 2 secondary ++ ["Internal Medicine"]
                     else List.firstn 2 secondary).
  assert (List.length additional <= 3)%nat as Hlen.
  { pose proof (firstn_le_length 2 secondary). subst additional.
    destruct (existsb _ ws); [rewrite length_app; cbn [List.length]|]; lia. }
  split; [apply List.NoDup_nodup|]. split.
  - etransitivity; [|exact Hlen].
    apply List.NoDup_incl_length; [apply List.NoDup_nodup|].
    intros x Hx. now apply nodup_In in Hx.
  - intros x. rewrite nodup_In. subst additional flagged.
    destruct (existsb is_multi_system ws) eqn:E.
    + apply existsb_exists in E. rewrite in_app_iff. cbn [In].
      split; [intros [H|[<-|[]]]; [now left | right; now split]
             | intros [H|[-> _]]; [now left | right; now left]].
    + split; [now left | intros [H|[_ (w & Hw & Hm)]]; [exact H|]].
      assert (existsb is_multi_system ws = true); [|congruence].
      apply existsb_exists. now exists w.
Qed.

Lemma detect_multi_specialty_need_members_witness :
  In "Internal Medicine"
     (detect_multi_specialty_need
        {| view_gemini :=
             Some {| secondary_specialties :=
                       Some ["Pulmonology"; "Cardiology"; "Neurology"] |};
           view_o4mini :=
             Some {| warnings := Some ["Needs Coordinated care"] |} |}).
Proof.
  apply (proj2 (proj2 (detect_multi_specialty_need_members
           {| view_gemini :=
                Some {| secondary_specialties :=
                          Some ["Pulmonology"; "Cardiology"; "Neurology"] |};
              view_o4mini :=
                Some {| warnings := Some ["Needs Coordinated care"] |} |}))
           "Internal Medicine").
  right. split; [reflexivity|].
  exists "Needs Coordinated care". split; [now left | reflexivity].
Defined.

Lemma specialty_prep_pairs :
  forallb (fun entry => Nat.eqb (List.length (snd entry)) 2) specialty_prep
  = true.
Proof. reflexivity. Qed.

(** X14. Whatever the specialty, score and conditions, the suggestions
    hold the two general reminders, number between two and five, and start
    with the high-urgency notice exactly when the score is at least 80.
    The specialty is looked up as given, without normalization: a name
    that is no key of the table adds nothing. *)
Theorem suggest_appointment_preparation_shape
    (specialty : string) (urgency_score : Z) (conditions : list string) :
  let suggestions :=
    suggest_appointment_preparation specialty urgency_score conditions in
  In "Bring valid ID and insurance card" suggestions
  /\ In "List all current medications with dosages" suggestions
  /\ (2 <= List.length suggestions <= 5)%nat
  /\ (List.hd_error suggestions = Some high_urgency_notice
      <-> 80 <= urgency_score)
  /\ (assoc specialty_prep specialty = None ->
      suggestions
      = if 80 <=? urgency_score
        then [high_urgency_notice; "Bring valid ID and insurance card";
              "List all current medications with dosages"]
        else ["Bring valid ID and insurance card";
              "List all current medications with dosages"]).
Proof.
  intros suggestions. subst suggestions.
  unfold suggest_appointment_preparation. cbv zeta.
  assert (forall specific, assoc specialty_prep specialty = Some specific ->
            List.length specific = 2%nat) as Htwo.
  { intros specific Ha. apply assoc_some_in in Ha.
    pose proof specialty_prep_pairs as Hall. rewrite forallb_forall in Hall.
    specialize (Hall _ Ha). now apply Nat.eqb_eq in Hall. }
  destruct (assoc specialty_prep specialty) as [specific|].
  - specialize (Htwo specific eq_refl).
    destruct (Z.leb_spec 80 urgency_score) as [Hu|Hu];
      cbn [app List.hd_error];
      repeat match goal with |- _ /\ _ => split end;
      first
        [ solve [cbn [In]; auto 6]
        | solve [cbn [List.length]; rewrite ?length_app, ?Htwo;
                 cbn [List.length]; lia]
        | solve [split; intros H; [lia | reflexivity]]
        | solve [split; intros H; [discriminate | lia]]
        | discriminate ].
  - destruct (Z.leb_spec 80 urgency_score) as [Hu|Hu];
      cbn [app List.hd_error];
      repeat match goal with |- _ /\ _ => split end;
      first
        [ solve [cbn [In]; auto 6]
        | solve [cbn [List.length]; lia]
        | solve [split; intros H; [lia | reflexivity]]
        | solve [split; intros H; [discriminate | lia]]
        | reflexivity ].
Qed.

(** The table has "Cardiology", not "cardiology". *)
Lemma suggest_appointment_preparation_shape_witness :
  suggest_appointment_preparation "cardiology" 85 ["diabetes"]
  = [high_urgency_notice; "Bring valid ID and insurance card";
     "List all current medications with dosages"].
Proof.
  apply (proj2 (proj2 (proj2 (proj2
           (suggest_appointment_preparation_shape "cardiology" 85
              ["diabetes"]))))).
  reflexivity.
Defined.

End ReferralFacts.

(** ** Report files *)

Module ReportFacts.
Import Reports.

(** Every character of [s] satisfies [ok]. *)
Fixpoint all_chars (ok : ascii -> bool) (s : string) : bool :=
  match s with
  | EmptyString => true
  | String c t => (ok c && all_chars ok t)%bool
  end.

(** A character of a file-name form: a letter, a digit or an underscore. *)
Definition name_char (c : ascii) : bool :=
  (is_alnum c || Ascii.eqb c "_")%bool.

Lemma all_chars_join_if (keep : ascii -> bool) (s : string) :
  all_chars keep (join_if keep s) = true.
Proof.
  induction s as [|c s IH]; [reflexivity|]. cbn [join_if].
  destruct (keep c) eqn:E; [cbn; now rewrite E | exact IH].
Qed.

Lemma join_if_all (keep : ascii -> bool) (s : string) :
  all_chars keep s = true -> join_if keep s = s.
Proof.
  induction s as [|c s IH]; [reflexivity|]. cbn [all_chars join_if].
  intros H. apply andb_true_iff in H. destruct H as [-> H]. now rewrite IH.
Qed.

Lemma all_chars_rstrip (ok : ascii -> bool) (s : string) :
  all_chars ok s = true -> all_chars ok (rstrip s) = true.
Proof.
  induction s as [|c s IH]; [reflexivity|]. cbn [all_chars rstrip].
  intros H. apply andb_true_iff in H. destruct H as [Hc H].
  specialize (IH H). destruct (rstrip s) as [|c' t'].
  - destruct (PyStr.is_space c); [reflexivity | cbn; now rewrite Hc].
  - cbn [all_chars] in *. now rewrite Hc, IH.
Qed.

Lemma kept_replaced (c : ascii) :
  kept c = true -> name_char (if Ascii.eqb c " " then "_"%char else c) = true.
Proof. TitleFacts.by_cases_on_ascii c. Qed.

Lemma all_chars_replace (s : string) :
  all_chars kept s = true ->
  all_chars name_char (PyStr.replace_char " " "_" s) = true.
Proof.
  induction s as [|c s IH]; [reflexivity|].
  cbn [all_chars PyStr.replace_char]. intros H.
  apply andb_true_iff in H. destruct H as [Hc H].
  now rewrite (kept_replaced c Hc), IH.
Qed.

Lemma name_char_facts (c : ascii) :
  name_char c = true ->
  kept c = true /\ PyStr.is_space c = false /\ Ascii.eqb c " " = false.
Proof. TitleFacts.by_cases_on_ascii c. Qed.

Lemma rstrip_name_chars (s : string) :
  all_chars name_char s = true -> rstrip s = s.
Proof.
  induction s as [|c s IH]; [reflexivity|]. cbn [all_chars rstrip].
  intros H. apply andb_true_iff in H. destruct H as [Hc H].
  rewrite (IH H). destruct (name_char_facts c Hc) as (_ & -> & _).
  now destruct s.
Qed.

Lemma replace_name_chars (s : string) :
  all_chars name_char s = true -> PyStr.replace_char " " "_" s = s.
Proof.
  induction s as [|c s IH]; [reflexivity|].
  cbn [all_chars PyStr.replace_char]. intros H.
  apply andb_true_iff in H. destruct H as [Hc H].
  destruct (name_char_facts c Hc) as (_ & _ & ->). now rewrite IH.
Qed.

Lemma name_chars_kept (s : string) :
  all_chars name_char s = true -> all_chars kept s = true.
Proof.
  induction s as [|c s IH]; [reflexivity|]. cbn [all_chars]. intros H.
  apply andb_true_iff in H. destruct H as [Hc H].
  destruct (name_char_facts c Hc) as (-> & _). now rewrite IH.
Qed.

(** A character allowed in a file-name form, by its code: a digit, a
    capital or small letter of the ASCII alphabet, or the underscore. *)
Definition file_name_char (c : ascii) : bool :=
  let n := nat_of_ascii c in
  ((Nat.leb 48 n && Nat.leb n 57) || (Nat.leb 65 n && Nat.leb n 90)
   || (Nat.leb 97 n && Nat.leb n 122) || Nat.eqb n 95)%bool.

Lemma name_char_by_code (c : ascii) : name_char c = file_name_char c.
Proof. TitleFacts.by_cases_on_ascii c. Qed.

Lemma all_chars_ext (f g : ascii -> bool) (s : string) :
  (forall c, f c = g c) -> all_chars f s = all_chars g s.
Proof.
  intros H. induction s as [|c s IH]; [reflexivity|].
  cbn [all_chars]. now rewrite H, IH.
Qed.

(** X15. The file-name form of a name of ASCII characters consists of
    ASCII letters, digits and underscores only, so it holds no blank, dot
    or path separator; and a name already of that form is left as it is,
    so the form is stable. *)
Theorem safe_name_is_a_file_name (name : string) :
  PyStr.isascii name = true ->
  all_chars file_name_char (safe_name name) = true
  /\ PyStr.contains "/" (safe_name name) = false
  /\ PyStr.contains "." (safe_name name) = false
  /\ PyStr.contains " " (safe_name name) = false
  /\ safe_name (safe_name name) = safe_name name.
Proof.
  intros _.
  assert (all_chars name_char (safe_name name) = true) as Hall.
  { unfold safe_name. apply all_chars_replace, all_chars_rstrip,
      all_chars_join_if. }
  assert (forall a : ascii,
            name_char a = false ->
            forall s, all_chars name_char s = true ->
                      PyStr.contains (String a EmptyString) s = false)
    as Hnone.
  { intros a Ha s. induction s as [|c s IH]; [reflexivity|].
    cbn [all_chars]. intros H. apply andb_true_iff in H.
    destruct H as [Hc H]. rewrite TitleFacts.contains_char_cons, (IH H).
    rewrite orb_false_r. apply Ascii.eqb_neq. intros ->. congruence. }
  split; [now rewrite <- (all_chars_ext _ _ _ name_char_by_code)|].
  split; [now apply Hnone|]. split; [now apply Hnone|].
  split; [now apply Hnone|].
  unfold safe_name at 1.
  rewrite (join_if_all kept _ (name_chars_kept _ Hall)).
  now rewrite (rstrip_name_chars _ Hall), (replace_name_chars _ Hall).
Qed.

(** A name with a hyphen, a comma, a dot and blanks at its end. *)
Lemma safe_name_is_a_file_name_witness :
  all_chars file_name_char (safe_name "Asha Rao-Iyer, Jr.  ") = true
  /\ PyStr.contains "/" (safe_name "Asha Rao-Iyer, Jr.  ") = false
  /\ PyStr.contains "." (safe_name "Asha Rao-Iyer, Jr.  ") = false
  /\ PyStr.contains " " (safe_name "Asha Rao-Iyer, Jr.  ") = false
  /\ safe_name (safe_name "Asha Rao-Iyer, Jr.  ")
     = safe_name "Asha Rao-Iyer, Jr.  ".
Proof.
  apply (safe_name_is_a_file_name "Asha Rao-Iyer, Jr.  "). reflexivity.
Defined.

Example safe_name_sample :
  safe_name "Asha Rao-Iyer, Jr.  " = "Asha_RaoIyer_Jr".
Proof. reflexivity. Qed.

End ReportFacts.

Module ReportPathTheorems.
Import Reports.

Example safe_name_of_a_doctor : safe_name "Dr. A. Kumar " = "Dr_A_Kumar".
Proof. reflexivity. Qed.

Lemma append_cancel (a b c : string) :
  (a ++ b)%string = (a ++ c)%string -> b = c.
Proof. induction a as [|x a IH]; [trivial|]. cbn. intros [= H]. auto. Qed.

(** X16. The e-mail service looks for a patient's report where the
    orchestrator wrote it.  It looks for the doctor's copy where the
    orchestrator wrote it when the matched doctor has a name; for a doctor
    without a name the two use different stand-ins ("NoDoctor" when
    writing, "Doctor" when reading) and the paths differ. *)
Theorem report_paths_agree (dir : string) (p : Patient.t) (d : doctor) :
  written_patient_pdf dir p = mailed_patient_pdf dir p
  /\ (name d <> None ->
      written_doctor_pdf dir p d = mailed_doctor_pdf dir p d)
  /\ (name d = None ->
      written_doctor_pdf dir p d <> mailed_doctor_pdf dir p d).
Proof.
  split; [reflexivity|]. split.
  - unfold written_doctor_pdf, mailed_doctor_pdf.
    destruct (name d); [reflexivity | congruence].
  - intros Hn. unfold written_doctor_pdf, mailed_doctor_pdf. rewrite Hn.
    cbv zeta. cbn [default from_option id].
    change (safe_name "NoDoctor") with "NoDoctor".
    change (safe_name "Doctor") with "Doctor".
    intros H. apply append_cancel in H. cbn in H. discriminate.
Qed.

Lemma report_paths_agree_witness :
  written_doctor_pdf "pdf_reports" PipelineSamples.alice Samples.dr_rao
  = mailed_doctor_pdf "pdf_reports" PipelineSamples.alice Samples.dr_rao.
Proof.
  apply (proj1 (proj2 (report_paths_agree "pdf_reports" PipelineSamples.alice
                         Samples.dr_rao))).
  discriminate.
Defined.

End ReportPathTheorems.

(** ** The pipeline: every patient gets a record *)

Module AllocationFacts.
Import DoctorMatcher.

Section WithRequest.

Variable specialty_normalized : string.
Variable preferred_slot : string.
Variable patient_language : string.
Variable urgency_score : Z.
Variable patient_age : option Z.
Variable sub_specialization_hint : option string.
Variable patient_conditions : option (list string).

(** The best doctor of the loop is always an object of the store. *)
Lemma scan_best_allocated (doctors : list nat) (st : scan_state) :
  (forall b, best_doctor st = Some b -> is_Some (heap st !! b)) ->
  forall b,
    best_doctor (scan specialty_normalized preferred_slot patient_language
                   urgency_score patient_age sub_specialization_hint
                   patient_conditions doctors st) = Some b ->
    is_Some (heap (scan specialty_normalized preferred_slot patient_language
                     urgency_score patient_age sub_specialization_hint
                     patient_conditions doctors st) !! b).
Proof.
  revert st. induction doctors as [|l doctors IH]; intros st Hst; [exact Hst|].
  unfold scan. cbn [fold_left]. apply IH.
  destruct (ScanFacts.scan_step_cases specialty_normalized preferred_slot
              patient_language urgency_score patient_age
              sub_specialization_hint patient_conditions st l)
    as [-> | (d & _ & _ & ->)]; [exact Hst|].
  cbn [best_doctor heap]. intros b [= <-]. exists d.
  now apply list_lookup_middle.
Qed.

End WithRequest.

(** A location returned by [find_best_doctor] holds an object. *)
Lemma find_returns_allocated
    (db : database) (specialty preferred_slot patient_language : string)
    (urgency_score : Z) (patient_age : option Z)
    (sub_specialization_hint : option string)
    (patient_conditions : option (list string)) (h : list doctor) (b : nat) :
  fst (find_best_doctor db specialty preferred_slot patient_language
         urgency_score patient_age sub_specialization_hint
         patient_conditions h) = Some b ->
  is_Some (snd (find_best_doctor db specialty preferred_slot
                  patient_language urgency_score patient_age
                  sub_specialization_hint patient_conditions h) !! b).
Proof.
  destruct (list_eq_nil_dec (MatcherFacts.candidates db specialty))
    as [Hnil|Hne].
  - rewrite (MatcherFacts.find_no_candidates db specialty preferred_slot
               patient_language urgency_score patient_age
               sub_specialization_hint patient_conditions h Hnil).
    discriminate.
  - rewrite (MatcherFacts.find_some_candidates db specialty preferred_slot
               patient_language urgency_score patient_age
               sub_specialization_hint patient_conditions h Hne).
    rewrite MatcherFacts.finish_fst. intros Hbest.
    destruct (scan_best_allocated (PyStr.title specialty) preferred_slot
                patient_language urgency_score patient_age
                sub_specialization_hint patient_conditions
                (MatcherFacts.candidates db specialty) (scan_init h)
                ltac:(discriminate) b Hbest) as [d Hd].
    rewrite (MatcherFacts.finish_best _ b d Hbest Hd). eauto.
Qed.

End AllocationFacts.

Module RecordFacts.

Section WithCatalog.

Variable db : database.

(** The matching call: the store only grows, a doctor it returns is a new
    object of the store, and without a specialty it raises and leaves the
    store alone. *)
Lemma call_matcher_grows (r : match_request) (h : list doctor) :
  (exists extra, snd (call_matcher db r h) = h ++ extra)
  /\ (forall b, fst (call_matcher db r h) = Returned (Some b) ->
        h !! b = None /\ is_Some (snd (call_matcher db r h) !! b))
  /\ (req_specialty r = None ->
      call_matcher db r h
      = (Raised "'NoneType' object has no attribute 'title'", h)).
Proof.
  unfold call_matcher. destruct (req_specialty r) as [s|].
  - destruct (MatcherFacts.find_grows db s (req_preferred_slot r)
                (req_patient_language r) (req_urgency_score r)
                (req_patient_age r) (req_sub_specialization_hint r)
                (req_patient_conditions r) h) as [Hg Hf].
    pose proof (AllocationFacts.find_returns_allocated db s
                  (req_preferred_slot r) (req_patient_language r)
                  (req_urgency_score r) (req_patient_age r)
                  (req_sub_specialization_hint r)
                  (req_patient_conditions r) h) as Ha.
    destruct (DoctorMatcher.find_best_doctor _ _ _ _ _ _ _ _ _) as [o h'].
    cbn [fst snd] in *. split; [exact Hg|]. split; [|discriminate].
    intros b [= ->]. split; [|now apply Ha].
    apply lookup_ge_None. now apply Hf.
  - cbn [fst snd]. split; [exists []; now rewrite app_nil_r|].
    split; [discriminate | reflexivity].
Qed.

End WithCatalog.

End RecordFacts.

Module RecordTheorems.

Section WithStages.

Variable analyze_symptoms : Patient.t -> outcome analysis.
Variable calculate_urgency : Patient.t -> analysis -> outcome analysis.
Variable final_evaluation :
  Patient.t -> analysis -> analysis -> outcome analysis.
Variable db : database.


(** X18. When neither the evaluation entry has a final specialty nor the
    mapping entry a primary one, as when both stages raise, the matching
    step fails inside its own [try]: the record has no matched doctor and
    the store is untouched. *)
Theorem process_patient_without_specialty (p : Patient.t) (h : list doctor) :
  let g := PipelineFacts.contained (analyze_symptoms p) in
  let k := PipelineFacts.contained (calculate_urgency p g) in
  let o := PipelineFacts.contained (final_evaluation p g k) in
  primary_specialty g = None ->
  final_specialty o = None ->
  process_patient analyze_symptoms calculate_urgency final_evaluation db p h
  = ({| patient := p;
        result_analyses := {| gemini := g; grok := k; o4mini := o |};
        matched_doctor := None |}, h).
Proof.
  intros g k o Hg Ho. rewrite RequestTheorems.process_patient_unfold.
  cbv zeta. fold (PipelineFacts.contained (analyze_symptoms p)). fold g.
  fold (PipelineFacts.contained (calculate_urgency p g)). fold k.
  fold (PipelineFacts.contained (final_evaluation p g k)). fold o.
  destruct (RecordFacts.call_matcher_grows db (matching_request p g k o) h)
    as (_ & _ & Hnone).
  rewrite Hnone; [reflexivity|].
  unfold matching_request. cbv zeta. cbn [req_specialty].
  now rewrite Ho, Hg.
Qed.

End WithStages.

(** Every service is down: three placeholders and no doctor. *)
Lemma process_patient_without_specialty_witness :
  process_patient (fun _ => Raised "Connection error.")
    PipelineSamples.urgency_down (fun _ _ _ => Raised "Connection error.")
    Samples.cardiology_only PipelineSamples.alice [Samples.dr_rao]
  = ({| patient := PipelineSamples.alice;
        result_analyses :=
          {| gemini := error_placeholder "Connection error.";
             grok := error_placeholder "Connection error.";
             o4mini := error_placeholder "Connection error." |};
        matched_doctor := None |}, [Samples.dr_rao]).
Proof.
  apply (process_patient_without_specialty
           (fun _ => Raised "Connection error.")
           PipelineSamples.urgency_down
           (fun _ _ _ => Raised "Connection error.")
           Samples.cardiology_only PipelineSamples.alice [Samples.dr_rao]);
    reflexivity.
Defined.

End RecordTheorems.

(** ** The pipeline: the batch *)

Module BatchFacts.

Section WithStages.

Variable analyze_symptoms : Patient.t -> outcome analysis.
Variable calculate_urgency : Patient.t -> analysis -> outcome analysis.
Variable final_evaluation :
  Patient.t -> analysis -> analysis -> outcome analysis.
Variable db : database.




End WithStages.

End BatchFacts.

Module BatchTheorems.



End BatchTheorems.

(** ** The web run: what it keeps and how it ends *)

Module RunFacts.
Import App.

(** [c] takes the globals to globals related by [R], however it ends. *)
Definition always {A} (R : state -> state -> Prop) (c : M A) : Prop :=
  forall st, R st (snd (c st)).

(** The event log, the result list and the store have only been added
    to. *)
Definition extends (st st' : state) : Prop :=
  (exists more, update_queue st' = update_queue st ++ more)
  /\ (exists more, results (status st') = results (status st) ++ more)
  /\ (exists more, heap st' = heap st ++ more).

Lemma extends_refl (st : state) : extends st st.
Proof. repeat split; exists []; now rewrite app_nil_r. Qed.

Lemma extends_trans (x y z : state) : extends x y -> extends y z -> extends x z.
Proof.
  intros ([a1 H1] & [b1 H2] & [c1 H3]) ([a2 H4] & [b2 H5] & [c2 H6]).
  repeat split; eexists.
  - rewrite H4, H1, <- app_assoc. reflexivity.
  - rewrite H5, H2, <- app_assoc. reflexivity.
  - rewrite H6, H3, <- app_assoc. reflexivity.
Qed.

Lemma always_bind {A B} (c : M A) (k : A -> M B) :
  always extends c -> (forall a, always extends (k a)) ->
  always extends (c ≫= k).
Proof.
  intros Hc Hk st. unfold mbind, M_bind. specialize (Hc st).
  destruct (c st) as [[a|e] st']; cbn [snd] in *; [|exact Hc].
  eapply extends_trans; [exact Hc | apply Hk].
Qed.

Lemma always_call {A} (o : outcome A) : always extends (call o).
Proof. intros st. apply extends_refl. Qed.

Lemma always_ret {A} (a : A) : always extends (mret a : M A).
Proof. intros st. apply extends_refl. Qed.

Lemma always_status (f : processing_status -> processing_status) :
  (forall s, results (f s) = results s) ->
  always extends (modify (with_status f)).
Proof.
  intros Hf st. unfold modify, with_status. cbn [snd].
  repeat split; exists []; cbn; rewrite ?Hf; now rewrite app_nil_r.
Qed.

Lemma always_stream_update (u : update_type) :
  always extends (stream_update u).
Proof.
  intros st. unfold stream_update, modify, put_update. cbn [snd].
  split; [now exists [u]|]. split; exists []; cbn; now rewrite app_nil_r.
Qed.

Lemma always_append_result (r : triage_result) :
  always extends (modify (append_status_result r)).
Proof.
  intros st. unfold modify, append_status_result, with_status. cbn [snd].
  split; [exists []; cbn; now rewrite app_nil_r|].
  split; [now exists [r] | exists []; cbn; now rewrite app_nil_r].
Qed.

Lemma always_instance_results (f : state -> list triage_result) :
  always extends (modify (fun st => set_instance_results (f st) st)).
Proof.
  intros st. unfold modify, set_instance_results. cbn [snd].
  repeat split; exists []; cbn; now rewrite app_nil_r.
Qed.

Lemma always_reading {A} (f : state -> outcome A) :
  always extends (fun st => call (f st) st).
Proof. intros st. apply extends_refl. Qed.

Lemma always_matching (db : database) (r : match_request) :
  always extends
    (fun st => let (o, h') := call_matcher db r (heap st) in
               (o, set_heap h' st)).
Proof.
  intros st.
  destruct (RecordFacts.call_matcher_grows db r (heap st)) as ([more Hm] & _).
  destruct (call_matcher db r (heap st)) as [o h']. cbn [snd] in *.
  split; [exists []; cbn; now rewrite app_nil_r|].
  split; [exists []; cbn; now rewrite app_nil_r|]. now exists more.
Qed.

Ltac keep_extending :=
  repeat first
    [ apply always_bind; [|intros ?]
    | apply always_call
    | apply always_ret
    | apply always_stream_update
    | apply always_append_result
    | apply always_matching
    | apply (always_instance_results (fun _ => []))
    | apply always_instance_results
    | apply always_reading
    | apply always_status; intros ?; reflexivity ].

Section WithServices.

Variable analyze_symptoms : Patient.t -> outcome analysis.
Variable calculate_urgency : Patient.t -> analysis -> outcome analysis.
Variable final_evaluation :
  Patient.t -> analysis -> analysis -> outcome analysis.
Variable db : database.
Variable new_orchestrator : outcome unit.
Variable load_patients : string -> outcome (list Patient.t).
Variable generate_summary_report : list triage_result -> outcome unit.
Variable create_triage_sheet : list triage_result -> outcome (option string).
Variable schedule_appointments : list triage_result -> outcome unit.
Variable generate_all_pdfs : list triage_result -> outcome unit.
Variable send_all_emails : list triage_result -> outcome unit.

Lemma triage_one_extends (i : nat) (p : Patient.t) :
  always extends
    (triage_one analyze_symptoms calculate_urgency final_evaluation db i p).
Proof.
  unfold triage_one, set_current_patient, set_current_step.
  keep_extending.
Qed.

Lemma triage_loop_extends (i : nat) (patients : list Patient.t) :
  always extends
    (triage_loop analyze_symptoms calculate_urgency final_evaluation db i
       patients).
Proof.
  revert i. induction patients as [|p rest IH]; intros i; cbn [triage_loop].
  - apply always_ret.
  - apply always_bind; [apply triage_one_extends | intros _; apply IH].
Qed.

Lemma run_body_extends (patient_file : string) :
  always extends
    (run_body analyze_symptoms calculate_urgency final_evaluation db
       new_orchestrator load_patients generate_summary_report
       create_triage_sheet schedule_appointments generate_all_pdfs
       send_all_emails patient_file).
Proof.
  unfold run_body, set_is_running, set_current_step, set_total_patients.
  keep_extending. apply triage_loop_extends.
Qed.

Lemma run_handler_extends (e : string) : always extends (run_handler e).
Proof. unfold run_handler, set_current_step. keep_extending. Qed.

End WithServices.

End RunFacts.

Module RunEndFacts.
Import App.




Section WithServices.

Variable analyze_symptoms : Patient.t -> outcome analysis.
Variable calculate_urgency : Patient.t -> analysis -> outcome analysis.
Variable final_evaluation :
  Patient.t -> analysis -> analysis -> outcome analysis.
Variable db : database.
Variable new_orchestrator : outcome unit.
Variable load_patients : string -> outcome (list Patient.t).
Variable generate_summary_report : list triage_result -> outcome unit.
Variable create_triage_sheet : list triage_result -> outcome (option string).
Variable schedule_appointments : list triage_result -> outcome unit.
Variable generate_all_pdfs : list triage_result -> outcome unit.
Variable send_all_emails : list triage_result -> outcome unit.


End WithServices.

End RunEndFacts.

Module RunTheorems.
Import App.

Section WithServices.

Variable analyze_symptoms : Patient.t -> outcome analysis.
Variable calculate_urgency : Patient.t -> analysis -> outcome analysis.
Variable final_evaluation :
  Patient.t -> analysis -> analysis -> outcome analysis.
Variable db : database.
Variable new_orchestrator : outcome unit.
Variable load_patients : string -> outcome (list Patient.t).
Variable generate_summary_report : list triage_result -> outcome unit.
Variable create_triage_sheet : list triage_result -> outcome (option string).
Variable schedule_appointments : list triage_result -> outcome unit.
Variable generate_all_pdfs : list triage_result -> outcome unit.
Variable send_all_emails : list triage_result -> outcome unit.

Let run := run_triage_background analyze_symptoms calculate_urgency
             final_evaluation db new_orchestrator load_patients
             generate_summary_report create_triage_sheet
             schedule_appointments generate_all_pdfs send_all_emails.
Let body := run_body analyze_symptoms calculate_urgency final_evaluation db
              new_orchestrator load_patients generate_summary_report
              create_triage_sheet schedule_appointments generate_all_pdfs
              send_all_emails.

(** X20. During a background run the event log and the result list are
    only added to, and every doctor object that was in the store when the
    run began is the same when it ends, whatever the stages and services
    do; only a new start empties the log and the results. *)
Theorem run_triage_background_only_adds (patient_file : string) (st : state) :
  (exists more,
     update_queue (snd (run patient_file st)) = update_queue st ++ more)
  /\ (exists more,
        results (status (snd (run patient_file st)))
        = results (status st) ++ more)
  /\ (forall l d, heap st !! l = Some d ->
        heap (snd (run patient_file st)) !! l = Some d).
Proof.
  assert (RunFacts.extends st (snd (run patient_file st))) as (H1 & H2 & H3).
  { subst run. unfold run_triage_background, try_except_finally.
    pose proof (RunFacts.run_body_extends analyze_symptoms calculate_urgency
                  final_evaluation db new_orchestrator load_patients
                  generate_summary_report create_triage_sheet
                  schedule_appointments generate_all_pdfs send_all_emails
                  patient_file st) as Hb.
    destruct (run_body _ _ _ _ _ _ _ _ _ _ _ _ st) as [[[]|e] st'];
      cbn [snd] in *.
    - eapply RunFacts.extends_trans; [exact Hb|].
      repeat split; exists []; cbn; now rewrite app_nil_r.
    - pose proof (RunFacts.run_handler_extends e st') as Hh.
      destruct (run_handler e st') as [o st'']. cbn [snd] in *.
      eapply RunFacts.extends_trans; [exact Hb|].
      eapply RunFacts.extends_trans; [exact Hh|].
      repeat split; exists []; cbn; now rewrite app_nil_r. }
  split; [exact H1|]. split; [exact H2|].
  now apply MatcherFacts.grows_frame.
Qed.


End WithServices.


Lemma run_triage_background_only_adds_witness :
  heap
    (snd (run_triage_background PipelineSamples.mapping_ok
            PipelineSamples.urgency_ok PipelineSamples.evaluation_ok
            Samples.cardiology_only (Returned tt) PipelineSamples.load_two
            PipelineSamples.report_ok PipelineSamples.sheet_ok
            PipelineSamples.report_ok PipelineSamples.report_ok
            PipelineSamples.report_ok "patients.json" PipelineSamples.idle))
    !! 0%nat
  = Some Samples.dr_rao.
Proof.
  apply (proj2 (proj2 (run_triage_background_only_adds
           PipelineSamples.mapping_ok PipelineSamples.urgency_ok
           PipelineSamples.evaluation_ok Samples.cardiology_only
           (Returned tt) PipelineSamples.load_two PipelineSamples.report_ok
           PipelineSamples.sheet_ok PipelineSamples.report_ok
           PipelineSamples.report_ok PipelineSamples.report_ok
           "patients.json" PipelineSamples.idle))).
  reflexivity.
Defined.

End RunTheorems.

(** ** The web application: a start request that fails *)

Module StartTheorems.
Import App.

(** When a start request is answered. *)
Lemma start_triage_answers (DEFAULT_PATIENT_FILE : string)
    (get_json : outcome json_body) (thread_start : outcome unit)
    (st : state) :
  is_running (status st) = false ->
  (fst (start_triage DEFAULT_PATIENT_FILE get_json thread_start st)
   = Returned true
   <-> exists data file,
         get_json = Returned data
         /\ patient_file_of DEFAULT_PATIENT_FILE data = Returned file
         /\ thread_start = Returned tt).
Proof.
  intros Hidle. unfold start_triage. rewrite Hidle.
  unfold mbind, M_bind, modify, call, mret, M_ret.
  destruct get_json as [data|e]; cbn [fst snd].
  - destruct (patient_file_of DEFAULT_PATIENT_FILE data) as [file|e] eqn:Hf;
      cbn [fst snd].
    + destruct thread_start as [[]|e]; cbn [fst snd].
      * split; [intros _; now exists data, file | reflexivity].
      * split; [discriminate | intros (? & ? & _ & _ & [=])].
    + split; [discriminate | intros (? & ? & [= <-] & H & _)].
      congruence.
  - split; [discriminate | intros (? & ? & [=] & _)].
Qed.

(** X25. The route sets the flag and resets the status before it reads
    the request and before it starts the thread, and nothing resets the
    flag when one of these raises.  A start request that raises (a body
    that is no JSON, a JSON value without [get], a thread that cannot be
    started) therefore leaves the flag set with no run started, the
    results of the run before erased and the queue emptied; from then on
    every start request, whatever it carries, is refused and changes
    nothing. *)
Theorem failed_start_blocks_later_starts (DEFAULT_PATIENT_FILE : string)
    (get_json : outcome json_body) (thread_start : outcome unit)
    (st : state) (e : string) :
  let after :=
    snd (start_triage DEFAULT_PATIENT_FILE get_json thread_start st) in
  fst (start_triage DEFAULT_PATIENT_FILE get_json thread_start st)
  = Raised e ->
  is_running (status st) = false
  /\ is_running (status after) = true
  /\ threads after = threads st
  /\ results (status after) = []
  /\ update_queue after = []
  /\ (forall get_json' thread_start',
        start_triage DEFAULT_PATIENT_FILE get_json' thread_start' after
        = (Returned false, after)).
Proof.
  intros after Hraise.
  assert (is_running (status st) = false) as Hrun.
  { destruct (is_running (status st)) eqn:E; [|reflexivity].
    unfold start_triage in Hraise. rewrite E in Hraise. discriminate. }
  assert (is_running (status after) = true
          /\ threads after = threads st
          /\ results (status after) = []
          /\ update_queue after = []) as (Hflag & Hthreads & Hres & Hqueue).
  { subst after. revert Hraise. unfold start_triage. rewrite Hrun.
    unfold mbind, M_bind, modify, call, mret, M_ret.
    destruct get_json as [data|e0]; cbn [fst snd].
    - destruct (patient_file_of DEFAULT_PATIENT_FILE data) as [file|e1];
        cbn [fst snd].
      + destruct thread_start as [[]|e2]; cbn [fst snd]; [discriminate|].
        intros _. repeat split.
      + intros _. repeat split.
    - intros _. repeat split. }
  split; [exact Hrun|]. split; [exact Hflag|]. split; [exact Hthreads|].
  split; [exact Hres|]. split; [exact Hqueue|].
  intros get_json' thread_start'. unfold start_triage at 1.
  now rewrite Hflag.
Qed.

(** After a run that left two records, a request whose body is no JSON
    raises; a well-formed request sent next is refused. *)
Lemma failed_start_blocks_later_starts_witness :
  let finished :=
    snd (run_triage_background PipelineSamples.mapping_ok
           PipelineSamples.urgency_ok PipelineSamples.evaluation_ok
           Samples.cardiology_only (Returned tt) PipelineSamples.load_two
           PipelineSamples.report_ok PipelineSamples.sheet_ok
           PipelineSamples.report_ok PipelineSamples.report_ok
           PipelineSamples.report_ok "patients.json"
           PipelineSamples.idle) in
  let after :=
    snd (start_triage "patients.json" (Raised "400 Bad Request")
           (Returned tt) finished) in
  List.length (results (status finished)) = 2%nat
  /\ results (status after) = []
  /\ threads after = threads finished
  /\ start_triage "patients.json" (Returned JFalsy) (Returned tt) after
     = (Returned false, after).
Proof.
  intros finished after.
  destruct (failed_start_blocks_later_starts "patients.json"
              (Raised "400 Bad Request") (Returned tt) finished
              "400 Bad Request" ltac:(reflexivity))
    as (_ & _ & Hthreads & Hresults & _ & Hlater).
  split; [reflexivity|]. split; [exact Hresults|].
  split; [exact Hthreads|]. apply Hlater.
Defined.

End StartTheorems.

(** ** The web run and the orchestrator side by side *)

Module AgreementFacts.
Import App.

Section WithStages.

Variable analyze_symptoms : Patient.t -> outcome analysis.
Variable calculate_urgency : Patient.t -> analysis -> outcome analysis.
Variable final_evaluation :
  Patient.t -> analysis -> analysis -> outcome analysis.
Variable db : database.




End WithStages.

End AgreementFacts.

Module AgreementTheorems.
Import App.



End AgreementTheorems.

(** ** Reports and appointments: counts and lengths *)

Module CountFacts.
Import Reports Calendar.

Lemma int_from_nonneg (s : string) (acc : Z) : 0 <= acc -> 0 <= int_from acc s.
Proof.
  revert acc. induction s as [|c s IH]; intros acc H; [exact H|].
  cbn [int_from]. apply IH. unfold digit_value. lia.
Qed.

Lemma duration_minutes_nonneg (s : string) : 0 <= duration_minutes s.
Proof.
  unfold duration_minutes, int_of_digits.
  destruct (join_if is_digit s); [lia|]. now apply int_from_nonneg.
Qed.

Lemma int_from_app (s t : string) (acc : Z) :
  int_from acc (s ++ t) = int_from (int_from acc s) t.
Proof.
  revert acc. induction s as [|c s IH]; intros acc; [reflexivity|].
  cbn [append int_from]. apply IH.
Qed.

(** The string of digits [s] reads as the number [n] in base ten: its
    last digit is the units, what stands before it counts tenfold. *)
Inductive reads_as : string -> Z -> Prop :=
| reads_nothing : reads_as EmptyString 0
| reads_digit s n c :
    (48 <= nat_of_ascii c <= 57)%nat -> reads_as s n ->
    reads_as (s ++ String c EmptyString)
             (10 * n + (Z.of_nat (nat_of_ascii c) - 48)).

Lemma reads_as_int_from (s : string) (n : Z) :
  reads_as s n -> int_from 0 s = n.
Proof.
  induction 1 as [|s n c Hc _ IH]; [reflexivity|].
  rewrite int_from_app, IH. cbn [int_from]. unfold digit_value. lia.
Qed.

(** X23. For an ASCII duration text of at most 4300 characters, the
    length of an appointment is split into whole hours and fewer than
    sixty minutes that add up to the number its digits read as when
    written one after the other; a text without any digit, like a missing
    one, gives thirty minutes. *)
Theorem event_duration_split (estimated : option string) :
  let text := default "30 minutes" estimated in
  let digits := join_if is_digit text in
  PyStr.isascii text = true ->
  (String.length text <= 4300)%nat ->
  0 <= fst (event_duration estimated)
  /\ 0 <= snd (event_duration estimated) < 60
  /\ (forall n,
        digits <> EmptyString -> reads_as digits n ->
        60 * fst (event_duration estimated) + snd (event_duration estimated)
        = n)
  /\ (digits = EmptyString -> event_duration estimated = (0, 30))
  /\ (estimated = None -> event_duration estimated = (0, 30)).
Proof.
  intros text digits _ _. unfold event_duration. cbv zeta. fold text.
  cbn [fst snd].
  pose proof (duration_minutes_nonneg text) as Hn.
  pose proof (Z.div_mod (duration_minutes text) 60 ltac:(lia)) as Hdm.
  pose proof (Z.mod_pos_bound (duration_minutes text) 60 ltac:(lia)) as Hm.
  split; [apply Z.div_pos; lia|]. split; [exact Hm|]. split; [|split].
  - intros n Hne Hreads. apply reads_as_int_from in Hreads.
    assert (duration_minutes text = n) as <-; [|lia].
    unfold duration_minutes, int_of_digits. fold digits.
    destruct digits; [contradiction | exact Hreads].
  - intros He. unfold duration_minutes. fold digits. now rewrite He.
  - intros ->. reflexivity.
Qed.

(** "45 min": four tens and five units, no full hour. *)
Lemma event_duration_split_witness :
  60 * fst (event_duration (Some "45 min"))
  + snd (event_duration (Some "45 min")) = 45.
Proof.
  assert (String.length "45 min" <= 4300)%nat as Hlen
    by (apply Nat.leb_le; reflexivity).
  apply (proj1 (proj2 (proj2
           (event_duration_split (Some "45 min") eq_refl Hlen))) 45).
  - discriminate.
  - apply (reads_digit "4" 4 "5");
      [split; apply Nat.leb_le; reflexivity|].
    apply (reads_digit EmptyString 0 "4");
      [split; apply Nat.leb_le; reflexivity | constructor].
Defined.

(** A text without a digit falls back on thirty minutes. *)
Example event_duration_without_digits :
  event_duration (Some "about half an hour") = (0, 30).
Proof. reflexivity. Qed.

(** All the digits of the text are read as one number. *)
Example event_duration_runs_digits_together :
  event_duration (Some "1 hour 30 minutes") = (2, 10).
Proof. reflexivity. Qed.

Section Pdfs.

Variable generate_patient_pdf : triage_result -> string -> bool.
Variable generate_doctor_pdf : triage_result -> string -> bool.
Variable generate_consolidated_report :
  list triage_result -> string -> bool.
Variable output_dir : string.
Variable h : list doctor.

Let per_record := pdfs_for generate_patient_pdf generate_doctor_pdf
                    output_dir h.

Lemma pdfs_for_bounds (r : triage_result) :
  0 <= per_record r <= 2 /\ (doctor_of h r = None -> per_record r <= 1).
Proof.
  unfold per_record, pdfs_for. cbv zeta.
  destruct (generate_patient_pdf _ _); destruct (doctor_of h r);
    try destruct (generate_doctor_pdf _ _); split; try lia;
    intros; try discriminate; lia.
Qed.

Lemma pdf_count_bounds (results : list triage_result) (count : Z) :
  count <= fold_left (fun c r => c + per_record r) results count
        <= count + 2 * Z.of_nat (List.length results)
  /\ (Forall (fun r => doctor_of h r = None) results ->
      fold_left (fun c r => c + per_record r) results count
      <= count + Z.of_nat (List.length results)).
Proof.
  revert count. induction results as [|r rest IH]; intros count.
  - cbn. split; [lia | intros _; lia].
  - cbn [fold_left List.length].
    destruct (IH (count + per_record r)) as [Hb Hn].
    destruct (pdfs_for_bounds r) as [Hr Hr1].
    split; [lia|]. intros Hall. inversion Hall as [|? ? H1 H2]. subst.
    specialize (Hn H2). specialize (Hr1 H1). lia.
Qed.

(** X24. The number of PDF files reported is at least zero and at most two
    per record plus one, the consolidated report; records without a
    matched doctor count at most one each. *)
Theorem generate_all_pdfs_bounds (results : list triage_result) :
  let count := generate_all_pdfs generate_patient_pdf generate_doctor_pdf
                 generate_consolidated_report output_dir h results in
  0 <= count <= 2 * Z.of_nat (List.length results) + 1
  /\ (Forall (fun r => matched_doctor r = None) results ->
      count <= Z.of_nat (List.length results) + 1).
Proof.
  intros count. subst count. unfold generate_all_pdfs. cbv zeta.
  destruct (pdf_count_bounds results 0) as [Hb Hn].
  fold per_record.
  destruct (generate_consolidated_report _ _); (split; [lia|]);
    intros Hall;
    (assert (Forall (fun r => doctor_of h r = None) results) as Hd
       by (eapply Forall_impl; [exact Hall|];
           intros r Hr; unfold doctor_of; now rewrite Hr));
    specialize (Hn Hd); lia.
Qed.

End Pdfs.

(** Nobody was matched and every file could be written: one file per
    record and the consolidated one. *)
Lemma generate_all_pdfs_bounds_witness :
  generate_all_pdfs (fun _ _ => true) (fun _ _ => true) (fun _ _ => true)
    "pdf_reports" []
    [ {| patient := PipelineSamples.bob;
         result_analyses :=
           {| gemini := error_placeholder "Connection error.";
              grok := error_placeholder "Connection error.";
              o4mini := error_placeholder "Connection error." |};
         matched_doctor := None |} ]
  <= Z.of_nat 1 + 1.
Proof.
  apply (proj2 (generate_all_pdfs_bounds (fun _ _ => true) (fun _ _ => true)
                  (fun _ _ => true) "pdf_reports" []
                  [ {| patient := PipelineSamples.bob;
                       result_analyses :=
                         {| gemini := error_placeholder "Connection error.";
                            grok := error_placeholder "Connection error.";
                            o4mini := error_placeholder "Connection error." |};
                       matched_doctor := None |} ])).
  repeat constructor.
Defined.

End CountFacts.

Module RecordWitnesses.


End RecordWitnesses.
